(** * statsclient: the Wi-Fi provisioning module and the application state machine

    A shallow embedding of the Wi-Fi provisioning module
    ([wifi_provisioning.c]: the HTTP provisioning layer, the scan cache, the
    link and address event handlers) and of the control loop of [main.c].
    The repository holds the module twice: a copy that traces requests and
    responses, which the definitions below follow, and an older copy that
    differs in [provision_handler] only ([Minimal.provision_handler]).

    The module's file-scope variables, the NVS namespace [device_config] and
    the list of platform calls issued so far form one record, [device].
    Every C function becomes a function on [device]; what the platform
    answers to the calls made during one invocation (NVS, radio, HTTP
    server, allocator, reachability probe) is passed in as an [env].
    [ESP_ERROR_CHECK] aborts the firmware: functions that can reach one
    return an [option], with [None] for the abort. *)

From Stdlib Require Import ZArith Bool Ascii String List Lia.
From stdpp Require Import base option strings gmap list pretty.

Local Open Scope string_scope.
Local Open Scope Z_scope.

Set Warnings "-register-all".

(** ** Error codes ([esp_err.h] and [nvs.h] of ESP-IDF) *)

Definition esp_err_t := Z.
Definition ESP_OK : esp_err_t := 0.
Definition ESP_FAIL : esp_err_t := -1.
Definition ESP_ERR_NO_MEM : esp_err_t := 257.          (* 0x101 *)
Definition ESP_ERR_INVALID_ARG : esp_err_t := 258.     (* 0x102 *)
Definition ESP_ERR_INVALID_STATE : esp_err_t := 259.   (* 0x103 *)
Definition ESP_ERR_TIMEOUT : esp_err_t := 263.         (* 0x107 *)
Definition ESP_ERR_NVS_NOT_FOUND : esp_err_t := 4354.  (* 0x1102 *)
Definition ESP_ERR_NVS_INVALID_LENGTH : esp_err_t := 4364. (* 0x110c *)

Definition is_ok (e : esp_err_t) : bool := e =? ESP_OK.

(** ** Configuration and NVS keys *)

Definition WIFI_SCAN_MAX_APS : Z := 20.

Definition NVS_KEY_WIFI_SSID := "wifi_ssid".
Definition NVS_KEY_WIFI_PASS := "wifi_pass".
Definition NVS_KEY_DEVICE_ID := "device_id".
Definition NVS_KEY_PROV_TOKEN := "prov_token".
Definition NVS_KEY_BEARER_TOKEN := "bearer_token".
Definition NVS_KEY_PROVISIONED := "provisioned".

(** The six keys of the stored credential record. *)
Definition credential_keys : list string :=
  [NVS_KEY_PROVISIONED; NVS_KEY_WIFI_SSID; NVS_KEY_WIFI_PASS;
   NVS_KEY_DEVICE_ID; NVS_KEY_PROV_TOKEN; NVS_KEY_BEARER_TOKEN].

Definition uint16 (z : Z) : Z := z mod 65536.

(** ** Data *)

(** The fields of [wifi_ap_record_t] that the module reads. *)
Record wifi_ap_record_t := {
  ap_ssid : string;
  ap_rssi : Z;
  ap_primary : Z;
  ap_authmode : Z
}.

Definition WIFI_AUTH_OPEN : Z := 0.

Definition ap_record_zero : wifi_ap_record_t :=
  {| ap_ssid := EmptyString; ap_rssi := 0; ap_primary := 0; ap_authmode := 0 |}.

Inductive nvs_value :=
| NvsStr (s : string)
| NvsU8 (n : Z).

Definition httpd_handle_t := option positive.

(** Calls into the platform that act outside the module's own variables. *)
Inductive hal_call :=
| Httpd_start
| Httpd_stop
| Wifi_init_ap
| Wifi_scan_start
| Wifi_stop
| Wifi_connect_sta (ssid password : string)
| Nvs_set (key : string)
| Nvs_erase_key (key : string)
| Nvs_commit
| Probe
| Csr_submit
| Mqtt_start
| Mqtt_stop.

Record device := {
  s_httpd : httpd_handle_t;
  s_provisioning_active : bool;
  s_wifi_connected : bool;
  s_sta_ip : string;
  s_cached_networks : list wifi_ap_record_t;
  s_cached_network_count : Z;
  s_cache_mutex : bool;          (* false: the handle is still NULL *)
  s_initial_scan_done : bool;
  nvs : gmap string nvs_value;
  hal_trace : list hal_call
}.

Definition device_boot : device :=
  {| s_httpd := None; s_provisioning_active := false;
     s_wifi_connected := false; s_sta_ip := EmptyString;
     s_cached_networks := replicate 20 ap_record_zero;
     s_cached_network_count := 0; s_cache_mutex := false;
     s_initial_scan_done := false; nvs := ∅; hal_trace := [] |}.

Definition set_httpd (h : httpd_handle_t) (d : device) : device :=
  {| s_httpd := h; s_provisioning_active := s_provisioning_active d;
     s_wifi_connected := s_wifi_connected d; s_sta_ip := s_sta_ip d;
     s_cached_networks := s_cached_networks d;
     s_cached_network_count := s_cached_network_count d;
     s_cache_mutex := s_cache_mutex d;
     s_initial_scan_done := s_initial_scan_done d;
     nvs := nvs d; hal_trace := hal_trace d |}.

Definition set_provisioning_active (b : bool) (d : device) : device :=
  {| s_httpd := s_httpd d; s_provisioning_active := b;
     s_wifi_connected := s_wifi_connected d; s_sta_ip := s_sta_ip d;
     s_cached_networks := s_cached_networks d;
     s_cached_network_count := s_cached_network_count d;
     s_cache_mutex := s_cache_mutex d;
     s_initial_scan_done := s_initial_scan_done d;
     nvs := nvs d; hal_trace := hal_trace d |}.

Definition set_link (c : bool) (ip : string) (d : device) : device :=
  {| s_httpd := s_httpd d; s_provisioning_active := s_provisioning_active d;
     s_wifi_connected := c; s_sta_ip := ip;
     s_cached_networks := s_cached_networks d;
     s_cached_network_count := s_cached_network_count d;
     s_cache_mutex := s_cache_mutex d;
     s_initial_scan_done := s_initial_scan_done d;
     nvs := nvs d; hal_trace := hal_trace d |}.

Definition set_cached_networks (l : list wifi_ap_record_t) (d : device) : device :=
  {| s_httpd := s_httpd d; s_provisioning_active := s_provisioning_active d;
     s_wifi_connected := s_wifi_connected d; s_sta_ip := s_sta_ip d;
     s_cached_networks := l;
     s_cached_network_count := s_cached_network_count d;
     s_cache_mutex := s_cache_mutex d;
     s_initial_scan_done := s_initial_scan_done d;
     nvs := nvs d; hal_trace := hal_trace d |}.

Definition set_cached_network_count (n : Z) (d : device) : device :=
  {| s_httpd := s_httpd d; s_provisioning_active := s_provisioning_active d;
     s_wifi_connected := s_wifi_connected d; s_sta_ip := s_sta_ip d;
     s_cached_networks := s_cached_networks d;
     s_cached_network_count := n;
     s_cache_mutex := s_cache_mutex d;
     s_initial_scan_done := s_initial_scan_done d;
     nvs := nvs d; hal_trace := hal_trace d |}.

Definition set_cache_mutex (b : bool) (d : device) : device :=
  {| s_httpd := s_httpd d; s_provisioning_active := s_provisioning_active d;
     s_wifi_connected := s_wifi_connected d; s_sta_ip := s_sta_ip d;
     s_cached_networks := s_cached_networks d;
     s_cached_network_count := s_cached_network_count d;
     s_cache_mutex := b;
     s_initial_scan_done := s_initial_scan_done d;
     nvs := nvs d; hal_trace := hal_trace d |}.

Definition set_initial_scan_done (b : bool) (d : device) : device :=
  {| s_httpd := s_httpd d; s_provisioning_active := s_provisioning_active d;
     s_wifi_connected := s_wifi_connected d; s_sta_ip := s_sta_ip d;
     s_cached_networks := s_cached_networks d;
     s_cached_network_count := s_cached_network_count d;
     s_cache_mutex := s_cache_mutex d;
     s_initial_scan_done := b;
     nvs := nvs d; hal_trace := hal_trace d |}.

Definition set_nvs (m : gmap string nvs_value) (d : device) : device :=
  {| s_httpd := s_httpd d; s_provisioning_active := s_provisioning_active d;
     s_wifi_connected := s_wifi_connected d; s_sta_ip := s_sta_ip d;
     s_cached_networks := s_cached_networks d;
     s_cached_network_count := s_cached_network_count d;
     s_cache_mutex := s_cache_mutex d;
     s_initial_scan_done := s_initial_scan_done d;
     nvs := m; hal_trace := hal_trace d |}.

(** Record one platform call (most recent first). *)
Definition hal (c : hal_call) (d : device) : device :=
  {| s_httpd := s_httpd d; s_provisioning_active := s_provisioning_active d;
     s_wifi_connected := s_wifi_connected d; s_sta_ip := s_sta_ip d;
     s_cached_networks := s_cached_networks d;
     s_cached_network_count := s_cached_network_count d;
     s_cache_mutex := s_cache_mutex d;
     s_initial_scan_done := s_initial_scan_done d;
     nvs := nvs d; hal_trace := c :: hal_trace d |}.

(** ** What the platform answers during one invocation *)

Record env := {
  e_mutex_create : bool;              (* xSemaphoreCreateMutex() != NULL *)
  e_scan_start : esp_err_t;           (* esp_wifi_scan_start *)
  e_scan_ap_num : Z;                  (* esp_wifi_scan_get_ap_num *)
  e_scan_records : list wifi_ap_record_t; (* what the driver holds *)
  e_take_update : bool;               (* xSemaphoreTake(.., 5000 ms) *)
  e_take_read : bool;                 (* xSemaphoreTake(.., 1000 ms) *)
  e_nvs_open_rw : esp_err_t;          (* nvs_open(.., NVS_READWRITE, ..) *)
  e_nvs_open_ro : esp_err_t;          (* nvs_open(.., NVS_READONLY, ..) *)
  e_nvs_set : string -> esp_err_t;    (* nvs_set_str / nvs_set_u8, by key *)
  e_nvs_commit : esp_err_t;
  e_netif_init : esp_err_t;           (* esp_netif_init *)
  e_event_loop : esp_err_t;           (* esp_event_loop_create_default *)
  e_wifi_init_ok : bool;              (* every ESP_ERROR_CHECK of wifi_init_ap passes *)
  e_httpd_start : httpd_handle_t;     (* server handle, None when httpd_start fails *)
  e_print_ok : bool;                  (* cJSON_Print() != NULL *)
  e_probe : esp_err_t;                (* internet_verification_test *)
  e_has_certificates : bool;          (* certificate_manager_has_certificates *)
  e_submit_csr : esp_err_t;           (* certificate_manager_submit_csr *)
  e_mqtt_start : esp_err_t;           (* mqtt_handler_start *)
  e_mqtt_connected : nat -> bool      (* n-th mqtt_handler_is_connected *)
}.

(** ** The scan cache *)

(** [esp_wifi_scan_get_ap_records(&s_cached_network_count, s_cached_networks)]:
    the driver copies at most as many records as the count passed in and
    writes the number copied back into it. *)
Definition esp_wifi_scan_get_ap_records (e : env) (d : device) : device :=
  let got := take (Z.to_nat (s_cached_network_count d)) (e_scan_records e) in
  set_cached_networks ((got ++ drop (length got) (s_cached_networks d))%list)
    (set_cached_network_count (Z.of_nat (length got)) d).

Definition perform_wifi_scan_and_cache (e : env) (d : device) : esp_err_t * device :=
  if negb (s_cache_mutex d) && negb (e_mutex_create e) then (ESP_ERR_NO_MEM, d)
  else
    let d := if s_cache_mutex d then d else set_cache_mutex true d in
    let d := hal Wifi_scan_start d in
    let ret := e_scan_start e in
    if negb (is_ok ret) then (ret, d)
    else
      let ap_count := uint16 (e_scan_ap_num e) in
      let ap_count :=
        if ap_count >? WIFI_SCAN_MAX_APS then WIFI_SCAN_MAX_APS else ap_count in
      if e_take_update e then
        let d := set_cached_network_count ap_count d in
        let d := if ap_count >? 0 then esp_wifi_scan_get_ap_records e d else d in
        (ESP_OK, set_initial_scan_done true d)
      else (ESP_ERR_TIMEOUT, d).

(** ** JSON values (cJSON) *)

Inductive cJSON :=
| cJSON_NULL
| cJSON_False
| cJSON_True
| cJSON_Number (valueint : Z)
| cJSON_String (valuestring : string)
| cJSON_Array (items : list cJSON)
| cJSON_Object (members : list (string * cJSON)).

Definition cJSON_Bool (b : bool) : cJSON := if b then cJSON_True else cJSON_False.

Definition tolower (c : ascii) : ascii :=
  let n := nat_of_ascii c in
  if (65 <=? n)%nat && (n <=? 90)%nat then ascii_of_nat (n + 32) else c.

(** [strncasecmp a b n == 0] *)
Fixpoint strncasecmp_eq (a b : string) (n : nat) : bool :=
  match n with
  | O => true
  | S n' =>
      match a, b with
      | EmptyString, EmptyString => true
      | String x a', String y b' =>
          if Ascii.eqb (tolower x) (tolower y) then strncasecmp_eq a' b' n' else false
      | _, _ => false
      end
  end.

(** cJSON's [case_insensitive_strcmp a b == 0] *)
Fixpoint strcasecmp_eq (a b : string) : bool :=
  match a, b with
  | EmptyString, EmptyString => true
  | String x a', String y b' =>
      Ascii.eqb (tolower x) (tolower y) && strcasecmp_eq a' b'
  | _, _ => false
  end.

(** [cJSON_GetObjectItem]: the first member whose name matches, compared
    without regard to case; NULL for anything that has no named members. *)
Definition cJSON_GetObjectItem (object : cJSON) (name : string) : option cJSON :=
  match object with
  | cJSON_Object members =>
      snd <$> List.find (fun kv => strcasecmp_eq (fst kv) name) members
  | _ => None
  end.

Definition cJSON_IsString (item : option cJSON) : bool :=
  match item with
  | Some (cJSON_String _) => true
  | _ => false
  end.

Definition valuestring_of (item : option cJSON) : string :=
  match item with
  | Some (cJSON_String s) => s
  | _ => EmptyString
  end.

(** [cJSON_Print]: the document itself, or NULL when the allocator fails. *)
Definition cJSON_Print (e : env) (j : cJSON) : option cJSON :=
  if e_print_ok e then Some j else None.

(** ** HTTP requests and responses *)

Record httpd_req_t := {
  (* the value of the query key refresh, when httpd_req_get_url_query_str
     and httpd_query_key_value both return ESP_OK *)
  req_query_refresh : option string;
  (* the value of the Authorization header, None when there is none *)
  req_authorization : option string;
  (* what httpd_req_recv returns *)
  req_recv : Z;
  (* what cJSON_Parse returns on the received content *)
  req_json : option cJSON
}.

(** A response: the status line (200 unless the handler sets it) and the
    body handed to [httpd_resp_sendstr]; [None] is the NULL string, sent as
    an empty body. *)
Record http_response := {
  resp_status : Z;
  resp_body : option cJSON
}.

Definition respond (status : Z) (j : cJSON) : http_response :=
  {| resp_status := status; resp_body := Some j |}.

Definition error_json (code : string) : cJSON :=
  cJSON_Object [("error", cJSON_String code)].

(** ** NVS *)

Definition nvs_set (e : env) (key : string) (v : nvs_value) (d : device)
  : esp_err_t * device :=
  let err := e_nvs_set e key in
  if is_ok err then (err, hal (Nvs_set key) (set_nvs (<[key:=v]> (nvs d)) d))
  else (err, d).

(** The module does not look at what [nvs_erase_key] returns: on the open
    handle the key is gone afterwards. *)
Definition nvs_erase_key (key : string) (d : device) : device :=
  hal (Nvs_erase_key key) (set_nvs (delete key (nvs d)) d).

Definition nvs_commit (e : env) (d : device) : esp_err_t * device :=
  (e_nvs_commit e, hal Nvs_commit d).

Definition save_wifi_credentials (e : env)
    (ssid password device_id prov_token : string) (bearer_token : option string)
    (d : device) : esp_err_t * device :=
  let err := e_nvs_open_rw e in
  if negb (is_ok err) then (err, d) else
  let '(err, d) := nvs_set e NVS_KEY_WIFI_SSID (NvsStr ssid) d in
  if negb (is_ok err) then (err, d) else
  let '(err, d) := nvs_set e NVS_KEY_WIFI_PASS (NvsStr password) d in
  if negb (is_ok err) then (err, d) else
  let '(err, d) := nvs_set e NVS_KEY_DEVICE_ID (NvsStr device_id) d in
  if negb (is_ok err) then (err, d) else
  let '(err, d) := nvs_set e NVS_KEY_PROV_TOKEN (NvsStr prov_token) d in
  if negb (is_ok err) then (err, d) else
  let '(err, d) :=
    match bearer_token with
    | Some b =>
        if (0 <? String.length b)%nat
        then nvs_set e NVS_KEY_BEARER_TOKEN (NvsStr b) d
        else (err, d)
    | None => (err, d)
    end in
  if negb (is_ok err) then (err, d) else
  let '(err, d) := nvs_set e NVS_KEY_PROVISIONED (NvsU8 1) d in
  if negb (is_ok err) then (err, d) else
  nvs_commit e d.

Definition wifi_provisioning_is_provisioned (e : env) (d : device) : bool :=
  if negb (is_ok (e_nvs_open_ro e)) then false
  else
    let provisioned :=
      match nvs d !! NVS_KEY_PROVISIONED with
      | Some (NvsU8 v) => v
      | _ => 0
      end in
    provisioned =? 1.

(** ** Starting and stopping the provisioning listener *)

Definition wifi_provisioning_stop (d : device) : esp_err_t * device :=
  if negb (s_provisioning_active d) then (ESP_OK, d)
  else
    let d := match s_httpd d with
             | Some _ => set_httpd None (hal Httpd_stop d)
             | None => d
             end in
    let d := set_initial_scan_done false d in
    let d := set_cached_network_count 0 d in
    (ESP_OK, set_provisioning_active false d).

Definition start_http_server (e : env) (d : device) : httpd_handle_t * device :=
  match e_httpd_start e with
  | Some server => (Some server, hal Httpd_start d)
  | None => (None, d)
  end.

Definition wifi_init_ap (e : env) (d : device) : option (esp_err_t * device) :=
  if e_wifi_init_ok e then Some (ESP_OK, hal Wifi_init_ap d) else None.

Definition wifi_provisioning_start (e : env) (d : device)
  : option (esp_err_t * device) :=
  if s_provisioning_active d then Some (ESP_OK, d)
  else
    let ret := e_netif_init e in
    if negb (is_ok ret) && negb (ret =? ESP_ERR_INVALID_STATE) then Some (ret, d)
    else
      let ret := e_event_loop e in
      if negb (is_ok ret) && negb (ret =? ESP_ERR_INVALID_STATE) then Some (ret, d)
      else
        match wifi_init_ap e d with
        | None => None
        | Some (ret, d) =>
            if negb (is_ok ret) then Some (ret, d)
            else
              let '(_, d) := perform_wifi_scan_and_cache e d in
              let '(server, d) := start_http_server e d in
              let d := set_httpd server d in
              match server with
              | None => Some (ESP_FAIL, hal Wifi_stop d)
              | Some _ => Some (ESP_OK, set_provisioning_active true d)
              end
        end.

Definition wifi_provisioning_clear_and_restart (e : env) (d : device)
  : option (esp_err_t * device) :=
  let d := match s_httpd d with
           | Some _ => set_httpd None (hal Httpd_stop d)
           | None => d
           end in
  let d := set_initial_scan_done false d in
  let d := set_cached_network_count 0 d in
  let d := set_provisioning_active false d in
  let d :=
    if is_ok (e_nvs_open_rw e) then
      let d := nvs_erase_key NVS_KEY_PROVISIONED d in
      let d := nvs_erase_key NVS_KEY_WIFI_SSID d in
      let d := nvs_erase_key NVS_KEY_WIFI_PASS d in
      let d := nvs_erase_key NVS_KEY_DEVICE_ID d in
      let d := nvs_erase_key NVS_KEY_PROV_TOKEN d in
      let d := nvs_erase_key NVS_KEY_BEARER_TOKEN d in
      snd (nvs_commit e d)
    else d in
  let d := hal Wifi_stop d in
  let d := set_link false EmptyString d in
  match wifi_provisioning_start e d with
  | None => None
  | Some (err, d) => if negb (is_ok err) then Some (err, d) else Some (ESP_OK, d)
  end.

(** ** HTTP handlers *)

Definition network_json (ap : wifi_ap_record_t) : cJSON :=
  cJSON_Object
    [("ssid", cJSON_String (ap_ssid ap));
     ("rssi", cJSON_Number (ap_rssi ap));
     ("channel", cJSON_Number (ap_primary ap));
     ("secure", cJSON_Bool (negb (ap_authmode ap =? WIFI_AUTH_OPEN)))].

(** The entries [s_cached_networks[0 .. s_cached_network_count - 1]]. *)
Definition cached_entries (d : device) : list wifi_ap_record_t :=
  take (Z.to_nat (s_cached_network_count d)) (s_cached_networks d).

Definition scan_failed_json : cJSON :=
  cJSON_Object [("error", cJSON_String "scan_failed");
                ("message", cJSON_String "No cached data available")].

(** GET /local-wifi *)
Definition scan_handler (e : env) (req : httpd_req_t) (d : device)
  : esp_err_t * http_response * device :=
  let force_refresh :=
    match req_query_refresh req with
    | Some param => String.eqb param "true" || String.eqb param "1"
    | None => false
    end in
  let '(no_data, d) :=
    if negb (s_initial_scan_done d) || force_refresh then
      let '(ret, d) := perform_wifi_scan_and_cache e d in
      (negb (is_ok ret) && negb (s_initial_scan_done d), d)
    else (false, d) in
  if no_data then (ESP_FAIL, respond 500 scan_failed_json, d)
  else if negb (s_cache_mutex d) || negb (e_take_read e) then
    (ESP_FAIL, respond 500 (error_json "cache_busy"), d)
  else
    let networks := cJSON_Array (map network_json (cached_entries d)) in
    let count := s_cached_network_count d in
    let root :=
      cJSON_Object [("networks", networks);
                    ("count", cJSON_Number count);
                    ("cached", cJSON_Bool (negb force_refresh))] in
    match cJSON_Print e root with
    | None => (ESP_FAIL, respond 500 (error_json "json_error"), d)
    | Some json_string => (ESP_OK, respond 200 json_string, d)
    end.

Fixpoint string_skip (n : nat) (s : string) : string :=
  match n, s with
  | S n', String _ s' => string_skip n' s'
  | _, _ => s
  end.

Fixpoint string_prefix (n : nat) (s : string) : string :=
  match n, s with
  | S n', String c s' => String c (string_prefix n' s')
  | _, _ => EmptyString
  end.

(** The token carried by an Authorization header value. *)
Definition extract_bearer (auth_header : string) : string :=
  if strncasecmp_eq auth_header "Bearer " 7 then string_skip 7 auth_header
  else auth_header.

(** One of the four presence checks of the request-tracing handler: the
    name is appended to the array of missing fields. *)
Definition check_required (root : cJSON) (name : string)
    (acc : list string * bool) : list string * bool :=
  if negb (cJSON_IsString (cJSON_GetObjectItem root name))
  then ((fst acc ++ [name])%list, true)
  else acc.

Definition missing_fields_json (missing : list string) : cJSON :=
  cJSON_Object
    [("error", cJSON_String "missing_fields");
     ("message", cJSON_String "One or more required fields are missing");
     ("missing_fields", cJSON_Array (map cJSON_String missing))].

Definition missing_fallback_json : cJSON :=
  cJSON_Object
    [("error", cJSON_String "missing_fields");
     ("message", cJSON_String "Failed to generate detailed error")].

Definition saved_json : cJSON :=
  cJSON_Object [("status", cJSON_String "ok");
                ("message", cJSON_String "Credentials saved")].

(** POST /provision, the handler with request and response tracing.  A
    header value that fits the buffer is taken to be read without error. *)
Definition provision_handler (e : env) (req : httpd_req_t) (d : device)
  : esp_err_t * http_response * device :=
  let bearer_token :=
    match req_authorization req with
    | Some auth_header =>
        let auth_len := (String.length auth_header + 1)%nat in
        if (1 <? auth_len)%nat && (auth_len <=? 256)%nat
        then Some (extract_bearer auth_header)
        else None
    | None => None
    end in
  if req_recv req <=? 0 then
    (ESP_FAIL, respond 400 (error_json "invalid_request"), d)
  else
    match req_json req with
    | None => (ESP_FAIL, respond 400 (error_json "invalid_json"), d)
    | Some root =>
        let ssid_json := cJSON_GetObjectItem root "ssid" in
        let password_json := cJSON_GetObjectItem root "password" in
        let device_id_json := cJSON_GetObjectItem root "device_id" in
        let token_json := cJSON_GetObjectItem root "provisioning_token" in
        let acc := ([], false) in
        let acc := check_required root "ssid" acc in
        let acc := check_required root "password" acc in
        let acc := check_required root "device_id" acc in
        let acc := check_required root "provisioning_token" acc in
        let '(missing, has_error) := acc in
        if has_error then
          match cJSON_Print e (missing_fields_json missing) with
          | Some error_json => (ESP_FAIL, respond 400 error_json, d)
          | None => (ESP_FAIL, respond 400 missing_fallback_json, d)
          end
        else
          let ssid := valuestring_of ssid_json in
          let password := valuestring_of password_json in
          let device_id := valuestring_of device_id_json in
          let prov_token := valuestring_of token_json in
          let '(err, d) :=
            save_wifi_credentials e ssid password device_id prov_token
              bearer_token d in
          if negb (is_ok err) then
            (ESP_FAIL, respond 500 (error_json "save_failed"), d)
          else
            let '(_, d) := wifi_provisioning_stop d in
            (ESP_OK, respond 200 saved_json, d)
    end.

(** The older copy of the module differs in [provision_handler] only: one
    combined presence check, and the handler itself goes on to start the
    station connection. *)
Module Minimal.

(** POST /provision. [None]: the header does not fit [auth_header[512]]
    and the copy runs past the buffer; or the save went through: the
    handler then deletes the parsed document ([cJSON_Delete(root)]) and
    afterwards copies the ssid and the password out of it for the station
    connection, so what it connects with, and does from there on, is not
    defined. *)
Definition provision_handler (e : env) (req : httpd_req_t) (d : device)
  : option (esp_err_t * http_response * device) :=
  let bearer_token :=
    match req_authorization req with
    | Some auth_header =>
        let auth_len := (String.length auth_header + 1)%nat in
        if (1 <? auth_len)%nat then
          if (auth_len <=? 512)%nat then Some (Some (extract_bearer auth_header))
          else None
        else Some None
    | None => Some None
    end in
  match bearer_token with
  | None => None
  | Some bearer_token =>
    if req_recv req <=? 0 then
      Some (ESP_FAIL, respond 400 (error_json "invalid_request"), d)
    else
      match req_json req with
      | None => Some (ESP_FAIL, respond 400 (error_json "invalid_json"), d)
      | Some root =>
          let ssid_json := cJSON_GetObjectItem root "ssid" in
          let password_json := cJSON_GetObjectItem root "password" in
          let device_id_json := cJSON_GetObjectItem root "device_id" in
          let token_json := cJSON_GetObjectItem root "provisioning_token" in
          if negb (cJSON_IsString ssid_json) || negb (cJSON_IsString password_json)
             || negb (cJSON_IsString device_id_json)
             || negb (cJSON_IsString token_json)
          then Some (ESP_FAIL, respond 400 (error_json "missing_fields"), d)
          else
            let ssid := valuestring_of ssid_json in
            let password := valuestring_of password_json in
            let device_id := valuestring_of device_id_json in
            let prov_token := valuestring_of token_json in
            let '(err, d) :=
              save_wifi_credentials e ssid password device_id prov_token
                bearer_token d in
            if negb (is_ok err) then
              Some (ESP_FAIL, respond 500 (error_json "save_failed"), d)
            else None
      end
  end.

End Minimal.

Definition status_json (d : device) : cJSON :=
  if s_wifi_connected d then
    cJSON_Object [("status", cJSON_String "connected");
                  ("ip", cJSON_String (s_sta_ip d))]
  else if s_provisioning_active d then
    cJSON_Object [("status", cJSON_String "provisioning");
                  ("ip", cJSON_String "192.168.4.1")]
  else
    cJSON_Object [("status", cJSON_String "disconnected")].

(** GET /status *)
Definition status_handler (e : env) (req : httpd_req_t) (d : device)
  : esp_err_t * http_response * device :=
  let root := status_json d in
  let json_string := cJSON_Print e root in
  (ESP_OK, {| resp_status := 200; resp_body := json_string |}, d).

(** ** Link and address events *)

Inductive wifi_event_t :=
| WIFI_EVENT_AP_STACONNECTED
| WIFI_EVENT_AP_STADISCONNECTED
| WIFI_EVENT_STA_START
| WIFI_EVENT_STA_CONNECTED
| WIFI_EVENT_STA_DISCONNECTED
| WIFI_EVENT_other.

Inductive ip_event_t :=
| IP_EVENT_AP_STAIPASSIGNED
| IP_EVENT_STA_GOT_IP
| IP_EVENT_other.

Record esp_ip4_addr_t := { ip1 : Z; ip2 : Z; ip3 : Z; ip4 : Z }.

(** An event as handed to a handler: its base, its id and the fields of
    [event_data] that the handlers read. *)
Inductive esp_event :=
| WIFI_EVENT (event_id : wifi_event_t) (reason : Z)
| IP_EVENT (event_id : ip_event_t) (ip : esp_ip4_addr_t)
| OTHER_EVENT.

(** [snprintf(s_sta_ip, 16, IPSTR, IP2STR(&ip))] *)
Definition ip_to_string (ip : esp_ip4_addr_t) : string :=
  pretty (ip1 ip) +:+ "." +:+ pretty (ip2 ip) +:+ "." +:+
  pretty (ip3 ip) +:+ "." +:+ pretty (ip4 ip).

Definition is_auth_failure (reason : Z) : bool :=
  (reason =? 15) || ((201 <=? reason) && (reason <=? 209)).

Definition wifi_event_handler (e : env) (ev : esp_event) (d : device)
  : option device :=
  match ev with
  | WIFI_EVENT WIFI_EVENT_STA_DISCONNECTED reason =>
      let d := set_link false EmptyString d in
      if is_auth_failure reason then
        match wifi_provisioning_clear_and_restart e d with
        | None => None
        | Some (_, d) => Some d
        end
      else Some d
  | _ => Some d
  end.

Definition ip_event_handler (ev : esp_event) (d : device) : device :=
  match ev with
  | IP_EVENT IP_EVENT_STA_GOT_IP ip => set_link true (ip_to_string ip) d
  | _ => d
  end.

(** ** The application state machine ([main.c]) *)

Inductive app_state_t :=
| APP_STATE_INIT
| APP_STATE_CHECK_PROVISIONING
| APP_STATE_AP_MODE
| APP_STATE_WIFI_CONNECTING
| APP_STATE_WIFI_CONNECTED
| APP_STATE_CHECK_CERTIFICATES
| APP_STATE_SUBMIT_CSR
| APP_STATE_MQTT_CONNECTING
| APP_STATE_MQTT_CONNECTED
| APP_STATE_ERROR.

(** [s_app_state] and the function-local statics of the task. *)
Record app_task := {
  s_app_state : app_state_t;
  connection_attempted : bool;
  verification_done : bool;
  verification_retries : Z;
  mqtt_connect_retries : Z;
  connected_msg_shown : bool;
  heartbeat_counter : Z
}.

Definition app_boot : app_task :=
  {| s_app_state := APP_STATE_INIT; connection_attempted := false;
     verification_done := false; verification_retries := 0;
     mqtt_connect_retries := 0; connected_msg_shown := false;
     heartbeat_counter := 0 |}.

Definition set_app_state (s : app_state_t) (a : app_task) : app_task :=
  {| s_app_state := s; connection_attempted := connection_attempted a;
     verification_done := verification_done a;
     verification_retries := verification_retries a;
     mqtt_connect_retries := mqtt_connect_retries a;
     connected_msg_shown := connected_msg_shown a;
     heartbeat_counter := heartbeat_counter a |}.

Definition set_connection_attempted (b : bool) (a : app_task) : app_task :=
  {| s_app_state := s_app_state a; connection_attempted := b;
     verification_done := verification_done a;
     verification_retries := verification_retries a;
     mqtt_connect_retries := mqtt_connect_retries a;
     connected_msg_shown := connected_msg_shown a;
     heartbeat_counter := heartbeat_counter a |}.

Definition set_verification (done : bool) (retries : Z) (a : app_task) : app_task :=
  {| s_app_state := s_app_state a;
     connection_attempted := connection_attempted a;
     verification_done := done; verification_retries := retries;
     mqtt_connect_retries := mqtt_connect_retries a;
     connected_msg_shown := connected_msg_shown a;
     heartbeat_counter := heartbeat_counter a |}.

Definition set_mqtt_connect_retries (n : Z) (a : app_task) : app_task :=
  {| s_app_state := s_app_state a;
     connection_attempted := connection_attempted a;
     verification_done := verification_done a;
     verification_retries := verification_retries a;
     mqtt_connect_retries := n;
     connected_msg_shown := connected_msg_shown a;
     heartbeat_counter := heartbeat_counter a |}.

Definition set_heartbeat (shown : bool) (n : Z) (a : app_task) : app_task :=
  {| s_app_state := s_app_state a;
     connection_attempted := connection_attempted a;
     verification_done := verification_done a;
     verification_retries := verification_retries a;
     mqtt_connect_retries := mqtt_connect_retries a;
     connected_msg_shown := shown; heartbeat_counter := n |}.

Definition MAX_VERIFICATION_RETRIES : Z := 2.
Definition MAX_MQTT_RETRIES : Z := 3.

(** [nvs_get_str] into a buffer of [buf_len] bytes. *)
Definition nvs_get_str (d : device) (key : string) (buf_len : nat)
  : esp_err_t * string :=
  match nvs d !! key with
  | Some (NvsStr s) =>
      if (String.length s + 1 <=? buf_len)%nat then (ESP_OK, s)
      else (ESP_ERR_NVS_INVALID_LENGTH, EmptyString)
  | _ => (ESP_ERR_NVS_NOT_FOUND, EmptyString)
  end.

Definition get_provisioning_credentials (e : env) (d : device)
  : esp_err_t * string * string :=
  let err := e_nvs_open_ro e in
  if negb (is_ok err) then (err, EmptyString, EmptyString)
  else
    let '(err, device_id) := nvs_get_str d NVS_KEY_DEVICE_ID 64 in
    if negb (is_ok err) then (err, device_id, EmptyString)
    else
      let '(err, token) := nvs_get_str d NVS_KEY_PROV_TOKEN 256 in
      (err, device_id, token).

(** [wifi_sta_event_handler], registered for every Wi-Fi event and for
    the got-IP event. *)
Definition wifi_sta_event_handler (ev : esp_event) (a : app_task) : app_task :=
  match ev with
  | WIFI_EVENT WIFI_EVENT_STA_CONNECTED _ => set_app_state APP_STATE_WIFI_CONNECTED a
  | IP_EVENT IP_EVENT_STA_GOT_IP _ => set_app_state APP_STATE_WIFI_CONNECTED a
  | _ => a
  end.

(** The polling loop of MQTT_CONNECTING: [k] polls were made so far and
    [wait_count] is [30 - fuel]; the result is the number of polls made when
    the loop is left. *)
Fixpoint mqtt_wait (e : env) (fuel k : nat) : nat :=
  match fuel with
  | O => S k
  | S fuel' => if e_mqtt_connected e k then S k else mqtt_wait e fuel' (S k)
  end.

(** One iteration of the [while (1)] of [app_state_machine_task]. *)
Definition app_state_machine_step (e : env) (a : app_task) (d : device)
  : option (app_task * device) :=
  match s_app_state a with
  | APP_STATE_INIT => Some (set_app_state APP_STATE_CHECK_PROVISIONING a, d)
  | APP_STATE_CHECK_PROVISIONING =>
      if wifi_provisioning_is_provisioned e d
      then Some (set_app_state APP_STATE_WIFI_CONNECTING a, d)
      else Some (set_app_state APP_STATE_AP_MODE a, d)
  | APP_STATE_AP_MODE =>
      if negb (wifi_provisioning_is_provisioned e d) then
        match wifi_provisioning_start e d with
        | None => None
        | Some (_, d) => Some (a, d)
        end
      else Some (set_app_state APP_STATE_WIFI_CONNECTING a, d)
  | APP_STATE_WIFI_CONNECTING =>
      if negb (connection_attempted a) && is_ok (e_nvs_open_ro e) then
        let '(err, ssid) := nvs_get_str d "wifi_ssid" 33 in
        if is_ok err then
          let '(_, password) := nvs_get_str d "wifi_password" 65 in
          Some (set_connection_attempted true a,
                hal (Wifi_connect_sta (string_prefix 31 ssid)
                                      (string_prefix 63 password)) d)
        else Some (a, d)
      else Some (a, d)
  | APP_STATE_WIFI_CONNECTED =>
      if negb (wifi_provisioning_is_provisioned e d) then
        Some (set_app_state APP_STATE_AP_MODE (set_verification false 0 a), d)
      else if negb (verification_done a) then
        let d := hal Probe d in
        let ret := e_probe e in
        if is_ok ret then
          Some (set_app_state APP_STATE_CHECK_CERTIFICATES
                  (set_verification true 0 a), d)
        else
          let retries := verification_retries a + 1 in
          if retries >=? MAX_VERIFICATION_RETRIES then
            match wifi_provisioning_clear_and_restart e d with
            | None => None
            | Some (_, d) =>
                Some (set_app_state APP_STATE_AP_MODE (set_verification false 0 a), d)
            end
          else Some (set_verification (verification_done a) retries a, d)
      else Some (set_app_state APP_STATE_CHECK_CERTIFICATES a, d)
  | APP_STATE_CHECK_CERTIFICATES =>
      if e_has_certificates e
      then Some (set_app_state APP_STATE_MQTT_CONNECTING a, d)
      else Some (set_app_state APP_STATE_SUBMIT_CSR a, d)
  | APP_STATE_SUBMIT_CSR =>
      let '(ret, _, _) := get_provisioning_credentials e d in
      if negb (is_ok ret) then Some (set_app_state APP_STATE_ERROR a, d)
      else
        let d := hal Csr_submit d in
        if is_ok (e_submit_csr e)
        then Some (set_app_state APP_STATE_MQTT_CONNECTING a, d)
        else Some (a, d)
  | APP_STATE_MQTT_CONNECTING =>
      let d := hal Mqtt_start d in
      if is_ok (e_mqtt_start e) then
        let polls := mqtt_wait e 30 0 in
        if e_mqtt_connected e polls then
          Some (set_app_state APP_STATE_MQTT_CONNECTED
                  (set_mqtt_connect_retries 0 a), d)
        else
          let d := hal Mqtt_stop d in
          let retries := mqtt_connect_retries a + 1 in
          let a := set_mqtt_connect_retries retries a in
          if retries >=? MAX_MQTT_RETRIES
          then Some (set_app_state APP_STATE_ERROR a, d)
          else Some (a, d)
      else
        let retries := mqtt_connect_retries a + 1 in
        let a := set_mqtt_connect_retries retries a in
        if retries >=? MAX_MQTT_RETRIES
        then Some (set_app_state APP_STATE_ERROR a, d)
        else Some (a, d)
  | APP_STATE_MQTT_CONNECTED =>
      let a := set_heartbeat true (heartbeat_counter a) a in
      if negb (e_mqtt_connected e 0) then
        Some (set_app_state APP_STATE_MQTT_CONNECTING
                (set_heartbeat false (heartbeat_counter a) a),
              hal Mqtt_stop d)
      else
        let n := heartbeat_counter a + 1 in
        Some (set_heartbeat true (if n >=? 30 then 0 else n) a, d)
  | APP_STATE_ERROR => Some (a, d)
  end.

(** ** The three execution contexts

    The control loop, the HTTP handlers and the event callbacks all act on
    the same variables.  An [action] is one complete invocation from one of
    these contexts; a run is any sequence of them, each with its own
    platform answers.  Either copy of [provision_handler] may serve a
    request. *)

Inductive action :=
| Act_loop
| Act_sta_event (ev : esp_event)
| Act_wifi_event (ev : esp_event)
| Act_ip_event (ev : esp_event)
| Act_scan (req : httpd_req_t)
| Act_provision (req : httpd_req_t)
| Act_provision_minimal (req : httpd_req_t)
| Act_status (req : httpd_req_t).

Definition system_step (e : env) (act : action) (s : app_task * device)
  : option (app_task * device) :=
  let '(a, d) := s in
  match act with
  | Act_loop => app_state_machine_step e a d
  | Act_sta_event ev => Some (wifi_sta_event_handler ev a, d)
  | Act_wifi_event ev =>
      match wifi_event_handler e ev d with
      | None => None
      | Some d => Some (a, d)
      end
  | Act_ip_event ev => Some (a, ip_event_handler ev d)
  | Act_scan req => Some (a, snd (scan_handler e req d))
  | Act_provision req => Some (a, snd (provision_handler e req d))
  | Act_provision_minimal req =>
      match Minimal.provision_handler e req d with
      | None => None
      | Some r => Some (a, snd r)
      end
  | Act_status req => Some (a, snd (status_handler e req d))
  end.

Fixpoint run (s : app_task * device) (l : list (env * action)) : option (app_task * device) :=
  match l with
  | [] => Some s
  | (e, act) :: l' =>
      match system_step e act s with
      | None => None
      | Some s' => run s' l'
      end
  end.

(** The state after [app_main]: nothing started yet, whatever the flash holds. *)
Definition boot (flash : gmap string nvs_value) : app_task * device :=
  (app_boot, set_nvs flash device_boot).

Definition reachable (s : app_task * device) : Prop :=
  exists flash l, run (boot flash) l = Some s.

(** ** Sample platform answers and requests *)

(** Every call succeeds; the radio sees no network. *)
Definition env_ok : env :=
  {| e_mutex_create := true; e_scan_start := ESP_OK; e_scan_ap_num := 0;
     e_scan_records := []; e_take_update := true; e_take_read := true;
     e_nvs_open_rw := ESP_OK; e_nvs_open_ro := ESP_OK;
     e_nvs_set := fun _ => ESP_OK; e_nvs_commit := ESP_OK;
     e_netif_init := ESP_OK; e_event_loop := ESP_OK;
     e_wifi_init_ok := true; e_httpd_start := Some 1%positive;
     e_print_ok := true; e_probe := ESP_OK; e_has_certificates := false;
     e_submit_csr := ESP_OK; e_mqtt_start := ESP_OK;
     e_mqtt_connected := fun _ => true |}.

Definition with_scan (ret : esp_err_t) (num : Z) (aps : list wifi_ap_record_t)
    (e : env) : env :=
  {| e_mutex_create := e_mutex_create e; e_scan_start := ret;
     e_scan_ap_num := num; e_scan_records := aps;
     e_take_update := e_take_update e; e_take_read := e_take_read e;
     e_nvs_open_rw := e_nvs_open_rw e; e_nvs_open_ro := e_nvs_open_ro e;
     e_nvs_set := e_nvs_set e; e_nvs_commit := e_nvs_commit e;
     e_netif_init := e_netif_init e; e_event_loop := e_event_loop e;
     e_wifi_init_ok := e_wifi_init_ok e; e_httpd_start := e_httpd_start e;
     e_print_ok := e_print_ok e; e_probe := e_probe e;
     e_has_certificates := e_has_certificates e;
     e_submit_csr := e_submit_csr e; e_mqtt_start := e_mqtt_start e;
     e_mqtt_connected := e_mqtt_connected e |}.

Definition with_probe (ret : esp_err_t) (e : env) : env :=
  {| e_mutex_create := e_mutex_create e; e_scan_start := e_scan_start e;
     e_scan_ap_num := e_scan_ap_num e; e_scan_records := e_scan_records e;
     e_take_update := e_take_update e; e_take_read := e_take_read e;
     e_nvs_open_rw := e_nvs_open_rw e; e_nvs_open_ro := e_nvs_open_ro e;
     e_nvs_set := e_nvs_set e; e_nvs_commit := e_nvs_commit e;
     e_netif_init := e_netif_init e; e_event_loop := e_event_loop e;
     e_wifi_init_ok := e_wifi_init_ok e; e_httpd_start := e_httpd_start e;
     e_print_ok := e_print_ok e; e_probe := ret;
     e_has_certificates := e_has_certificates e;
     e_submit_csr := e_submit_csr e; e_mqtt_start := e_mqtt_start e;
     e_mqtt_connected := e_mqtt_connected e |}.

Definition sample_ap (name : string) (rssi : Z) : wifi_ap_record_t :=
  {| ap_ssid := name; ap_rssi := rssi; ap_primary := 6; ap_authmode := 3 |}.

Definition get_request (refresh : option string) : httpd_req_t :=
  {| req_query_refresh := refresh; req_authorization := None;
     req_recv := 0; req_json := None |}.

Definition post_request (auth : option string) (body : cJSON) : httpd_req_t :=
  {| req_query_refresh := None; req_authorization := auth;
     req_recv := 64; req_json := Some body |}.

(** The body of the specification's scenario. *)
Definition body_full : cJSON :=
  cJSON_Object [("ssid", cJSON_String "Net");
                ("password", cJSON_String "pw123456");
                ("device_id", cJSON_String "dev1");
                ("provisioning_token", cJSON_String "tok1")].

(** The listener after a successful [wifi_provisioning_start] on a fresh
    device, with two networks in the cache. *)
Definition device_listening : device :=
  match wifi_provisioning_start
          (with_scan ESP_OK 2 [sample_ap "Home" (-40); sample_ap "Cafe" (-70)] env_ok)
          device_boot with
  | Some (_, d) => d
  | None => device_boot
  end.

(** A device that holds a full record: the listening device after the
    scenario's submit, sent with a bearer token. *)
Definition device_provisioned : device :=
  snd (provision_handler env_ok (post_request (Some "Bearer abc") body_full)
         device_listening).

(** A radio that reports 25 access points and holds 25 records. *)
Definition env_crowded : env :=
  with_scan ESP_OK 25 (replicate 25 (sample_ap "Net" (-50))) env_ok.

Definition env_scan_fails : env := with_scan ESP_FAIL 0 [] env_ok.

Definition env_offline : env := with_probe ESP_FAIL env_ok.

(** The namespace does not open for writing; everything else succeeds. *)
Definition env_store_closed : env :=
  {| e_mutex_create := true; e_scan_start := ESP_OK; e_scan_ap_num := 0;
     e_scan_records := []; e_take_update := true; e_take_read := true;
     e_nvs_open_rw := ESP_FAIL; e_nvs_open_ro := ESP_OK;
     e_nvs_set := fun _ => ESP_OK; e_nvs_commit := ESP_OK;
     e_netif_init := ESP_OK; e_event_loop := ESP_OK;
     e_wifi_init_ok := true; e_httpd_start := Some 1%positive;
     e_print_ok := true; e_probe := ESP_OK; e_has_certificates := false;
     e_submit_csr := ESP_OK; e_mqtt_start := ESP_OK;
     e_mqtt_connected := fun _ => true |}.

(** [httpd_start] fails; everything else succeeds. *)
Definition env_no_server : env :=
  {| e_mutex_create := true; e_scan_start := ESP_OK; e_scan_ap_num := 0;
     e_scan_records := []; e_take_update := true; e_take_read := true;
     e_nvs_open_rw := ESP_OK; e_nvs_open_ro := ESP_OK;
     e_nvs_set := fun _ => ESP_OK; e_nvs_commit := ESP_OK;
     e_netif_init := ESP_OK; e_event_loop := ESP_OK;
     e_wifi_init_ok := true; e_httpd_start := None;
     e_print_ok := true; e_probe := ESP_OK; e_has_certificates := false;
     e_submit_csr := ESP_OK; e_mqtt_start := ESP_OK;
     e_mqtt_connected := fun _ => true |}.

Definition app_wifi_connected : app_task :=
  set_app_state APP_STATE_WIFI_CONNECTED app_boot.

Definition sample_ip : esp_ip4_addr_t := {| ip1 := 192; ip2 := 168; ip3 := 1; ip4 := 57 |}.

(** The scenario's body without its ssid and its device id. *)
Definition body_partial : cJSON :=
  cJSON_Object [("password", cJSON_String "pw123456");
                ("provisioning_token", cJSON_String "tok1")].

(** ** Notions used in the statements *)

Definition cache_bounded (d : device) : Prop :=
  0 <= s_cached_network_count d <= WIFI_SCAN_MAX_APS.

(** [d'] differs from [d] in the store and in the recorded platform calls
    at most. *)
Definition statics_eq (d d' : device) : Prop :=
  s_httpd d' = s_httpd d /\
  s_provisioning_active d' = s_provisioning_active d /\
  s_wifi_connected d' = s_wifi_connected d /\
  s_sta_ip d' = s_sta_ip d /\
  s_cached_networks d' = s_cached_networks d /\
  s_cached_network_count d' = s_cached_network_count d /\
  s_cache_mutex d' = s_cache_mutex d /\
  s_initial_scan_done d' = s_initial_scan_done d.

(** The platform lets [wifi_provisioning_start] go through: the two
    initialisations return ESP_OK or ESP_ERR_INVALID_STATE, no
    ESP_ERROR_CHECK of [wifi_init_ap] fires and the HTTP server starts. *)
Definition restart_succeeds (e : env) : bool :=
  (is_ok (e_netif_init e) || (e_netif_init e =? ESP_ERR_INVALID_STATE)) &&
  (is_ok (e_event_loop e) || (e_event_loop e =? ESP_ERR_INVALID_STATE)) &&
  e_wifi_init_ok e &&
  match e_httpd_start e with Some _ => true | None => false end.

(** The store once the six keys are erased. *)
Definition erase_credentials (m : gmap string nvs_value) : gmap string nvs_value :=
  delete NVS_KEY_BEARER_TOKEN
    (delete NVS_KEY_PROV_TOKEN
       (delete NVS_KEY_DEVICE_ID
          (delete NVS_KEY_WIFI_PASS
             (delete NVS_KEY_WIFI_SSID
                (delete NVS_KEY_PROVISIONED m))))).


Definition required_fields : list string :=
  ["ssid"; "password"; "device_id"; "provisioning_token"].

(** The field is absent from the body, or is not a string. *)
Definition lacks (root : cJSON) (name : string) : bool :=
  negb (cJSON_IsString (cJSON_GetObjectItem root name)).

(** ** The rest of the provisioning module's interface *)

(** [wifi_provisioning_get_status(ip_addr, ip_len)]: the result, and what
    the caller's buffer holds afterwards ([None]: it is left alone).
    [ip_addr_null] says that the pointer passed is NULL. *)
Definition wifi_provisioning_get_status (ip_addr_null : bool) (ip_len : nat)
    (d : device) : bool * option string :=
  if s_wifi_connected d && negb ip_addr_null && (0 <? ip_len)%nat
  then (true, Some (string_prefix (ip_len - 1) (s_sta_ip d)))
  else (false, None).

(** [wifi_provisioning_get_bearer_token(token, token_len)]: the error code
    and, when it is ESP_OK, the token copied out. *)
Definition wifi_provisioning_get_bearer_token (e : env) (token_null : bool)
    (token_len : nat) (d : device) : esp_err_t * string :=
  if token_null || (token_len =? 0)%nat then (ESP_ERR_INVALID_ARG, EmptyString)
  else
    let err := e_nvs_open_ro e in
    if negb (is_ok err) then (err, EmptyString)
    else nvs_get_str d NVS_KEY_BEARER_TOKEN token_len.

(** The request with its Authorization header taken away. *)
Definition without_authorization (req : httpd_req_t) : httpd_req_t :=
  {| req_query_refresh := req_query_refresh req; req_authorization := None;
     req_recv := req_recv req; req_json := req_json req |}.

(** ** The start of the firmware ([app_main]) *)

Definition ESP_ERR_NOT_FOUND : esp_err_t := 261.            (* 0x105 *)
Definition ESP_ERR_INVALID_RESPONSE : esp_err_t := 264.     (* 0x108 *)
Definition ESP_ERR_NVS_NO_FREE_PAGES : esp_err_t := 4365.   (* 0x110d *)
Definition ESP_ERR_NVS_NEW_VERSION_FOUND : esp_err_t := 4368. (* 0x1110 *)

Definition NVS_KEY_DEVICE_CERT := "device_cert".
Definition NVS_KEY_CA_CERT := "ca_cert".

(** What the platform answers while [app_main] runs. *)
Record boot_env := {
  b_nvs_flash_init : esp_err_t;     (* the first nvs_flash_init *)
  b_nvs_flash_erase : esp_err_t;    (* nvs_flash_erase *)
  b_nvs_flash_init_again : esp_err_t; (* nvs_flash_init after the erase *)
  b_nvs_open : esp_err_t;           (* nvs_open(.., NVS_READWRITE, ..) *)
  b_netif_init : esp_err_t;         (* esp_netif_init *)
  b_event_loop : esp_err_t;         (* esp_event_loop_create_default *)
  b_register_wifi : esp_err_t;      (* handler registration for WIFI_EVENT *)
  b_register_ip : esp_err_t         (* handler registration for IP_EVENT *)
}.

(** The keys [app_main] erases at every start. *)
Definition boot_erased_keys : list string :=
  ["provisioned"; "wifi_ssid"; "wifi_pass"; NVS_KEY_DEVICE_ID;
   NVS_KEY_PROV_TOKEN; "bearer_token"; "device_cert"; "ca_cert"].

(** [app_main] on a flash that holds [flash] in the namespace: the state
    the state-machine task starts from, [None] when an [ESP_ERROR_CHECK]
    fires.  [nvs_flash_erase] empties the partition. *)
Definition app_main (b : boot_env) (flash : gmap string nvs_value)
  : option (app_task * device) :=
  let ret := b_nvs_flash_init b in
  let init :=
    if (ret =? ESP_ERR_NVS_NO_FREE_PAGES) || (ret =? ESP_ERR_NVS_NEW_VERSION_FOUND)
    then
      if is_ok (b_nvs_flash_erase b) then Some (b_nvs_flash_init_again b, ∅)
      else None
    else Some (ret, flash) in
  match init with
  | None => None
  | Some (ret, flash) =>
      if negb (is_ok ret) then None
      else
        let d := set_nvs flash device_boot in
        let d :=
          if is_ok (b_nvs_open b) then
            let d := nvs_erase_key "provisioned" d in
            let d := nvs_erase_key "wifi_ssid" d in
            let d := nvs_erase_key "wifi_pass" d in
            let d := nvs_erase_key NVS_KEY_DEVICE_ID d in
            let d := nvs_erase_key NVS_KEY_PROV_TOKEN d in
            let d := nvs_erase_key "bearer_token" d in
            let d := nvs_erase_key "device_cert" d in
            let d := nvs_erase_key "ca_cert" d in
            hal Nvs_commit d
          else d in
        if negb (is_ok (b_netif_init b)) then None
        else if negb (is_ok (b_event_loop b)) then None
        else if negb (is_ok (b_register_wifi b)) then None
        else if negb (is_ok (b_register_ip b)) then None
        else Some (app_boot, d)
  end.

(** ** The reachability probe ([internet_verification.c]) and the HTTP
    response buffer *)

(** [size_t] on the target. *)
Definition size_t (z : Z) : Z := z mod 4294967296.

(** The characters [strlen] sees: those before the first NUL. *)
Fixpoint cstr (s : string) : string :=
  match s with
  | EmptyString => EmptyString
  | String c s' => if Ascii.eqb c Ascii.zero then EmptyString else String c (cstr s')
  end.

(** The response buffer of an HTTP client user: the C string it holds
    ([None]: the pointer is NULL) and the length recorded for it. *)
Record response_buffer := {
  s_http_response_buffer : option string;
  s_http_response_len : Z
}.

Definition response_buffer_freed : response_buffer :=
  {| s_http_response_buffer := None; s_http_response_len := 0 |}.

Inductive esp_http_client_event_t :=
| HTTP_EVENT_ON_DATA (chunked : bool) (content_length : Z) (malloc_ok : bool)
    (data : string)
| HTTP_EVENT_other.

(** [http_event_handler] of [certificate_manager.c] ([limit] 8192) and of
    [internet_verification.c] ([limit] 4096).  When the declared length is 0
    or not below the limit, the buffer is allocated but its first byte is
    not set before [strlen] reads it: [None], nothing is defined from there
    on. *)
Definition http_event_handler (limit : Z) (evt : esp_http_client_event_t)
    (r : response_buffer) : option (esp_err_t * response_buffer) :=
  match evt with
  | HTTP_EVENT_ON_DATA chunked content_length malloc_ok data =>
      if chunked then Some (ESP_OK, r)
      else
        let allocated :=
          match s_http_response_buffer r with
          | Some _ => Some r
          | None =>
              let len := size_t content_length in
              if (0 <? len) && (len <? limit) then
                Some {| s_http_response_buffer :=
                          if malloc_ok then Some EmptyString else None;
                        s_http_response_len := len |}
              else if malloc_ok then None
              else Some {| s_http_response_buffer := None;
                           s_http_response_len := limit |}
          end in
        match allocated with
        | None => None
        | Some r =>
            match s_http_response_buffer r with
            | None => Some (ESP_ERR_NO_MEM, r)
            | Some buffer =>
                let data_len := Z.of_nat (String.length data) in
                let current_len := Z.of_nat (String.length buffer) in
                if current_len + data_len <? s_http_response_len r then
                  Some (ESP_OK,
                        {| s_http_response_buffer := Some (cstr (buffer +:+ data));
                           s_http_response_len := s_http_response_len r |})
                else Some (ESP_OK, r)
            end
        end
  | HTTP_EVENT_other => Some (ESP_OK, r)
  end.

(** The events of one [esp_http_client_perform], handed over in order. *)
Fixpoint http_events (limit : Z) (evts : list esp_http_client_event_t)
    (r : response_buffer) : option response_buffer :=
  match evts with
  | [] => Some r
  | evt :: evts' =>
      match http_event_handler limit evt r with
      | None => None
      | Some (_, r') => http_events limit evts' r'
      end
  end.

(** What the HTTP client answers to [internet_verification_test]. *)
Record probe_env := {
  p_client_init_ok : bool;    (* esp_http_client_init() != NULL *)
  p_perform : esp_err_t;      (* esp_http_client_perform *)
  p_events : list esp_http_client_event_t; (* the events it hands over *)
  p_status_code : Z           (* esp_http_client_get_status_code *)
}.

(** [internet_verification_test]; [None]: the event handler ran into the
    unset buffer. *)
Definition internet_verification_test (p : probe_env) : option esp_err_t :=
  if negb (p_client_init_ok p) then Some ESP_FAIL
  else
    match http_events 4096 (p_events p) response_buffer_freed with
    | None => None
    | Some _ =>
        if is_ok (p_perform p) then
          if p_status_code p =? 200 then Some ESP_OK else Some ESP_FAIL
        else Some ESP_FAIL
    end.

(** ** The certificate manager ([certificate_manager.c]) *)

Definition save_certificate_to_nvs (e : env) (key cert_pem : string) (d : device)
  : esp_err_t * device :=
  let err := e_nvs_open_rw e in
  if negb (is_ok err) then (err, d) else
  let '(err, d) := nvs_set e key (NvsStr cert_pem) d in
  if negb (is_ok err) then (err, d) else
  nvs_commit e d.

(** [nvs_get_str(handle, key, NULL, &required_size)]: ESP_OK when the key
    holds a string. *)
Definition nvs_get_str_size (d : device) (key : string) : esp_err_t :=
  match nvs d !! key with
  | Some (NvsStr _) => ESP_OK
  | _ => ESP_ERR_NVS_NOT_FOUND
  end.

(** [nvs_open_ro] is what [nvs_open(.., NVS_READONLY, ..)] returns. *)
Definition certificate_manager_has_certificates (nvs_open_ro : esp_err_t)
    (d : device) : bool :=
  if negb (is_ok nvs_open_ro) then false
  else
    let err1 := nvs_get_str_size d NVS_KEY_DEVICE_CERT in
    let err2 := nvs_get_str_size d NVS_KEY_CA_CERT in
    is_ok err1 && is_ok err2.

Definition load_certificate_from_nvs (nvs_open_ro : esp_err_t) (key : string)
    (buffer_size : nat) (d : device) : esp_err_t * string :=
  if negb (is_ok nvs_open_ro) then (nvs_open_ro, EmptyString)
  else nvs_get_str d key buffer_size.

Definition certificate_manager_load_device_cert (nvs_open_ro : esp_err_t)
    (buffer_size : nat) (d : device) : esp_err_t * string :=
  load_certificate_from_nvs nvs_open_ro NVS_KEY_DEVICE_CERT buffer_size d.

Definition certificate_manager_load_ca_cert (nvs_open_ro : esp_err_t)
    (buffer_size : nat) (d : device) : esp_err_t * string :=
  load_certificate_from_nvs nvs_open_ro NVS_KEY_CA_CERT buffer_size d.

(** What the platform answers to [certificate_manager_submit_csr]. *)
Record csr_env := {
  c_print_ok : bool;                       (* cJSON_Print() != NULL *)
  c_client_init_ok : bool;                 (* esp_http_client_init() != NULL *)
  c_perform : esp_err_t;                   (* esp_http_client_perform *)
  c_events : list esp_http_client_event_t; (* the events it hands over *)
  c_status_code : Z;                       (* esp_http_client_get_status_code *)
  c_parse : string -> option cJSON         (* cJSON_Parse *)
}.

(** [certificate_manager_submit_csr], from the request on: the response is
    collected by [http_event_handler], parsed, and the two certificates
    are saved, the device's with the answers [e1], the CA's with [e2].
    [None]: the event handler ran into the unset buffer. *)
Definition certificate_manager_submit_csr (c : csr_env) (e1 e2 : env)
    (d : device) : option (esp_err_t * device) :=
  if negb (c_print_ok c) then Some (ESP_ERR_NO_MEM, d)
  else if negb (c_client_init_ok c) then Some (ESP_ERR_NO_MEM, d)
  else
    match http_events 8192 (c_events c) response_buffer_freed with
    | None => None
    | Some r =>
        let err := c_perform c in
        if is_ok err then
          let status_code := c_status_code c in
          if (status_code =? 200) || (status_code =? 201) then
            match s_http_response_buffer r with
            | Some buffer =>
                match c_parse c buffer with
                | Some response =>
                    let cert_obj := cJSON_GetObjectItem response "certificate" in
                    let ca_obj := cJSON_GetObjectItem response "ca_certificate" in
                    match cert_obj, ca_obj with
                    | Some cert_obj, Some ca_obj =>
                        let cert_content := cJSON_GetObjectItem cert_obj "content" in
                        let ca_content := cJSON_GetObjectItem ca_obj "content" in
                        if cJSON_IsString cert_content && cJSON_IsString ca_content then
                          let '(err, d) :=
                            save_certificate_to_nvs e1 NVS_KEY_DEVICE_CERT
                              (valuestring_of cert_content) d in
                          if is_ok err then
                            Some (save_certificate_to_nvs e2 NVS_KEY_CA_CERT
                                    (valuestring_of ca_content) d)
                          else Some (err, d)
                        else Some (ESP_ERR_INVALID_RESPONSE, d)
                    | _, _ => Some (ESP_ERR_INVALID_RESPONSE, d)
                    end
                | None => Some (ESP_ERR_INVALID_RESPONSE, d)
                end
            | None => Some (ESP_ERR_INVALID_RESPONSE, d)
            end
          else Some (ESP_FAIL, d)
        else Some (err, d)
    end.

(** ** The MQTT client (the second part of [main.c]) *)

Definition CERT_BUFFER_SIZE : nat := 2048.

Record mqtt := {
  s_mqtt_client : option positive;   (* None: the handle is NULL *)
  s_mqtt_connected : bool;
  s_device_cert : string;
  s_ca_cert : string
}.

Definition mqtt_boot : mqtt :=
  {| s_mqtt_client := None; s_mqtt_connected := false;
     s_device_cert := EmptyString; s_ca_cert := EmptyString |}.

(** What the platform answers to [mqtt_client_start]. *)
Record mqtt_env := {
  m_open_check : esp_err_t;        (* nvs_open of certificate_manager_has_certificates *)
  m_open_device : esp_err_t;       (* nvs_open of the device certificate load *)
  m_open_ca : esp_err_t;           (* nvs_open of the CA certificate load *)
  m_client_init : option positive; (* esp_mqtt_client_init *)
  m_client_start : esp_err_t       (* esp_mqtt_client_start *)
}.

Inductive esp_mqtt_event_id_t :=
| MQTT_EVENT_CONNECTED
| MQTT_EVENT_DISCONNECTED
| MQTT_EVENT_other.

Definition mqtt_event_handler (event_id : esp_mqtt_event_id_t) (m : mqtt) : mqtt :=
  match event_id with
  | MQTT_EVENT_CONNECTED =>
      {| s_mqtt_client := s_mqtt_client m; s_mqtt_connected := true;
         s_device_cert := s_device_cert m; s_ca_cert := s_ca_cert m |}
  | MQTT_EVENT_DISCONNECTED =>
      {| s_mqtt_client := s_mqtt_client m; s_mqtt_connected := false;
         s_device_cert := s_device_cert m; s_ca_cert := s_ca_cert m |}
  | MQTT_EVENT_other => m
  end.

(** [mqtt_client_start]; the store is only read.
    [certificate_manager_get_private_key] returns a string literal, so its
    NULL check does not fire. *)
Definition mqtt_client_start (me : mqtt_env) (d : device) (m : mqtt)
  : esp_err_t * mqtt :=
  match s_mqtt_client m with
  | Some _ => (ESP_OK, m)
  | None =>
      if negb (certificate_manager_has_certificates (m_open_check me) d)
      then (ESP_ERR_NOT_FOUND, m)
      else
        let '(ret, cert) :=
          certificate_manager_load_device_cert (m_open_device me) CERT_BUFFER_SIZE d in
        if negb (is_ok ret) then (ret, m)
        else
          let m := {| s_mqtt_client := s_mqtt_client m;
                      s_mqtt_connected := s_mqtt_connected m;
                      s_device_cert := cert; s_ca_cert := s_ca_cert m |} in
          let '(ret, cert) :=
            certificate_manager_load_ca_cert (m_open_ca me) CERT_BUFFER_SIZE d in
          if negb (is_ok ret) then (ret, m)
          else
            let m := {| s_mqtt_client := s_mqtt_client m;
                        s_mqtt_connected := s_mqtt_connected m;
                        s_device_cert := s_device_cert m; s_ca_cert := cert |} in
            match m_client_init me with
            | None => (ESP_ERR_NO_MEM, m)
            | Some client =>
                let ret := m_client_start me in
                if negb (is_ok ret) then (ret, m)
                else
                  (ESP_OK,
                   {| s_mqtt_client := Some client;
                      s_mqtt_connected := s_mqtt_connected m;
                      s_device_cert := s_device_cert m; s_ca_cert := s_ca_cert m |})
            end
  end.

Definition mqtt_client_stop (m : mqtt) : mqtt :=
  match s_mqtt_client m with
  | None => m
  | Some _ =>
      {| s_mqtt_client := None; s_mqtt_connected := false;
         s_device_cert := s_device_cert m; s_ca_cert := s_ca_cert m |}
  end.

Definition mqtt_client_is_connected (m : mqtt) : bool := s_mqtt_connected m.

(** [msg_id] is what [esp_mqtt_client_publish] returns. *)
Definition mqtt_client_publish (msg_id : Z) (m : mqtt) : esp_err_t :=
  match s_mqtt_client m with
  | None => ESP_ERR_INVALID_STATE
  | Some _ =>
      if negb (s_mqtt_connected m) then ESP_ERR_INVALID_STATE
      else if msg_id <? 0 then ESP_FAIL else ESP_OK
  end.

(** [msg_id] is what [esp_mqtt_client_subscribe] returns. *)
Definition mqtt_client_subscribe (msg_id : Z) (m : mqtt) : esp_err_t :=
  match s_mqtt_client m with
  | None => ESP_ERR_INVALID_STATE
  | Some _ =>
      if negb (s_mqtt_connected m) then ESP_ERR_INVALID_STATE
      else if msg_id <? 0 then ESP_FAIL else ESP_OK
  end.

(** ** More notions used in the statements *)

Definition listening (d : device) : bool :=
  match s_httpd d with Some _ => true | None => false end.

(** The HTTP server as the recorded calls (most recent first) leave it:
    running or not.  [None]: a start found it running or a stop found it
    stopped. *)
Fixpoint server_state (t : list hal_call) : option bool :=
  match t with
  | [] => Some false
  | c :: t' =>
      match server_state t' with
      | None => None
      | Some up =>
          match c with
          | Httpd_start => if up then None else Some true
          | Httpd_stop => if up then Some false else None
          | _ => Some up
          end
      end
  end.

Definition is_connect (c : hal_call) : bool :=
  match c with Wifi_connect_sta _ _ => true | _ => false end.

(** The calls of the loop into the other modules. *)
Definition loop_call (c : hal_call) : bool :=
  match c with
  | Probe | Csr_submit | Mqtt_start | Mqtt_stop => true
  | _ => false
  end.

(** The number of station connections asked for so far. *)
Fixpoint connect_calls (t : list hal_call) : nat :=
  match t with
  | [] => O
  | c :: t' => if is_connect c then S (connect_calls t') else connect_calls t'
  end.

Definition is_str (v : option nvs_value) : bool :=
  match v with Some (NvsStr _) => true | _ => false end.

Definition holds_string (d : device) (key : string) : bool :=
  is_str (nvs d !! key).

(** The value of the provisioned flag as [nvs_get_u8] reads it into a
    variable that starts at 0. *)
Definition stored_flag (d : device) : Z :=
  match nvs d !! NVS_KEY_PROVISIONED with
  | Some (NvsU8 v) => v
  | _ => 0
  end.

(** A store whose provisioned flag is 1 holds the four strings. *)
Definition record_complete (d : device) : bool :=
  negb (stored_flag d =? 1) ||
  (holds_string d NVS_KEY_WIFI_SSID && holds_string d NVS_KEY_WIFI_PASS &&
   holds_string d NVS_KEY_DEVICE_ID && holds_string d NVS_KEY_PROV_TOKEN).

(** The store after a save that went through. *)
Definition stored_record (ssid password device_id prov_token : string)
    (bearer_token : option string) (m : gmap string nvs_value)
  : gmap string nvs_value :=
  let m := <[NVS_KEY_WIFI_SSID := NvsStr ssid]> m in
  let m := <[NVS_KEY_WIFI_PASS := NvsStr password]> m in
  let m := <[NVS_KEY_DEVICE_ID := NvsStr device_id]> m in
  let m := <[NVS_KEY_PROV_TOKEN := NvsStr prov_token]> m in
  let m :=
    match bearer_token with
    | Some b =>
        if (0 <? String.length b)%nat then <[NVS_KEY_BEARER_TOKEN := NvsStr b]> m
        else m
    | None => m
    end in
  <[NVS_KEY_PROVISIONED := NvsU8 1]> m.

(** The cache array has its 20 slots and the count points into it. *)
Definition cache_wf (d : device) : Prop :=
  length (s_cached_networks d) = 20%nat /\ cache_bounded d.

Definition octet (z : Z) : bool := (0 <=? z) && (z <=? 255).

(** The keys [save_wifi_credentials] writes strings to. *)
Definition string_keys : list string :=
  [NVS_KEY_WIFI_SSID; NVS_KEY_WIFI_PASS; NVS_KEY_DEVICE_ID; NVS_KEY_PROV_TOKEN;
   NVS_KEY_BEARER_TOKEN].

(** The store after the string writes [l], the last one first. *)
Definition write_strings (l : list (string * string)) (m : gmap string nvs_value)
  : gmap string nvs_value :=
  foldr (fun kv m => <[fst kv := NvsStr (snd kv)]> m) m l.

(** The token the request-tracing handler passes on to
    [save_wifi_credentials]. *)
Definition accepted_bearer (req : httpd_req_t) : option string :=
  match req_authorization req with
  | Some auth_header =>
      let auth_len := (String.length auth_header + 1)%nat in
      if (1 <? auth_len)%nat && (auth_len <=? 256)%nat
      then Some (extract_bearer auth_header)
      else None
  | None => None
  end.

(** The calls of the store operations. *)
Definition store_call (c : hal_call) : bool :=
  match c with
  | Nvs_set _ | Nvs_erase_key _ | Nvs_commit => true
  | _ => false
  end.

(** The calls the provisioning module makes in its request-tracing copy. *)
Definition module_call (c : hal_call) : bool :=
  match c with
  | Wifi_connect_sta _ _ | Probe | Csr_submit | Mqtt_start | Mqtt_stop => false
  | _ => true
  end.

(** [t'] is [t] with calls of the class [Q] recorded after it. *)
Inductive extends (Q : hal_call -> bool) (t : list hal_call)
  : list hal_call -> Prop :=
| extends_refl : extends Q t t
| extends_cons c t' : Q c = true -> extends Q t t' -> extends Q t (c :: t').

(** The listener's handle, its flag and the recorded server calls agree. *)
Definition server_ok (d : device) : Prop :=
  server_state (hal_trace d) = Some (listening d) /\
  s_provisioning_active d = listening d.

(** ** More sample inputs *)

Definition boot_ok : boot_env :=
  {| b_nvs_flash_init := ESP_OK; b_nvs_flash_erase := ESP_OK;
     b_nvs_flash_init_again := ESP_OK; b_nvs_open := ESP_OK;
     b_netif_init := ESP_OK; b_event_loop := ESP_OK;
     b_register_wifi := ESP_OK; b_register_ip := ESP_OK |}.

(** A string of [n] letters. *)
Fixpoint long_name (n : nat) : string :=
  match n with
  | O => EmptyString
  | S n' => String "x" (long_name n')
  end.

(** The state [app_main] hands over on an empty flash. *)
Definition sample_start : app_task * device :=
  match app_main boot_ok ∅ with
  | Some s => s
  | None => boot ∅
  end.

(** From there: three iterations of the loop bring the listener up, the
    scenario's submit arrives, and the next iteration goes on to
    WIFI_CONNECTING. *)
Definition sample_run : list (env * action) :=
  [(env_ok, Act_loop); (env_ok, Act_loop); (env_ok, Act_loop);
   (env_ok, Act_provision (post_request (Some "Bearer abc") body_full));
   (env_ok, Act_loop)].

Definition sample_connecting : app_task * device :=
  match run sample_start sample_run with
  | Some s => s
  | None => sample_start
  end.

(** The first three iterations alone: the listener is up. *)
Definition sample_listening : app_task * device :=
  match run sample_start [(env_ok, Act_loop); (env_ok, Act_loop); (env_ok, Act_loop)] with
  | Some s => s
  | None => sample_start
  end.

(** Further on: the loop asks for the connection, the station gets its
    address, and a first probe fails. *)
Definition sample_probing_run : list (env * action) :=
  sample_run ++
  [(env_ok, Act_loop);
   (env_ok, Act_sta_event (IP_EVENT IP_EVENT_STA_GOT_IP sample_ip));
   (env_ok, Act_ip_event (IP_EVENT IP_EVENT_STA_GOT_IP sample_ip));
   (env_offline, Act_loop)].

Definition sample_probing : app_task * device :=
  match run sample_start sample_probing_run with
  | Some s => s
  | None => sample_start
  end.

(** And six iterations later, the probe having gone through: the MQTT
    client is connected and the heartbeat counter runs. *)
Definition sample_heartbeat_run : list (env * action) :=
  sample_probing_run ++
  [(env_ok, Act_loop); (env_ok, Act_loop); (env_ok, Act_loop);
   (env_ok, Act_loop); (env_ok, Act_loop); (env_ok, Act_loop)].

Definition sample_heartbeat : app_task * device :=
  match run sample_start sample_heartbeat_run with
  | Some s => s
  | None => sample_start
  end.

(** The state [app_main] hands over on the flash of a provisioned device. *)
Definition sample_restart : app_task * device :=
  match app_main boot_ok (nvs device_provisioned) with
  | Some s => s
  | None => boot ∅
  end.

(** A body handed over in pieces: the whole text, and the events of a
    response that is not chunked, declares the length [content_length], and
    finds memory for its buffer. *)
Definition concat_chunks (chunks : list string) : string :=
  foldr String.append EmptyString chunks.

Definition data_events (content_length : Z) (chunks : list string)
  : list esp_http_client_event_t :=
  map (HTTP_EVENT_ON_DATA false content_length true) chunks.

(** A backend answer with the two certificates. *)
Definition sample_csr_response : cJSON :=
  cJSON_Object
    [("certificate", cJSON_Object [("content", cJSON_String "DEVICE PEM")]);
     ("ca_certificate", cJSON_Object [("content", cJSON_String "CA PEM")])].

(** The text of that answer, as the backend sends it. *)
Definition quoted (s : string) : string :=
  String "034"%char s +:+ String "034"%char EmptyString.

Definition sample_csr_text : string :=
  "{" +:+ quoted "certificate" +:+ ":{" +:+ quoted "content" +:+ ":"
      +:+ quoted "DEVICE PEM" +:+ "}," +:+ quoted "ca_certificate" +:+ ":{"
      +:+ quoted "content" +:+ ":" +:+ quoted "CA PEM" +:+ "}}".

(** A backend that sends this text followed by a line feed, in two pieces,
    and declares the length of both: the text is collected, the line feed
    no longer fits.  The parser accepts this text only. *)
Definition csr_ok : csr_env :=
  {| c_print_ok := true; c_client_init_ok := true; c_perform := ESP_OK;
     c_events :=
       data_events (Z.of_nat (String.length sample_csr_text) + 1)
         [sample_csr_text; String "010"%char EmptyString]
       ++ [HTTP_EVENT_other];
     c_status_code := 200;
     c_parse := fun text =>
       if String.eqb text sample_csr_text then Some sample_csr_response else None |}.

(** The provisioned device after that answer. *)
Definition sample_certified : esp_err_t * device :=
  match certificate_manager_submit_csr csr_ok env_ok env_ok device_provisioned with
  | Some r => r
  | None => (ESP_FAIL, device_provisioned)
  end.

(** And after a later [wifi_provisioning_clear_and_restart]. *)
Definition sample_cleared : esp_err_t * device :=
  match wifi_provisioning_clear_and_restart env_ok (snd sample_certified) with
  | Some r => r
  | None => sample_certified
  end.


(** The MQTT events [evts], handled in order. *)
Definition mqtt_events (evts : list esp_mqtt_event_id_t) (m : mqtt) : mqtt :=
  foldl (fun m event_id => mqtt_event_handler event_id m) m evts.

(** A platform on which the MQTT client starts. *)
Definition mqtt_ok : mqtt_env :=
  {| m_open_check := ESP_OK; m_open_device := ESP_OK; m_open_ca := ESP_OK;
     m_client_init := Some 1%positive; m_client_start := ESP_OK |}.

(** A test endpoint that answers, but with a redirect. *)
Definition probe_redirected : probe_env :=
  {| p_client_init_ok := true; p_perform := ESP_OK;
     p_events := [HTTP_EVENT_other]; p_status_code := 302 |}.

(** * Properties *)

(** ** Sample runs *)

Example device_listening_cache :
  s_provisioning_active device_listening = true /\
  s_initial_scan_done device_listening = true /\
  cached_entries device_listening = [sample_ap "Home" (-40); sample_ap "Cafe" (-70)].
Proof. vm_compute. auto. Qed.

Example provision_full_stores :
  let '(ret, resp, d) := provision_handler env_ok (post_request None body_full) device_listening in
  ret = ESP_OK /\ resp = respond 200 saved_json /\
  nvs d !! NVS_KEY_WIFI_SSID = Some (NvsStr "Net") /\
  nvs d !! NVS_KEY_BEARER_TOKEN = None /\
  s_provisioning_active d = false.
Proof. vm_compute. auto 10. Qed.

Example ip_to_string_sample :
  ip_to_string {| ip1 := 192; ip2 := 168; ip3 := 1; ip4 := 57 |} = "192.168.1.57".
Proof. vm_compute. reflexivity. Qed.

(** ** Starting and stopping *)

(** C7. While provisioning is active, [wifi_provisioning_start] returns
    ESP_OK at once and changes nothing: no second HTTP server is started, the
    access point is not initialised again (the list of platform calls is the
    same) and every variable of the module keeps its value. *)
Theorem wifi_provisioning_start_when_active (e : env) (d : device) :
  s_provisioning_active d = true ->
  wifi_provisioning_start e d = Some (ESP_OK, d).
Proof.
  intros Hactive. unfold wifi_provisioning_start. now rewrite Hactive.
Qed.

Lemma wifi_provisioning_start_when_active_witness :
  s_provisioning_active device_listening = true /\
  wifi_provisioning_start env_ok device_listening = Some (ESP_OK, device_listening).
Proof.
  split; [reflexivity |].
  apply (wifi_provisioning_start_when_active env_ok device_listening).
  reflexivity.
Defined.

Lemma wifi_provisioning_stop_result (d : device) :
  fst (wifi_provisioning_stop d) = ESP_OK /\
  s_provisioning_active (snd (wifi_provisioning_stop d)) = false.
Proof.
  unfold wifi_provisioning_stop.
  destruct (s_provisioning_active d) eqn:Hactive; simpl; auto.
Qed.

(** C10. When provisioning is not active, [wifi_provisioning_stop] returns
    ESP_OK and leaves the whole state as it was (server handle, cache
    contents, populated flag, active flag); hence a second consecutive call
    of [wifi_provisioning_stop] has no further effect. *)
Theorem wifi_provisioning_stop_when_inactive (d : device) :
  (s_provisioning_active d = false -> wifi_provisioning_stop d = (ESP_OK, d)) /\
  wifi_provisioning_stop (snd (wifi_provisioning_stop d))
    = (ESP_OK, snd (wifi_provisioning_stop d)).
Proof.
  assert (Hinactive : forall d', s_provisioning_active d' = false ->
                                 wifi_provisioning_stop d' = (ESP_OK, d')).
  { intros d' H. unfold wifi_provisioning_stop. now rewrite H. }
  split; [apply Hinactive |].
  apply Hinactive, wifi_provisioning_stop_result.
Qed.

Lemma wifi_provisioning_stop_when_inactive_witness :
  s_provisioning_active device_boot = false /\
  wifi_provisioning_stop device_boot = (ESP_OK, device_boot) /\
  wifi_provisioning_stop (snd (wifi_provisioning_stop device_listening))
    = (ESP_OK, snd (wifi_provisioning_stop device_listening)).
Proof.
  split; [reflexivity |].
  split.
  - apply (proj1 (wifi_provisioning_stop_when_inactive device_boot)). reflexivity.
  - apply (proj2 (wifi_provisioning_stop_when_inactive device_listening)).
Defined.

(** ** The status endpoint *)



(** ** The scan cache stays within its capacity *)

Ltac split_cases :=
  repeat match goal with
    | |- context [if ?b then _ else _] => destruct b eqn:?
    | |- context [match ?x with _ => _ end] => destruct x eqn:?
    end.

(** Boolean comparisons on [Z] in the hypotheses, as propositions. *)
Ltac zbool :=
  repeat match goal with
    | H : (_ >? _) = _ |- _ => rewrite Z.gtb_ltb in H
    | H : (_ >=? _) = _ |- _ => rewrite Z.geb_leb in H
    | H : (_ <? _) = true |- _ => apply Z.ltb_lt in H
    | H : (_ <? _) = false |- _ => apply Z.ltb_ge in H
    | H : (_ <=? _) = true |- _ => apply Z.leb_le in H
    | H : (_ <=? _) = false |- _ => apply Z.leb_gt in H
    | H : (_ =? _) = true |- _ => apply Z.eqb_eq in H
    | H : (_ =? _) = false |- _ => apply Z.eqb_neq in H
    end.

Lemma esp_wifi_scan_get_ap_records_count (e : env) (d : device) :
  0 <= s_cached_network_count (esp_wifi_scan_get_ap_records e d)
    <= Z.max 0 (s_cached_network_count d).
Proof.
  unfold esp_wifi_scan_get_ap_records. simpl.
  rewrite length_take. lia.
Qed.

(** A refresh that stores anything stores at most 20 entries, whatever
    count and records the radio reports. *)
Lemma perform_wifi_scan_and_cache_ok_bounded (e : env) (d : device) :
  fst (perform_wifi_scan_and_cache e d) = ESP_OK ->
  cache_bounded (snd (perform_wifi_scan_and_cache e d)).
Proof.
  unfold perform_wifi_scan_and_cache, cache_bounded, WIFI_SCAN_MAX_APS, uint16.
  assert (Hmod : 0 <= e_scan_ap_num e mod 65536 < 65536)
    by (apply Z.mod_pos_bound; lia).
  set (n := e_scan_ap_num e mod 65536) in *.
  split_cases; simpl; intros Hret;
    try discriminate;
    try (unfold is_ok, ESP_OK, ESP_ERR_NO_MEM, ESP_ERR_TIMEOUT in *; lia);
    try (rewrite length_take; zbool; lia).
Qed.

Lemma perform_wifi_scan_and_cache_bounded (e : env) (d : device) :
  cache_bounded d -> cache_bounded (snd (perform_wifi_scan_and_cache e d)).
Proof.
  intros Hd.
  destruct (Z.eq_dec (fst (perform_wifi_scan_and_cache e d)) ESP_OK) as [Hok | Hko].
  - now apply perform_wifi_scan_and_cache_ok_bounded.
  - revert Hko Hd.
    unfold perform_wifi_scan_and_cache, cache_bounded.
    split_cases; simpl; intros Hko Hd; try assumption; now destruct Hko.
Qed.

Lemma wifi_provisioning_stop_bounded (d : device) :
  cache_bounded d -> cache_bounded (snd (wifi_provisioning_stop d)).
Proof.
  unfold wifi_provisioning_stop, cache_bounded, WIFI_SCAN_MAX_APS.
  split_cases; simpl; lia.
Qed.

Lemma wifi_provisioning_start_bounded (e : env) (d : device) r d' :
  cache_bounded d -> wifi_provisioning_start e d = Some (r, d') -> cache_bounded d'.
Proof.
  intros Hd. unfold wifi_provisioning_start, wifi_init_ap, start_http_server.
  destruct (s_provisioning_active d); [intros [= <- <-]; assumption |].
  destruct (_ && _); [intros [= <- <-]; assumption |].
  destruct (_ && _); [intros [= <- <-]; assumption |].
  destruct (e_wifi_init_ok e); [| discriminate]. simpl.
  pose proof (perform_wifi_scan_and_cache_bounded e (hal Wifi_init_ap d) Hd) as Hp.
  destruct (perform_wifi_scan_and_cache e (hal Wifi_init_ap d)) as [ret d1].
  simpl in Hp.
  destruct (e_httpd_start e); intros [= <- <-]; exact Hp.
Qed.

Lemma wifi_provisioning_clear_and_restart_bounded (e : env) (d : device) r d' :
  wifi_provisioning_clear_and_restart e d = Some (r, d') -> cache_bounded d'.
Proof.
  unfold wifi_provisioning_clear_and_restart.
  match goal with
  | |- context [wifi_provisioning_start e ?x] =>
      pose proof (wifi_provisioning_start_bounded e x) as Hs;
      destruct (wifi_provisioning_start e x) as [[r1 d1] |]; [| discriminate]
  end.
  assert (Hd1 : cache_bounded d1).
  { apply (Hs r1 d1); [| reflexivity].
    unfold cache_bounded, WIFI_SCAN_MAX_APS. split_cases; simpl; lia. }
  destruct (negb (is_ok r1)); intros [= <- <-]; exact Hd1.
Qed.

Lemma statics_eq_refl (d : device) : statics_eq d d.
Proof. unfold statics_eq. auto 10. Qed.

Lemma statics_eq_trans (d1 d2 d3 : device) :
  statics_eq d1 d2 -> statics_eq d2 d3 -> statics_eq d1 d3.
Proof. unfold statics_eq. intuition congruence. Qed.

Lemma nvs_set_statics (e : env) (key : string) (v : nvs_value) (d : device) :
  statics_eq d (snd (nvs_set e key v d)).
Proof.
  unfold nvs_set, statics_eq. destruct (is_ok _); simpl; auto 10.
Qed.

Create HintDb frame.
#[local] Hint Resolve statics_eq_refl statics_eq_trans nvs_set_statics : frame.

Ltac nvs_set_step :=
  match goal with
  | |- context [nvs_set ?e ?k ?v ?d] =>
      let S := fresh "S" in
      pose proof (nvs_set_statics e k v d) as S;
      destruct (nvs_set e k v d) as [? ?]; simpl in S
  end;
  match goal with
  | |- context [if negb (is_ok ?err) then _ else _] =>
      destruct (negb (is_ok err)); simpl;
      [eauto with frame |]
  end.

(** [save_wifi_credentials] touches the store and nothing else. *)
Lemma save_wifi_credentials_statics (e : env) ssid password device_id prov_token
    bearer (d : device) :
  statics_eq d
    (snd (save_wifi_credentials e ssid password device_id prov_token bearer d)).
Proof.
  unfold save_wifi_credentials.
  destruct (negb (is_ok (e_nvs_open_rw e))); simpl; [apply statics_eq_refl |].
  do 4 nvs_set_step.
  match goal with
  | |- context [let '(_, _) := ?x in _] =>
      assert (Hb : statics_eq d (snd x));
      [ destruct bearer as [b |]; [destruct (0 <? String.length b)%nat |];
        simpl; eauto with frame
      | destruct x as [err5 d5]; simpl in Hb ]
  end.
  destruct (negb (is_ok err5)); simpl; [assumption |].
  pose proof (nvs_set_statics e NVS_KEY_PROVISIONED (NvsU8 1) d5) as S5.
  destruct (nvs_set e NVS_KEY_PROVISIONED (NvsU8 1) d5) as [err6 d6]; simpl in S5.
  destruct (negb (is_ok err6)); simpl; [eauto with frame |].
  eapply statics_eq_trans; [| apply statics_eq_refl].
  eapply statics_eq_trans; eauto.
Qed.

Lemma statics_eq_bounded (d d' : device) :
  statics_eq d d' -> cache_bounded d -> cache_bounded d'.
Proof.
  unfold statics_eq, cache_bounded. intros H Hd.
  decompose [and] H. congruence.
Qed.

(** The device a /local-wifi request leaves behind: untouched, or as the
    refresh left it. *)
Lemma scan_handler_device (e : env) (req : httpd_req_t) (d : device) :
  snd (scan_handler e req d) = d \/
  snd (scan_handler e req d) = snd (perform_wifi_scan_and_cache e d).
Proof.
  unfold scan_handler.
  destruct (negb (s_initial_scan_done d) || _).
  - destruct (perform_wifi_scan_and_cache e d) as [ret d1]. simpl.
    right. split_cases; reflexivity.
  - left. split_cases; reflexivity.
Qed.

(** The device a /provision request leaves behind: untouched, as a failed
    save left it, or saved and with the listener stopped. *)
Lemma provision_handler_device (e : env) (req : httpd_req_t) (d : device) :
  snd (provision_handler e req d) = d \/
  exists ssid password device_id prov_token bearer,
    let saved :=
      snd (save_wifi_credentials e ssid password device_id prov_token bearer d) in
    snd (provision_handler e req d) = saved \/
    snd (provision_handler e req d) = snd (wifi_provisioning_stop saved).
Proof.
  unfold provision_handler.
  destruct (req_recv req <=? 0); [now left |].
  destruct (req_json req) as [root |]; [| now left].
  destruct (check_required _ _ _) as [missing has_error].
  destruct has_error; [left; now destruct (cJSON_Print _ _) |].
  right.
  match goal with
  | |- context [save_wifi_credentials e ?a ?b ?c ?t ?x d] =>
      exists a, b, c, t, x; destruct (save_wifi_credentials e a b c t x d) as [err d1]
  end.
  simpl. destruct (negb (is_ok err)); simpl; [now left |].
  right. now destruct (wifi_provisioning_stop d1).
Qed.

(** The same for the older copy, where it returns: untouched, or as a
    failed save left it. *)
Lemma minimal_provision_handler_device (e : env) (req : httpd_req_t) (d : device) r :
  Minimal.provision_handler e req d = Some r ->
  snd r = d \/
  exists ssid password device_id prov_token bearer,
    snd r = snd (save_wifi_credentials e ssid password device_id prov_token bearer d).
Proof.
  unfold Minimal.provision_handler.
  match goal with
  | |- context [match ?b with Some _ => _ | None => None end] =>
      destruct b as [bearer_token |]; [| discriminate]
  end.
  destruct (req_recv req <=? 0); [intros [= <-]; now left |].
  destruct (req_json req) as [root |]; [| intros [= <-]; now left].
  destruct (_ || _); [intros [= <-]; now left |].
  match goal with
  | |- context [save_wifi_credentials e ?a ?b ?c ?t ?x d] =>
      assert (Hsaved : exists ssid password device_id prov_token bearer,
                snd (save_wifi_credentials e a b c t x d) =
                snd (save_wifi_credentials e ssid password device_id prov_token
                       bearer d))
        by (now exists a, b, c, t, x);
      destruct (save_wifi_credentials e a b c t x d) as [err d1]
  end.
  destruct (negb (is_ok err)); [| discriminate].
  intros [= <-]. right. exact Hsaved.
Qed.

Lemma provision_handler_bounded (e : env) (req : httpd_req_t) (d : device) :
  cache_bounded d -> cache_bounded (snd (provision_handler e req d)).
Proof.
  intros Hd.
  destruct (provision_handler_device e req d)
    as [-> | (ssid & password & device_id & prov_token & bearer & [-> | ->])];
    [assumption | |];
    pose proof (save_wifi_credentials_statics e ssid password device_id
                  prov_token bearer d) as Hs.
  - eapply statics_eq_bounded; eauto.
  - apply wifi_provisioning_stop_bounded. eapply statics_eq_bounded; eauto.
Qed.

Lemma minimal_provision_handler_bounded (e : env) (req : httpd_req_t) (d : device) r :
  cache_bounded d -> Minimal.provision_handler e req d = Some r ->
  cache_bounded (snd r).
Proof.
  intros Hd Hr.
  destruct (minimal_provision_handler_device e req d r Hr)
    as [-> | (ssid & password & device_id & prov_token & bearer & ->)];
    [assumption |].
  pose proof (save_wifi_credentials_statics e ssid password device_id
                prov_token bearer d) as Hs.
  eapply statics_eq_bounded; eauto.
Qed.

Lemma wifi_event_handler_bounded (e : env) (ev : esp_event) (d d' : device) :
  cache_bounded d -> wifi_event_handler e ev d = Some d' -> cache_bounded d'.
Proof.
  intros Hd. unfold wifi_event_handler.
  destruct ev as [[] reason | |]; try (intros [= <-]; assumption).
  destruct (is_auth_failure reason); [| intros [= <-]; exact Hd].
  destruct (wifi_provisioning_clear_and_restart e _) as [[r d1] |] eqn:Hc;
    [| discriminate].
  intros [= <-]. eapply wifi_provisioning_clear_and_restart_bounded; eauto.
Qed.

Lemma app_state_machine_step_bounded (e : env) (a a' : app_task) (d d' : device) :
  cache_bounded d -> app_state_machine_step e a d = Some (a', d') ->
  cache_bounded d'.
Proof.
  intros Hd. unfold app_state_machine_step.
  destruct (s_app_state a).
  - intros [= <- <-]; assumption.
  - destruct (wifi_provisioning_is_provisioned e d); intros [= <- <-]; assumption.
  - destruct (negb _); [| intros [= <- <-]; assumption].
    destruct (wifi_provisioning_start e d) as [[r d1] |] eqn:Hs; [| discriminate].
    intros [= <- <-]. eapply wifi_provisioning_start_bounded; eauto.
  - destruct (_ && _); [| intros [= <- <-]; assumption].
    destruct (nvs_get_str d _ 33) as [err ssid].
    destruct (is_ok err); [| intros [= <- <-]; assumption].
    destruct (nvs_get_str d _ 65). intros [= <- <-]. exact Hd.
  - destruct (negb (wifi_provisioning_is_provisioned e d));
      [intros [= <- <-]; assumption |].
    destruct (negb (verification_done a)); [| intros [= <- <-]; assumption].
    destruct (is_ok (e_probe e)); [intros [= <- <-]; exact Hd |].
    destruct (_ >=? _); [| intros [= <- <-]; exact Hd].
    destruct (wifi_provisioning_clear_and_restart e _) as [[r d1] |] eqn:Hc;
      [| discriminate].
    intros [= <- <-]. eapply wifi_provisioning_clear_and_restart_bounded; eauto.
  - destruct (e_has_certificates e); intros [= <- <-]; assumption.
  - destruct (get_provisioning_credentials e d) as [[ret ?] ?].
    destruct (negb (is_ok ret)); [intros [= <- <-]; assumption |].
    destruct (is_ok (e_submit_csr e)); intros [= <- <-]; exact Hd.
  - split_cases; intros [= <- <-]; exact Hd.
  - split_cases; intros [= <- <-]; exact Hd.
  - intros [= <- <-]; assumption.
Qed.

Lemma system_step_bounded (e : env) (act : action) (s s' : app_task * device) :
  cache_bounded (snd s) -> system_step e act s = Some s' -> cache_bounded (snd s').
Proof.
  destruct s as [a d], s' as [a' d']. simpl. intros Hd.
  destruct act.
  - apply app_state_machine_step_bounded; assumption.
  - intros [= <- <-]; assumption.
  - destruct (wifi_event_handler e ev d) as [d1 |] eqn:Hw; [| discriminate].
    intros [= <- <-]. eapply wifi_event_handler_bounded; eauto.
  - intros [= <- <-]. unfold ip_event_handler.
    destruct ev as [| [] ip |]; exact Hd.
  - intros [= <- <-].
    destruct (scan_handler_device e req d) as [-> | ->];
      [assumption | now apply perform_wifi_scan_and_cache_bounded].
  - intros [= <- <-]. now apply provision_handler_bounded.
  - destruct (Minimal.provision_handler e req d) as [r |] eqn:Hr; [| discriminate].
    intros [= <- <-]. eapply minimal_provision_handler_bounded; eauto.
  - intros [= <- <-]. exact Hd.
Qed.

Lemma run_bounded (l : list (env * action)) (s s' : app_task * device) :
  cache_bounded (snd s) -> run s l = Some s' -> cache_bounded (snd s').
Proof.
  revert s. induction l as [| [e act] l IH]; intros s Hs; simpl.
  - intros [= <-]. exact Hs.
  - destruct (system_step e act s) as [s1 |] eqn:Hstep; [| discriminate].
    apply IH. eapply system_step_bounded; eauto.
Qed.

(** C6. A refresh that updates the cache leaves at most 20 entries in it,
    whatever count and records the radio reports and whatever the cache held
    before; and in every reachable state of the system the cached entry count
    lies between 0 and the capacity 20, also after one more refresh, failed
    or not. *)
Theorem cached_network_count_bounded (e : env) :
  (forall d : device,
     fst (perform_wifi_scan_and_cache e d) = ESP_OK ->
     0 <= s_cached_network_count (snd (perform_wifi_scan_and_cache e d)) <= 20) /\
  (forall s : app_task * device,
     reachable s ->
     0 <= s_cached_network_count (snd s) <= 20 /\
     0 <= s_cached_network_count (snd (perform_wifi_scan_and_cache e (snd s))) <= 20).
Proof.
  split; [exact (perform_wifi_scan_and_cache_ok_bounded e) |].
  intros s (flash & l & Hrun).
  assert (Hs : cache_bounded (snd s)).
  { eapply run_bounded; [| exact Hrun]. simpl. unfold cache_bounded. simpl.
    unfold WIFI_SCAN_MAX_APS. lia. }
  split; [exact Hs |].
  now apply perform_wifi_scan_and_cache_bounded.
Qed.

Lemma cached_network_count_bounded_witness :
  fst (perform_wifi_scan_and_cache env_crowded device_boot) = ESP_OK /\
  s_cached_network_count (snd (perform_wifi_scan_and_cache env_crowded device_boot)) = 20 /\
  exists s,
    run (boot ∅) [(env_ok, Act_loop); (env_ok, Act_loop); (env_crowded, Act_loop)]
      = Some s /\
    0 <= s_cached_network_count (snd s) <= 20 /\
    0 <= s_cached_network_count (snd (perform_wifi_scan_and_cache env_crowded (snd s)))
      <= 20.
Proof.
  split; [reflexivity |]. split; [reflexivity |].
  eexists. split; [vm_compute; reflexivity |].
  refine (proj2 (cached_network_count_bounded env_crowded) _ _).
  exists ∅, [(env_ok, Act_loop); (env_ok, Act_loop); (env_crowded, Act_loop)].
  vm_compute. reflexivity.
Defined.

(** ** Who sets [s_wifi_connected] *)

Lemma perform_wifi_scan_and_cache_link (e : env) (d : device) :
  s_wifi_connected (snd (perform_wifi_scan_and_cache e d)) = s_wifi_connected d.
Proof.
  unfold perform_wifi_scan_and_cache, esp_wifi_scan_get_ap_records.
  split_cases; reflexivity.
Qed.

Lemma wifi_provisioning_stop_link (d : device) :
  s_wifi_connected (snd (wifi_provisioning_stop d)) = s_wifi_connected d.
Proof. unfold wifi_provisioning_stop. split_cases; reflexivity. Qed.

Lemma wifi_provisioning_start_link (e : env) (d : device) r d' :
  wifi_provisioning_start e d = Some (r, d') ->
  s_wifi_connected d' = s_wifi_connected d.
Proof.
  unfold wifi_provisioning_start, wifi_init_ap, start_http_server.
  destruct (s_provisioning_active d); [now intros [= <- <-] |].
  destruct (_ && _); [now intros [= <- <-] |].
  destruct (_ && _); [now intros [= <- <-] |].
  destruct (e_wifi_init_ok e); [| discriminate]. simpl.
  pose proof (perform_wifi_scan_and_cache_link e (hal Wifi_init_ap d)) as Hp.
  destruct (perform_wifi_scan_and_cache e (hal Wifi_init_ap d)) as [ret d1].
  simpl in Hp.
  destruct (e_httpd_start e); intros [= <- <-]; exact Hp.
Qed.

Lemma wifi_provisioning_clear_and_restart_link (e : env) (d : device) r d' :
  wifi_provisioning_clear_and_restart e d = Some (r, d') ->
  s_wifi_connected d' = false.
Proof.
  unfold wifi_provisioning_clear_and_restart.
  match goal with
  | |- context [wifi_provisioning_start e ?x] =>
      pose proof (wifi_provisioning_start_link e x) as Hs;
      destruct (wifi_provisioning_start e x) as [[r1 d1] |]; [| discriminate]
  end.
  destruct (negb (is_ok r1)); intros [= <- <-]; now rewrite (Hs r1 d1).
Qed.

Lemma scan_handler_link (e : env) (req : httpd_req_t) (d : device) :
  s_wifi_connected (snd (scan_handler e req d)) = s_wifi_connected d.
Proof.
  destruct (scan_handler_device e req d) as [-> | ->];
    [reflexivity | apply perform_wifi_scan_and_cache_link].
Qed.

Lemma provision_handler_link (e : env) (req : httpd_req_t) (d : device) :
  s_wifi_connected (snd (provision_handler e req d)) = s_wifi_connected d.
Proof.
  destruct (provision_handler_device e req d)
    as [-> | (ssid & password & device_id & prov_token & bearer & [-> | ->])];
    [reflexivity | |];
    pose proof (save_wifi_credentials_statics e ssid password device_id
                  prov_token bearer d) as Hs;
    unfold statics_eq in Hs; decompose [and] Hs.
  - assumption.
  - now rewrite wifi_provisioning_stop_link.
Qed.

Lemma minimal_provision_handler_link (e : env) (req : httpd_req_t) (d : device) r :
  Minimal.provision_handler e req d = Some r ->
  s_wifi_connected (snd r) = s_wifi_connected d.
Proof.
  intros Hr.
  destruct (minimal_provision_handler_device e req d r Hr)
    as [-> | (ssid & password & device_id & prov_token & bearer & ->)];
    [reflexivity |].
  pose proof (save_wifi_credentials_statics e ssid password device_id
                prov_token bearer d) as Hs.
  unfold statics_eq in Hs. decompose [and] Hs. assumption.
Qed.

Lemma wifi_event_handler_link (e : env) (ev : esp_event) (d d' : device) :
  wifi_event_handler e ev d = Some d' ->
  s_wifi_connected d' = true -> s_wifi_connected d = true.
Proof.
  unfold wifi_event_handler.
  destruct ev as [[] reason | |]; try (now intros [= <-]).
  destruct (is_auth_failure reason); [| intros [= <-]; simpl; discriminate].
  destruct (wifi_provisioning_clear_and_restart e _) as [[r d1] |] eqn:Hc;
    [| discriminate].
  intros [= <-] Hup. apply wifi_provisioning_clear_and_restart_link in Hc.
  congruence.
Qed.

Lemma app_state_machine_step_link (e : env) (a a' : app_task) (d d' : device) :
  app_state_machine_step e a d = Some (a', d') ->
  s_wifi_connected d' = true -> s_wifi_connected d = true.
Proof.
  unfold app_state_machine_step.
  destruct (s_app_state a).
  - now intros [= <- <-].
  - destruct (wifi_provisioning_is_provisioned e d); now intros [= <- <-].
  - destruct (negb _); [| now intros [= <- <-]].
    destruct (wifi_provisioning_start e d) as [[r d1] |] eqn:Hs; [| discriminate].
    intros [= <- <-]. now rewrite (wifi_provisioning_start_link _ _ _ _ Hs).
  - destruct (_ && _); [| now intros [= <- <-]].
    destruct (nvs_get_str d _ 33) as [err ssid].
    destruct (is_ok err); [| now intros [= <- <-]].
    destruct (nvs_get_str d _ 65). now intros [= <- <-].
  - destruct (negb (wifi_provisioning_is_provisioned e d)); [now intros [= <- <-] |].
    destruct (negb (verification_done a)); [| now intros [= <- <-]].
    destruct (is_ok (e_probe e)); [now intros [= <- <-] |].
    destruct (_ >=? _); [| now intros [= <- <-]].
    destruct (wifi_provisioning_clear_and_restart e _) as [[r d1] |] eqn:Hc;
      [| discriminate].
    intros [= <- <-] Hup. apply wifi_provisioning_clear_and_restart_link in Hc.
    congruence.
  - destruct (e_has_certificates e); now intros [= <- <-].
  - destruct (get_provisioning_credentials e d) as [[ret ?] ?].
    destruct (negb (is_ok ret)); [now intros [= <- <-] |].
    destruct (is_ok (e_submit_csr e)); now intros [= <- <-].
  - split_cases; now intros [= <- <-].
  - split_cases; now intros [= <- <-].
  - now intros [= <- <-].
Qed.

(** C5. [s_wifi_connected], the flag behind the status endpoint, goes from
    false to true in one way only: [ip_event_handler] receiving the got-IP
    event.  No other invocation (the control loop, an HTTP request, any other
    event) raises it; the got-IP event does; and the station-connected event
    leaves the module's state as it is in both of its handlers. *)
Theorem wifi_connected_only_on_got_ip :
  (forall (e : env) (act : action) (s s' : app_task * device),
     system_step e act s = Some s' ->
     s_wifi_connected (snd s) = false -> s_wifi_connected (snd s') = true ->
     exists ip, act = Act_ip_event (IP_EVENT IP_EVENT_STA_GOT_IP ip)) /\
  (forall (ip : esp_ip4_addr_t) (d : device),
     s_wifi_connected (ip_event_handler (IP_EVENT IP_EVENT_STA_GOT_IP ip) d) = true) /\
  (forall (e : env) (reason : Z) (d : device),
     wifi_event_handler e (WIFI_EVENT WIFI_EVENT_STA_CONNECTED reason) d = Some d /\
     ip_event_handler (WIFI_EVENT WIFI_EVENT_STA_CONNECTED reason) d = d).
Proof.
  split; [| split; [reflexivity | split; reflexivity]].
  intros e act [a d] [a' d']. simpl. intros Hstep Hdown Hup.
  destruct act.
  - apply app_state_machine_step_link in Hstep; [congruence | assumption].
  - injection Hstep as <- <-. congruence.
  - destruct (wifi_event_handler e ev d) as [d1 |] eqn:Hw; [| discriminate].
    injection Hstep as <- <-.
    apply wifi_event_handler_link in Hw; [congruence | assumption].
  - injection Hstep as <- <-.
    destruct ev as [| [] ip |]; simpl in Hup; try congruence.
    now exists ip.
  - injection Hstep as <- <-. rewrite scan_handler_link in Hup. congruence.
  - injection Hstep as <- <-. rewrite provision_handler_link in Hup. congruence.
  - destruct (Minimal.provision_handler e req d) as [r |] eqn:Hr; [| discriminate].
    injection Hstep as <- <-.
    rewrite (minimal_provision_handler_link _ _ _ _ Hr) in Hup. congruence.
  - injection Hstep as <- <-. simpl in Hup. congruence.
Qed.

Lemma wifi_connected_only_on_got_ip_witness :
  exists ip,
    Act_ip_event (IP_EVENT IP_EVENT_STA_GOT_IP sample_ip)
      = Act_ip_event (IP_EVENT IP_EVENT_STA_GOT_IP ip).
Proof.
  apply (proj1 wifi_connected_only_on_got_ip env_ok
           (Act_ip_event (IP_EVENT IP_EVENT_STA_GOT_IP sample_ip))
           (boot ∅)
           (app_boot, ip_event_handler (IP_EVENT IP_EVENT_STA_GOT_IP sample_ip) device_boot));
    reflexivity.
Defined.

(** ** Clear-and-restart *)

Lemma perform_wifi_scan_and_cache_nvs (e : env) (d : device) :
  nvs (snd (perform_wifi_scan_and_cache e d)) = nvs d.
Proof.
  unfold perform_wifi_scan_and_cache, esp_wifi_scan_get_ap_records.
  split_cases; reflexivity.
Qed.

Lemma wifi_provisioning_start_nvs (e : env) (d : device) r d' :
  wifi_provisioning_start e d = Some (r, d') -> nvs d' = nvs d.
Proof.
  unfold wifi_provisioning_start, wifi_init_ap, start_http_server.
  destruct (s_provisioning_active d); [now intros [= <- <-] |].
  destruct (_ && _); [now intros [= <- <-] |].
  destruct (_ && _); [now intros [= <- <-] |].
  destruct (e_wifi_init_ok e); [| discriminate]. simpl.
  pose proof (perform_wifi_scan_and_cache_nvs e (hal Wifi_init_ap d)) as Hp.
  destruct (perform_wifi_scan_and_cache e (hal Wifi_init_ap d)) as [ret d1].
  simpl in Hp.
  destruct (e_httpd_start e); intros [= <- <-]; exact Hp.
Qed.

Lemma erase_credentials_lookup (m : gmap string nvs_value) (key : string) :
  erase_credentials m !! key = if bool_decide (key ∈ credential_keys) then None else m !! key.
Proof.
  unfold erase_credentials.
  repeat (rewrite lookup_delete; case_decide; [subst key; reflexivity |]).
  rewrite bool_decide_eq_false_2; [reflexivity |].
  unfold credential_keys. rewrite !not_elem_of_cons.
  repeat split; try congruence. apply not_elem_of_nil.
Qed.

(** What [wifi_provisioning_clear_and_restart] leaves in the store. *)
Lemma wifi_provisioning_clear_and_restart_nvs (e : env) (d : device) r d' :
  wifi_provisioning_clear_and_restart e d = Some (r, d') ->
  nvs d' = if is_ok (e_nvs_open_rw e) then erase_credentials (nvs d) else nvs d.
Proof.
  unfold wifi_provisioning_clear_and_restart.
  match goal with
  | |- context [wifi_provisioning_start e ?x] =>
      pose proof (wifi_provisioning_start_nvs e x) as Hs;
      destruct (wifi_provisioning_start e x) as [[r1 d1] |]; [| discriminate]
  end.
  destruct (negb (is_ok r1)); intros [= <- <-]; rewrite (Hs r1 d1 eq_refl);
    destruct (is_ok (e_nvs_open_rw e)), (s_httpd d); reflexivity.
Qed.

(** On a platform that lets the listener start. *)
Section ListenerStarts.

Variable e : env.
Hypothesis Hrestart : restart_succeeds e = true.

Lemma wifi_provisioning_start_succeeds (d : device) :
  s_provisioning_active d = false ->
  exists d', wifi_provisioning_start e d = Some (ESP_OK, d') /\
             s_provisioning_active d' = true /\
             s_httpd d' = e_httpd_start e /\ is_Some (s_httpd d').
Proof.
  intros Hinactive. pose proof Hrestart as Hok. unfold restart_succeeds in Hok.
  apply andb_prop in Hok as [Hok Hhttpd].
  apply andb_prop in Hok as [Hok Hinit].
  apply andb_prop in Hok as [Hnetif Hloop].
  unfold wifi_provisioning_start, wifi_init_ap, start_http_server.
  rewrite Hinactive, Hinit.
  replace (negb (is_ok (e_netif_init e)) && negb (e_netif_init e =? ESP_ERR_INVALID_STATE))
    with false by (now rewrite <- negb_orb, Hnetif).
  replace (negb (is_ok (e_event_loop e)) && negb (e_event_loop e =? ESP_ERR_INVALID_STATE))
    with false by (now rewrite <- negb_orb, Hloop).
  simpl.
  destruct (perform_wifi_scan_and_cache e (hal Wifi_init_ap d)) as [ret d1].
  destruct (e_httpd_start e) as [server |]; [| discriminate].
  eexists. split; [reflexivity |]. simpl. eauto.
Qed.

Lemma wifi_provisioning_clear_and_restart_succeeds (d : device) :
  exists d', wifi_provisioning_clear_and_restart e d = Some (ESP_OK, d') /\
             s_provisioning_active d' = true /\ is_Some (s_httpd d') /\
             s_wifi_connected d' = false.
Proof.
  assert (Hstart : forall x, s_provisioning_active x = false ->
            exists d', wifi_provisioning_start e x = Some (ESP_OK, d') /\
                       s_provisioning_active d' = true /\ is_Some (s_httpd d') /\
                       s_wifi_connected d' = s_wifi_connected x).
  { intros x Hx.
    destruct (wifi_provisioning_start_succeeds x Hx) as (d' & Hs & Ha & _ & Hh).
    exists d'. repeat split; try assumption.
    eapply wifi_provisioning_start_link; eauto. }
  unfold wifi_provisioning_clear_and_restart.
  match goal with
  | |- context [wifi_provisioning_start e ?x] =>
      destruct (Hstart x) as (d' & Hs & Ha & Hh & Hl);
      [destruct (is_ok (e_nvs_open_rw e)), (s_httpd d); reflexivity |];
      rewrite Hs
  end.
  exists d'. repeat split; assumption.
Qed.

End ListenerStarts.

(** ** Disconnect reasons *)

Lemma is_auth_failure_spec (reason : Z) :
  is_auth_failure reason = true <-> reason = 15 \/ 201 <= reason <= 209.
Proof. unfold is_auth_failure. lia. Qed.

Example device_provisioned_store :
  nvs device_provisioned !! NVS_KEY_PROVISIONED = Some (NvsU8 1) /\
  nvs device_provisioned !! NVS_KEY_WIFI_PASS = Some (NvsStr "pw123456") /\
  nvs device_provisioned !! NVS_KEY_BEARER_TOKEN = Some (NvsStr "abc") /\
  s_provisioning_active device_provisioned = false.
Proof. vm_compute. auto. Qed.

(** What a start that goes through records: [httpd_start] is the newest
    platform call, after those made before. *)
Lemma perform_wifi_scan_and_cache_calls (e : env) (d : device) :
  (length (hal_trace d) <= length (hal_trace (snd (perform_wifi_scan_and_cache e d))))%nat.
Proof.
  unfold perform_wifi_scan_and_cache, esp_wifi_scan_get_ap_records.
  split_cases; simpl; lia.
Qed.

Lemma wifi_provisioning_start_ok_calls (e : env) (d d' : device) :
  s_provisioning_active d = false ->
  wifi_provisioning_start e d = Some (ESP_OK, d') ->
  exists t, hal_trace d' = Httpd_start :: t /\
            (length (hal_trace d) < length t)%nat.
Proof.
  intros Hinactive. unfold wifi_provisioning_start, wifi_init_ap, start_http_server.
  rewrite Hinactive.
  destruct (negb (is_ok (e_netif_init e)) && _) eqn:H1;
    [intros [= Hret _]; rewrite Hret in H1; discriminate |].
  destruct (negb (is_ok (e_event_loop e)) && _) eqn:H2;
    [intros [= Hret _]; rewrite Hret in H2; discriminate |].
  destruct (e_wifi_init_ok e); [| discriminate]. simpl.
  pose proof (perform_wifi_scan_and_cache_calls e (hal Wifi_init_ap d)) as Hp.
  destruct (perform_wifi_scan_and_cache e (hal Wifi_init_ap d)) as [ret d1].
  simpl in Hp.
  destruct (e_httpd_start e); [| discriminate].
  intros [= <-]. simpl. eexists. split; [reflexivity | lia].
Qed.

Lemma wifi_provisioning_clear_and_restart_ok_calls (e : env) (d d' : device) :
  wifi_provisioning_clear_and_restart e d = Some (ESP_OK, d') ->
  exists t, hal_trace d' = Httpd_start :: t /\
            (length (hal_trace d) < length t)%nat.
Proof.
  unfold wifi_provisioning_clear_and_restart.
  match goal with
  | |- context [wifi_provisioning_start e ?x] =>
      pose proof (wifi_provisioning_start_ok_calls e x) as Hs;
      assert (Hx : s_provisioning_active x = false /\
                   (length (hal_trace d) <= length (hal_trace x))%nat)
        by (destruct (is_ok (e_nvs_open_rw e)), (s_httpd d); simpl; split;
            try reflexivity; lia);
      destruct (wifi_provisioning_start e x) as [[r1 d1] |]; [| discriminate]
  end.
  destruct Hx as [Hinactive Hlen].
  destruct (is_ok r1) eqn:Hr1; cbn [negb].
  - intros [= <-]. apply Z.eqb_eq in Hr1. subst r1.
    destruct (Hs d1 Hinactive eq_refl) as (t & Ht & Hlt).
    exists t. split; [exact Ht | lia].
  - intros [= Hret _]. rewrite Hret in Hr1. discriminate.
Qed.

(** C2, amended.  Whatever the platform answers, a station-disconnect event
    whose reason is 15 or lies in 201..209 runs
    [wifi_provisioning_clear_and_restart], and an event with any other
    reason only clears the connection status: the store, the listener and
    the list of platform calls stay as they were, so a key of the store
    changes, or a platform call is made, only when the reason is 15 or in
    201..209.  On a platform where the NVS namespace opens and the listener
    can be started, the event returns, and then: for such a reason the six
    keys of the credential record (ssid, password, device id, provisioning
    token, bearer token, provisioned flag) are gone and the listener is
    back, the HTTP server having been started by [httpd_start] as the
    newest platform call; on a device that holds some key of the record,
    the record is gone if and only if the reason is 15 or in 201..209; and
    [httpd_start] is the newest call, made after the event arrived, if and
    only if the reason is 15 or in 201..209. *)
Theorem sta_disconnected_clears_on_auth_failure (e : env) (reason : Z) (d : device) :
  let r := wifi_event_handler e (WIFI_EVENT WIFI_EVENT_STA_DISCONNECTED reason) d in
  (reason = 15 \/ 201 <= reason <= 209 ->
   r = snd <$> wifi_provisioning_clear_and_restart e (set_link false EmptyString d)) /\
  (~ (reason = 15 \/ 201 <= reason <= 209) -> r = Some (set_link false EmptyString d)) /\
  (forall d' key, r = Some d' -> nvs d' !! key <> nvs d !! key ->
                  reason = 15 \/ 201 <= reason <= 209) /\
  (forall d', r = Some d' -> hal_trace d' <> hal_trace d ->
              reason = 15 \/ 201 <= reason <= 209) /\
  (is_ok (e_nvs_open_rw e) = true -> restart_succeeds e = true ->
   exists d',
     r = Some d' /\
     (reason = 15 \/ 201 <= reason <= 209 ->
      (forall key, key ∈ credential_keys -> nvs d' !! key = None) /\
      s_provisioning_active d' = true /\ is_Some (s_httpd d') /\
      exists t, hal_trace d' = Httpd_start :: t /\
                (length (hal_trace d) < length t)%nat) /\
     ((exists key, key ∈ credential_keys /\ is_Some (nvs d !! key)) ->
      ((forall key, key ∈ credential_keys -> nvs d' !! key = None) <->
       (reason = 15 \/ 201 <= reason <= 209))) /\
     ((exists t, hal_trace d' = Httpd_start :: t /\
                 (length (hal_trace d) < length t)%nat) <->
      (reason = 15 \/ 201 <= reason <= 209))).
Proof.
  assert (Hother : ~ (reason = 15 \/ 201 <= reason <= 209) ->
            wifi_event_handler e (WIFI_EVENT WIFI_EVENT_STA_DISCONNECTED reason) d
              = Some (set_link false EmptyString d)).
  { intros Hr. simpl.
    destruct (is_auth_failure reason) eqn:Ha; [| reflexivity].
    now apply is_auth_failure_spec in Ha. }
  assert (Hauth : reason = 15 \/ 201 <= reason <= 209 ->
            is_ok (e_nvs_open_rw e) = true -> restart_succeeds e = true ->
            exists d',
              wifi_event_handler e (WIFI_EVENT WIFI_EVENT_STA_DISCONNECTED reason) d
                = Some d' /\
              (forall key, key ∈ credential_keys -> nvs d' !! key = None) /\
              s_provisioning_active d' = true /\ is_Some (s_httpd d') /\
              exists t, hal_trace d' = Httpd_start :: t /\
                        (length (hal_trace d) < length t)%nat).
  { intros Hr Hopen Hok. simpl.
    apply is_auth_failure_spec in Hr. rewrite Hr.
    destruct (wifi_provisioning_clear_and_restart_succeeds e Hok (set_link false EmptyString d))
      as (d' & Hc & Hactive & Hserver & _).
    rewrite Hc. exists d'. repeat split; try assumption.
    - intros key Hkey.
      rewrite (wifi_provisioning_clear_and_restart_nvs _ _ _ _ Hc), Hopen.
      rewrite erase_credentials_lookup. now rewrite bool_decide_eq_true_2.
    - exact (wifi_provisioning_clear_and_restart_ok_calls _ _ _ Hc). }
  assert (Hdec : (reason = 15 \/ 201 <= reason <= 209) \/
                 ~ (reason = 15 \/ 201 <= reason <= 209)) by lia.
  cbv zeta. split; [| split; [exact Hother |]; split; [| split]].
  - intros Hr. simpl. apply is_auth_failure_spec in Hr. rewrite Hr.
    now destruct (wifi_provisioning_clear_and_restart e _) as [[ret d'] |].
  - intros d' key Hrun Hchanged.
    destruct Hdec as [Hr | Hr]; [exact Hr |].
    rewrite (Hother Hr) in Hrun. injection Hrun as <-. now destruct Hchanged.
  - intros d' Hrun Hchanged.
    destruct Hdec as [Hr | Hr]; [exact Hr |].
    rewrite (Hother Hr) in Hrun. injection Hrun as <-. now destruct Hchanged.
  - intros Hopen Hok.
    destruct Hdec as [Hr | Hr].
    + destruct (Hauth Hr Hopen Hok) as (d' & Hrun & Hgone & Hactive & Hserver & Hcalls).
      exists d'. split; [exact Hrun |]. split; [auto |].
      split; [intros _; split; [intros _; exact Hr | intros _; exact Hgone] |].
      split; [intros _; exact Hr | intros _; exact Hcalls].
    + exists (set_link false EmptyString d). split; [exact (Hother Hr) |].
      split; [intros Hin; now destruct Hr |].
      split.
      * intros (key & Hkey & Hstored).
        split; [| intros Hin; now destruct Hr].
        intros Hgone. specialize (Hgone key Hkey). simpl in Hgone.
        rewrite Hgone in Hstored. now destruct Hstored.
      * split; [| intros Hin; now destruct Hr].
        intros (t & Ht & Hlt). simpl in Ht. rewrite Ht in Hlt. simpl in Hlt. lia.
Qed.

Lemma sta_disconnected_clears_on_auth_failure_witness :
  (exists d',
     wifi_event_handler env_ok (WIFI_EVENT WIFI_EVENT_STA_DISCONNECTED 15)
       device_provisioned = Some d' /\
     (forall key, key ∈ credential_keys -> nvs d' !! key = None) /\
     s_provisioning_active d' = true /\ is_Some (s_httpd d') /\
     exists t, hal_trace d' = Httpd_start :: t /\
               (length (hal_trace device_provisioned) < length t)%nat) /\
  wifi_event_handler env_ok (WIFI_EVENT WIFI_EVENT_STA_DISCONNECTED 8)
    device_provisioned = Some (set_link false EmptyString device_provisioned) /\
  (exists d',
     wifi_event_handler env_ok (WIFI_EVENT WIFI_EVENT_STA_DISCONNECTED 205)
       device_provisioned = Some d' /\
     ((forall key, key ∈ credential_keys -> nvs d' !! key = None) <->
      (205 = 15 \/ 201 <= 205 <= 209))).
Proof.
  split; [| split].
  - destruct (proj2 (proj2 (proj2 (proj2 (sta_disconnected_clears_on_auth_failure
                                            env_ok 15 device_provisioned))))
                eq_refl eq_refl) as (d' & Hrun & Hauth & _).
    exists d'. split; [exact Hrun |]. apply Hauth. left. reflexivity.
  - apply (proj1 (proj2 (sta_disconnected_clears_on_auth_failure env_ok 8
                           device_provisioned))).
    lia.
  - destruct (proj2 (proj2 (proj2 (proj2 (sta_disconnected_clears_on_auth_failure
                                            env_ok 205 device_provisioned))))
                eq_refl eq_refl) as (d' & Hrun & _ & Hiff & _).
    exists d'. split; [exact Hrun |]. apply Hiff.
    exists NVS_KEY_PROVISIONED. split; [| eexists; reflexivity].
    apply list_elem_of_In. left. reflexivity.
Defined.

(** C2, as stated, fails on the code.  The provisioned device receives a
    station-disconnect event with reason 15.  When the namespace does not
    open, [wifi_provisioning_clear_and_restart] skips the erase: the six
    keys are still stored.  When [httpd_start] fails, the record is erased
    but the listener is not back. *)
Lemma sta_disconnected_without_store_or_server :
  (15 = 15 \/ 201 <= 15 <= 209) /\
  match wifi_event_handler env_store_closed
          (WIFI_EVENT WIFI_EVENT_STA_DISCONNECTED 15) device_provisioned with
  | Some d' =>
      nvs d' !! NVS_KEY_WIFI_SSID = Some (NvsStr "Net") /\
      nvs d' !! NVS_KEY_WIFI_PASS = Some (NvsStr "pw123456") /\
      nvs d' !! NVS_KEY_DEVICE_ID = Some (NvsStr "dev1") /\
      nvs d' !! NVS_KEY_PROV_TOKEN = Some (NvsStr "tok1") /\
      nvs d' !! NVS_KEY_BEARER_TOKEN = Some (NvsStr "abc") /\
      nvs d' !! NVS_KEY_PROVISIONED = Some (NvsU8 1)
  | None => False
  end /\
  match wifi_event_handler env_no_server
          (WIFI_EVENT WIFI_EVENT_STA_DISCONNECTED 15) device_provisioned with
  | Some d' =>
      nvs d' !! NVS_KEY_PROVISIONED = None /\
      s_provisioning_active d' = false /\ s_httpd d' = None
  | None => False
  end.
Proof. split; [left; reflexivity |]. vm_compute. repeat split. Qed.

(** ** The reachability probe *)

Lemma is_provisioned_hal (e : env) (c : hal_call) (d : device) :
  wifi_provisioning_is_provisioned e (hal c d) = wifi_provisioning_is_provisioned e d.
Proof. reflexivity. Qed.

(** One failed probe when one failure is already counted: clear-and-restart
    is called and the loop goes to AP_MODE. *)
Lemma probe_failure_after_failure (e : env) (a : app_task) (d : device) :
  s_app_state a = APP_STATE_WIFI_CONNECTED ->
  wifi_provisioning_is_provisioned e d = true ->
  verification_done a = false -> 1 <= verification_retries a ->
  e_probe e <> ESP_OK ->
  app_state_machine_step e a d =
    match wifi_provisioning_clear_and_restart e (hal Probe d) with
    | Some (_, d') =>
        Some (set_app_state APP_STATE_AP_MODE (set_verification false 0 a), d')
    | None => None
    end.
Proof.
  intros Hstate Hprov Hdone Hretries Hprobe.
  unfold app_state_machine_step. rewrite Hstate, Hprov, Hdone. simpl.
  replace (is_ok (e_probe e)) with false
    by (symmetry; now apply Z.eqb_neq).
  replace (verification_retries a + 1 >=? MAX_VERIFICATION_RETRIES) with true
    by (symmetry; unfold MAX_VERIFICATION_RETRIES; rewrite Z.geb_leb; apply Z.leb_le; lia).
  reflexivity.
Qed.

(** The first failed probe is only counted. *)
Lemma probe_first_failure (e : env) (a : app_task) (d : device) :
  s_app_state a = APP_STATE_WIFI_CONNECTED ->
  wifi_provisioning_is_provisioned e d = true ->
  verification_done a = false -> verification_retries a = 0 ->
  e_probe e <> ESP_OK ->
  app_state_machine_step e a d = Some (set_verification false 1 a, hal Probe d).
Proof.
  intros Hstate Hprov Hdone Hretries Hprobe.
  unfold app_state_machine_step. rewrite Hstate, Hprov, Hdone, Hretries. simpl.
  replace (is_ok (e_probe e)) with false
    by (symmetry; now apply Z.eqb_neq).
  reflexivity.
Qed.

(** C4, amended.  In WIFI_CONNECTED, with the device still provisioned at
    both iterations, two consecutive failed probes (with any error code) make
    the loop call [wifi_provisioning_clear_and_restart] in the second
    iteration and move to AP_MODE; the first failure leaves the store alone.
    When the NVS namespace opens and the platform lets the listener start,
    the credential record is then erased, the device is no longer
    provisioned, and the listener is active again, the HTTP server having
    been started by [httpd_start] as the newest platform call. *)
Theorem two_probe_failures_clear_and_restart (e1 e2 : env) (a : app_task) (d : device) :
  s_app_state a = APP_STATE_WIFI_CONNECTED ->
  verification_done a = false -> verification_retries a = 0 ->
  wifi_provisioning_is_provisioned e1 d = true ->
  wifi_provisioning_is_provisioned e2 d = true ->
  e_probe e1 <> ESP_OK -> e_probe e2 <> ESP_OK ->
  let a1 := set_verification false 1 a in
  let a2 := set_app_state APP_STATE_AP_MODE (set_verification false 0 a1) in
  run (a, d) [(e1, Act_loop)] = Some (a1, hal Probe d) /\
  s_app_state a1 = APP_STATE_WIFI_CONNECTED /\
  run (a, d) [(e1, Act_loop); (e2, Act_loop)] =
    match wifi_provisioning_clear_and_restart e2 (hal Probe (hal Probe d)) with
    | Some (_, d') => Some (a2, d')
    | None => None
    end /\
  (is_ok (e_nvs_open_rw e2) = true -> restart_succeeds e2 = true ->
   exists d', run (a, d) [(e1, Act_loop); (e2, Act_loop)] = Some (a2, d') /\
              s_app_state a2 = APP_STATE_AP_MODE /\
              (forall key, key ∈ credential_keys -> nvs d' !! key = None) /\
              s_provisioning_active d' = true /\ is_Some (s_httpd d') /\
              (exists t, hal_trace d' = Httpd_start :: t /\
                         (length (hal_trace d) < length t)%nat) /\
              (forall e, wifi_provisioning_is_provisioned e d' = false)).
Proof.
  intros Hstate Hdone Hretries Hprov1 Hprov2 Hprobe1 Hprobe2 a1 a2.
  assert (Hfirst : app_state_machine_step e1 a d = Some (a1, hal Probe d))
    by now apply probe_first_failure.
  assert (Hsecond : app_state_machine_step e2 a1 (hal Probe d) =
            match wifi_provisioning_clear_and_restart e2 (hal Probe (hal Probe d)) with
            | Some (_, d') => Some (a2, d')
            | None => None
            end).
  { apply probe_failure_after_failure; simpl; try assumption; lia. }
  assert (Hrun : run (a, d) [(e1, Act_loop); (e2, Act_loop)] =
            match wifi_provisioning_clear_and_restart e2 (hal Probe (hal Probe d)) with
            | Some (_, d') => Some (a2, d')
            | None => None
            end).
  { cbn [run system_step]. rewrite Hfirst. cbn [run system_step]. rewrite Hsecond.
    now destruct (wifi_provisioning_clear_and_restart e2 _) as [[r d'] |]. }
  split; [cbn [run system_step]; now rewrite Hfirst |].
  split; [exact Hstate |].
  split; [exact Hrun |].
  intros Hopen Hok.
  destruct (wifi_provisioning_clear_and_restart_succeeds e2 Hok (hal Probe (hal Probe d)))
    as (d' & Hc & Hactive & Hserver & _).
  assert (Hkeys : forall key, key ∈ credential_keys -> nvs d' !! key = None).
  { intros key Hkey.
    rewrite (wifi_provisioning_clear_and_restart_nvs _ _ _ _ Hc), Hopen.
    rewrite erase_credentials_lookup. now rewrite bool_decide_eq_true_2. }
  exists d'. rewrite Hrun, Hc.
  split; [reflexivity |]. split; [reflexivity |]. split; [exact Hkeys |].
  split; [exact Hactive |]. split; [exact Hserver |]. split.
  - destruct (wifi_provisioning_clear_and_restart_ok_calls _ _ _ Hc) as (t & Ht & Hlt).
    exists t. split; [exact Ht |]. simpl in Hlt. lia.
  - intros e. unfold wifi_provisioning_is_provisioned.
    rewrite (Hkeys NVS_KEY_PROVISIONED).
    + now destruct (is_ok (e_nvs_open_ro e)).
    + apply list_elem_of_In. left. reflexivity.
Qed.

Lemma two_probe_failures_clear_and_restart_witness :
  exists d',
    run (app_wifi_connected, device_provisioned)
        [(env_offline, Act_loop); (env_offline, Act_loop)]
      = Some (set_app_state APP_STATE_AP_MODE app_boot, d') /\
    (forall key, key ∈ credential_keys -> nvs d' !! key = None) /\
    s_provisioning_active d' = true /\ is_Some (s_httpd d') /\
    (exists t, hal_trace d' = Httpd_start :: t /\
               (length (hal_trace device_provisioned) < length t)%nat).
Proof.
  destruct (two_probe_failures_clear_and_restart env_offline env_offline
              app_wifi_connected device_provisioned)
    as (_ & _ & _ & Hclear); try reflexivity; try discriminate.
  destruct Hclear as (d' & Hrun & _ & Hkeys & Hactive & Hserver & Hcalls & _);
    try reflexivity.
  exists d'. repeat split; assumption.
Defined.

(** C4, as stated, fails on the code.  The provisioned device is in
    WIFI_CONNECTED and the probe fails twice in a row.  The loop goes to
    AP_MODE both times; but when the namespace does not open the six keys of
    the record are still stored and the device is still provisioned, and
    when [httpd_start] fails the listener is not back. *)
Lemma two_probe_failures_without_store_or_server :
  match run (app_wifi_connected, device_provisioned)
            [(with_probe ESP_FAIL env_store_closed, Act_loop);
             (with_probe ESP_FAIL env_store_closed, Act_loop)] with
  | Some (a', d') =>
      s_app_state a' = APP_STATE_AP_MODE /\
      nvs d' !! NVS_KEY_WIFI_SSID = Some (NvsStr "Net") /\
      nvs d' !! NVS_KEY_WIFI_PASS = Some (NvsStr "pw123456") /\
      nvs d' !! NVS_KEY_DEVICE_ID = Some (NvsStr "dev1") /\
      nvs d' !! NVS_KEY_PROV_TOKEN = Some (NvsStr "tok1") /\
      nvs d' !! NVS_KEY_BEARER_TOKEN = Some (NvsStr "abc") /\
      nvs d' !! NVS_KEY_PROVISIONED = Some (NvsU8 1) /\
      wifi_provisioning_is_provisioned env_ok d' = true
  | None => False
  end /\
  match run (app_wifi_connected, device_provisioned)
            [(with_probe ESP_FAIL env_no_server, Act_loop);
             (with_probe ESP_FAIL env_no_server, Act_loop)] with
  | Some (a', d') =>
      s_app_state a' = APP_STATE_AP_MODE /\
      nvs d' !! NVS_KEY_PROVISIONED = None /\
      s_provisioning_active d' = false /\ s_httpd d' = None
  | None => False
  end.
Proof. vm_compute. repeat split. Qed.

(** The retry counter never exceeds one between iterations. *)
Lemma app_state_machine_step_retries (e : env) (a a' : app_task) (d d' : device) :
  0 <= verification_retries a <= 1 ->
  app_state_machine_step e a d = Some (a', d') ->
  0 <= verification_retries a' <= 1.
Proof.
  intros Ha. unfold app_state_machine_step.
  destruct (s_app_state a); split_cases; intros [= <- <-]; simpl;
    unfold MAX_VERIFICATION_RETRIES in *; zbool; lia.
Qed.

(** ** The scan endpoint when a forced refresh fails *)

(** With a populated cache, a forced refresh whose scan fails is answered
    200 with the entries already cached, and with cached = false. *)
Lemma scan_handler_failed_refresh (e : env) (req : httpd_req_t) (d : device) :
  s_initial_scan_done d = true -> s_cache_mutex d = true ->
  req_query_refresh req = Some "true" ->
  e_scan_start e <> ESP_OK -> e_take_read e = true -> e_print_ok e = true ->
  scan_handler e req d =
    (ESP_OK,
     respond 200
       (cJSON_Object [("networks", cJSON_Array (map network_json (cached_entries d)));
                      ("count", cJSON_Number (s_cached_network_count d));
                      ("cached", cJSON_False)]),
     hal Wifi_scan_start d).
Proof.
  intros Hdone Hmutex Hquery Hscan Htake Hprint.
  unfold scan_handler, perform_wifi_scan_and_cache, cJSON_Print.
  rewrite Hquery, Hdone, Hmutex. simpl.
  replace (is_ok (e_scan_start e)) with false by (symmetry; now apply Z.eqb_neq).
  simpl. rewrite Hdone, Hmutex, Htake, Hprint. simpl.
  rewrite andb_false_r. reflexivity.
Qed.

(** C3, on the code.  The cache holds Home and Cafe; GET
    /local-wifi?refresh=true arrives and the scan fails.  The answer is 200
    with the two stale entries, and its cached member is false: the
    handler writes [!force_refresh] whether or not the refresh took place. *)
Theorem scan_handler_failed_refresh_says_uncached :
  scan_handler env_scan_fails (get_request (Some "true")) device_listening =
    (ESP_OK,
     respond 200
       (cJSON_Object
          [("networks",
            cJSON_Array [network_json (sample_ap "Home" (-40));
                         network_json (sample_ap "Cafe" (-70))]);
           ("count", cJSON_Number 2);
           ("cached", cJSON_False)]),
     hal Wifi_scan_start device_listening) /\
  fst (scan_handler env_ok (get_request None) device_listening) =
    (ESP_OK,
     respond 200
       (cJSON_Object
          [("networks",
            cJSON_Array [network_json (sample_ap "Home" (-40));
                         network_json (sample_ap "Cafe" (-70))]);
           ("count", cJSON_Number 2);
           ("cached", cJSON_True)])).
Proof. split; vm_compute; reflexivity. Qed.

(** ** Missing fields *)

(** X1. The request-tracing handler answers 400 with exactly the lacking
    fields, in the order of [required_fields], and leaves the device (the
    store included) as it was. *)
Lemma provision_handler_missing_fields (e : env) (req : httpd_req_t)
    (root : cJSON) (d : device) :
  0 < req_recv req -> req_json req = Some root ->
  List.filter (lacks root) required_fields <> [] ->
  e_print_ok e = true ->
  provision_handler e req d =
    (ESP_FAIL,
     respond 400 (missing_fields_json (List.filter (lacks root) required_fields)),
     d).
Proof.
  intros Hrecv Hjson Hmissing Hprint.
  unfold provision_handler, cJSON_Print. rewrite Hjson, Hprint.
  replace (req_recv req <=? 0) with false by (symmetry; apply Z.leb_gt; lia).
  revert Hmissing. unfold required_fields, check_required, lacks.
  cbn [List.filter fst snd].
  destruct (cJSON_IsString (cJSON_GetObjectItem root "ssid"));
    destruct (cJSON_IsString (cJSON_GetObjectItem root "password"));
    destruct (cJSON_IsString (cJSON_GetObjectItem root "device_id"));
    destruct (cJSON_IsString (cJSON_GetObjectItem root "provisioning_token"));
    cbn [negb List.app fst snd]; intros Hmissing;
    first [reflexivity | now destruct Hmissing].
Qed.

(** With or without a readable printer, a request that lacks a field
    writes nothing. *)
Lemma provision_handler_missing_persists_nothing (e : env) (req : httpd_req_t)
    (root : cJSON) (d : device) :
  req_json req = Some root ->
  List.filter (lacks root) required_fields <> [] ->
  snd (provision_handler e req d) = d.
Proof.
  intros Hjson Hmissing.
  unfold provision_handler, cJSON_Print. rewrite Hjson.
  destruct (req_recv req <=? 0); [reflexivity |].
  revert Hmissing. unfold required_fields, check_required, lacks.
  cbn [List.filter fst snd].
  destruct (cJSON_IsString (cJSON_GetObjectItem root "ssid"));
    destruct (cJSON_IsString (cJSON_GetObjectItem root "password"));
    destruct (cJSON_IsString (cJSON_GetObjectItem root "device_id"));
    destruct (cJSON_IsString (cJSON_GetObjectItem root "provisioning_token"));
    cbn [negb List.app fst snd]; intros Hmissing;
    first [now destruct (e_print_ok e) | now destruct Hmissing].
Qed.

Lemma provision_handler_missing_fields_witness :
  provision_handler env_ok (post_request None body_partial) device_listening =
    (ESP_FAIL, respond 400 (missing_fields_json ["ssid"; "device_id"]),
     device_listening).
Proof.
  apply (provision_handler_missing_fields env_ok (post_request None body_partial)
           body_partial device_listening);
    [reflexivity | reflexivity | discriminate | reflexivity].
Defined.

(** C1, on the code.  The older copy of the handler answers the same
    request 400 with the error code alone: its document has no
    missing_fields member, so the two lacking names are not enumerated.
    Nothing is written by either copy. *)
Theorem minimal_provision_handler_does_not_enumerate :
  Minimal.provision_handler env_ok (post_request None body_partial) device_listening =
    Some (ESP_FAIL, respond 400 (cJSON_Object [("error", cJSON_String "missing_fields")]),
          device_listening) /\
  cJSON_GetObjectItem (cJSON_Object [("error", cJSON_String "missing_fields")])
    "missing_fields" = None /\
  List.filter (lacks body_partial) required_fields = ["ssid"; "device_id"].
Proof. repeat split; vm_compute; reflexivity. Qed.

(** ** A full submit without an Authorization header *)







(** * Further properties of the code *)

(** ** Properties kept by every invocation *)

Lemma wifi_provisioning_stop_nvs (d : device) :
  nvs (snd (wifi_provisioning_stop d)) = nvs d.
Proof. unfold wifi_provisioning_stop. split_cases; reflexivity. Qed.

(** A property of the device that the five functions underneath the
    handlers keep, that does not depend on the link status, and that the
    loop's calls into the other modules keep, is kept by every invocation
    except where a station connection is asked for. *)
Section StepInvariant.

Variable P : device -> Prop.
Hypothesis P_scan : forall e d, P d -> P (snd (perform_wifi_scan_and_cache e d)).
Hypothesis P_stop : forall d, P d -> P (snd (wifi_provisioning_stop d)).
Hypothesis P_start : forall e d r d',
  P d -> wifi_provisioning_start e d = Some (r, d') -> P d'.
Hypothesis P_clear : forall e d r d',
  P d -> wifi_provisioning_clear_and_restart e d = Some (r, d') -> P d'.
Hypothesis P_save : forall e ssid password device_id prov_token bearer d,
  P d -> P (snd (save_wifi_credentials e ssid password device_id prov_token bearer d)).
Hypothesis P_link : forall c ip d, P d -> P (set_link c ip d).
Hypothesis P_hal : forall c d, loop_call c = true -> P d -> P (hal c d).

Lemma scan_handler_keeps (e : env) (req : httpd_req_t) (d : device) :
  P d -> P (snd (scan_handler e req d)).
Proof.
  intros Hd. destruct (scan_handler_device e req d) as [-> | ->]; auto.
Qed.

Lemma provision_handler_keeps (e : env) (req : httpd_req_t) (d : device) :
  P d -> P (snd (provision_handler e req d)).
Proof.
  intros Hd.
  destruct (provision_handler_device e req d)
    as [-> | (ssid & password & device_id & prov_token & bearer & [-> | ->])];
    auto.
Qed.

Lemma minimal_provision_handler_keeps (e : env) (req : httpd_req_t) (d : device) r :
  Minimal.provision_handler e req d = Some r -> P d -> P (snd r).
Proof.
  intros Hr Hd.
  destruct (minimal_provision_handler_device e req d r Hr)
    as [-> | (ssid & password & device_id & prov_token & bearer & ->)]; auto.
Qed.

Lemma wifi_event_handler_keeps (e : env) (ev : esp_event) (d d' : device) :
  wifi_event_handler e ev d = Some d' -> P d -> P d'.
Proof.
  unfold wifi_event_handler. intros Hw Hd. revert Hw.
  destruct ev as [[] reason | |]; try (intros [= <-]; assumption).
  destruct (is_auth_failure reason); [| intros [= <-]; auto].
  destruct (wifi_provisioning_clear_and_restart e _) as [[r d1] |] eqn:Hc;
    [| discriminate].
  intros [= <-]. eapply P_clear; [| exact Hc]. auto.
Qed.

Lemma app_state_machine_step_keeps (e : env) (a a' : app_task) (d d' : device) :
  app_state_machine_step e a d = Some (a', d') -> P d ->
  P d' \/
  exists ssid password,
    d' = hal (Wifi_connect_sta ssid password) d /\
    connection_attempted a = false /\ connection_attempted a' = true.
Proof.
  unfold app_state_machine_step. intros Hstep Hd. revert Hstep.
  destruct (s_app_state a).
  - intros [= <- <-]; now left.
  - destruct (wifi_provisioning_is_provisioned e d); intros [= <- <-]; now left.
  - destruct (negb _); [| intros [= <- <-]; now left].
    destruct (wifi_provisioning_start e d) as [[r d1] |] eqn:Hs; [| discriminate].
    intros [= <- <-]. left. eauto.
  - destruct (connection_attempted a) eqn:Hatt; simpl;
      [intros [= <- <-]; now left |].
    destruct (is_ok (e_nvs_open_ro e)); [| intros [= <- <-]; now left].
    destruct (nvs_get_str d _ 33) as [err ssid].
    destruct (is_ok err); [| intros [= <- <-]; now left].
    destruct (nvs_get_str d _ 65) as [err2 password]. intros [= <- <-].
    right. eauto.
  - destruct (negb (wifi_provisioning_is_provisioned e d));
      [intros [= <- <-]; now left |].
    destruct (negb (verification_done a)); [| intros [= <- <-]; now left].
    destruct (is_ok (e_probe e)); [intros [= <- <-]; left; now apply P_hal |].
    destruct (_ >=? _); [| intros [= <- <-]; left; now apply P_hal].
    destruct (wifi_provisioning_clear_and_restart e _) as [[r d1] |] eqn:Hc;
      [| discriminate].
    intros [= <- <-]. left. eapply P_clear; [| exact Hc]. now apply P_hal.
  - destruct (e_has_certificates e); intros [= <- <-]; now left.
  - destruct (get_provisioning_credentials e d) as [[ret ?] ?].
    destruct (negb (is_ok ret)); [intros [= <- <-]; now left |].
    destruct (is_ok (e_submit_csr e)); intros [= <- <-]; left; now apply P_hal.
  - split_cases; intros [= <- <-]; left; repeat apply P_hal; auto.
  - split_cases; intros [= <- <-]; left; repeat apply P_hal; auto.
  - intros [= <- <-]; now left.
Qed.

Lemma system_step_keeps (e : env) (act : action) (a a' : app_task) (d d' : device) :
  system_step e act (a, d) = Some (a', d') -> P d ->
  P d' \/
  exists ssid password d1,
    P d1 /\ d' = hal (Wifi_connect_sta ssid password) d1 /\
    (act = Act_loop /\ d1 = d /\
     connection_attempted a = false /\ connection_attempted a' = true \/
     exists req, act = Act_provision_minimal req).
Proof.
  simpl. intros Hstep Hd. revert Hstep. destruct act.
  - intros Hstep.
    destruct (app_state_machine_step_keeps _ _ _ _ _ Hstep Hd)
      as [H | (ssid & password & -> & Ha & Ha')]; [now left |].
    right. exists ssid, password, d. auto 10.
  - intros [= <- <-]; now left.
  - destruct (wifi_event_handler e ev d) as [d1 |] eqn:Hw; [| discriminate].
    intros [= <- <-]. left. eapply wifi_event_handler_keeps; eauto.
  - intros [= <- <-]. left. unfold ip_event_handler.
    destruct ev as [| [] ip |]; auto.
  - intros [= <- <-]. left. now apply scan_handler_keeps.
  - intros [= <- <-]. left. now apply provision_handler_keeps.
  - destruct (Minimal.provision_handler e req d) as [r |] eqn:Hr; [| discriminate].
    intros [= <- <-]. left. eapply minimal_provision_handler_keeps; eauto.
  - intros [= <- <-]. now left.
Qed.

Hypothesis P_connect : forall ssid password d,
  P d -> P (hal (Wifi_connect_sta ssid password) d).

Lemma run_keeps (l : list (env * action)) (s s' : app_task * device) :
  run s l = Some s' -> P (snd s) -> P (snd s').
Proof.
  revert s. induction l as [| [e act] l IH]; intros s; simpl.
  - intros [= <-]. auto.
  - destruct (system_step e act s) as [s1 |] eqn:Hstep; [| discriminate].
    intros Hrun Hs. apply (IH s1 Hrun).
    destruct s as [a d], s1 as [a1 d1].
    destruct (system_step_keeps _ _ _ _ _ _ Hstep Hs)
      as [H | (ssid & password & d2 & Hd2 & -> & _)]; [exact H |].
    simpl. now apply P_connect.
Qed.

End StepInvariant.

(** ** What [save_wifi_credentials] leaves in the store *)

Lemma write_strings_lookup (l : list (string * string)) (m : gmap string nvs_value)
    (key : string) :
  Forall (fun kv => fst kv ∈ string_keys) l ->
  (key ∉ string_keys -> write_strings l m !! key = m !! key) /\
  (is_str (m !! key) = true -> is_str (write_strings l m !! key) = true).
Proof.
  induction 1 as [| [k v] l Hk Hl [IH1 IH2]]; simpl; [auto |].
  split.
  - intros Hkey. rewrite lookup_insert_ne; [auto |].
    intros <-. now apply Hkey.
  - intros Hm. destruct (decide (k = key)) as [-> | Hne].
    + now rewrite lookup_insert_eq.
    + rewrite lookup_insert_ne; auto.
Qed.

(** The store after [save_wifi_credentials]: the whole record, or, when a
    step before the commit failed, the strings written until then. *)
Lemma save_wifi_credentials_store (e : env) ssid password device_id prov_token
    bearer (d : device) :
  let r := save_wifi_credentials e ssid password device_id prov_token bearer d in
  nvs (snd r) = stored_record ssid password device_id prov_token bearer (nvs d) \/
  (is_ok (fst r) = false /\
   exists l, Forall (fun kv => fst kv ∈ string_keys) l /\
             nvs (snd r) = write_strings l (nvs d)).
Proof.
  assert (Hin : forall k, In k string_keys -> k ∈ string_keys)
    by (intros k; apply list_elem_of_In).
  cbv zeta. unfold save_wifi_credentials, nvs_set, nvs_commit, stored_record.
  destruct (is_ok (e_nvs_open_rw e)) eqn:H0; cbn [negb fst snd]; rewrite ?H0; cbn [negb fst snd];
    [| right; split; [first [reflexivity | assumption] | exists []; split; [constructor | reflexivity]]].
  destruct (is_ok (e_nvs_set e NVS_KEY_WIFI_SSID)) eqn:H1; cbn [negb fst snd]; rewrite ?H1; cbn [negb fst snd];
    [| right; split; [first [reflexivity | assumption] | exists []; split; [constructor | reflexivity]]].
  destruct (is_ok (e_nvs_set e NVS_KEY_WIFI_PASS)) eqn:H2; cbn [negb fst snd]; rewrite ?H2; cbn [negb fst snd];
    [| right; split; [first [reflexivity | assumption] |
       exists [(NVS_KEY_WIFI_SSID, ssid)]; split;
       [repeat constructor; apply Hin; simpl; tauto | reflexivity]]].
  destruct (is_ok (e_nvs_set e NVS_KEY_DEVICE_ID)) eqn:H3; cbn [negb fst snd]; rewrite ?H3; cbn [negb fst snd];
    [| right; split; [first [reflexivity | assumption] |
       exists [(NVS_KEY_WIFI_PASS, password); (NVS_KEY_WIFI_SSID, ssid)]; split;
       [repeat constructor; apply Hin; simpl; tauto | reflexivity]]].
  destruct (is_ok (e_nvs_set e NVS_KEY_PROV_TOKEN)) eqn:H4; cbn [negb fst snd]; rewrite ?H4; cbn [negb fst snd];
    [| right; split; [first [reflexivity | assumption] |
       exists [(NVS_KEY_DEVICE_ID, device_id); (NVS_KEY_WIFI_PASS, password);
               (NVS_KEY_WIFI_SSID, ssid)]; split;
       [repeat constructor; apply Hin; simpl; tauto | reflexivity]]].
  assert (Hfour : Forall (fun kv : string * string => fst kv ∈ string_keys)
            [(NVS_KEY_PROV_TOKEN, prov_token); (NVS_KEY_DEVICE_ID, device_id);
             (NVS_KEY_WIFI_PASS, password); (NVS_KEY_WIFI_SSID, ssid)])
    by (repeat constructor; apply Hin; simpl; tauto).
  destruct bearer as [b |]; [destruct (0 <? String.length b)%nat |].
  - destruct (is_ok (e_nvs_set e NVS_KEY_BEARER_TOKEN)) eqn:H5; cbn [negb fst snd]; rewrite ?H5; cbn [negb fst snd];
      [| right; split; [first [reflexivity | assumption] |
         eexists; split; [exact Hfour | reflexivity]]].
    destruct (is_ok (e_nvs_set e NVS_KEY_PROVISIONED)) eqn:H6; cbn [negb fst snd]; rewrite ?H6; cbn [negb fst snd];
      [left; reflexivity |].
    right; split; [first [reflexivity | assumption] |].
    exists ((NVS_KEY_BEARER_TOKEN, b) ::
            [(NVS_KEY_PROV_TOKEN, prov_token); (NVS_KEY_DEVICE_ID, device_id);
             (NVS_KEY_WIFI_PASS, password); (NVS_KEY_WIFI_SSID, ssid)]).
    split; [constructor; [apply Hin; simpl; tauto | exact Hfour] | reflexivity].
  - rewrite H4. cbn [negb fst snd].
    destruct (is_ok (e_nvs_set e NVS_KEY_PROVISIONED)) eqn:H6; cbn [negb fst snd]; rewrite ?H6; cbn [negb fst snd];
      [left; reflexivity |].
    right; split; [first [reflexivity | assumption] | eexists; split; [exact Hfour | reflexivity]].
  - rewrite H4. cbn [negb fst snd].
    destruct (is_ok (e_nvs_set e NVS_KEY_PROVISIONED)) eqn:H6; cbn [negb fst snd]; rewrite ?H6; cbn [negb fst snd];
      [left; reflexivity |].
    right; split; [first [reflexivity | assumption] | eexists; split; [exact Hfour | reflexivity]].
Qed.

Lemma stored_record_lookup ssid password device_id prov_token bearer
    (m : gmap string nvs_value) :
  let m' := stored_record ssid password device_id prov_token bearer m in
  m' !! NVS_KEY_WIFI_SSID = Some (NvsStr ssid) /\
  m' !! NVS_KEY_WIFI_PASS = Some (NvsStr password) /\
  m' !! NVS_KEY_DEVICE_ID = Some (NvsStr device_id) /\
  m' !! NVS_KEY_PROV_TOKEN = Some (NvsStr prov_token) /\
  m' !! NVS_KEY_PROVISIONED = Some (NvsU8 1) /\
  m' !! NVS_KEY_BEARER_TOKEN =
    match bearer with
    | Some b => if (0 <? String.length b)%nat then Some (NvsStr b)
                else m !! NVS_KEY_BEARER_TOKEN
    | None => m !! NVS_KEY_BEARER_TOKEN
    end /\
  (forall key, key ∉ credential_keys -> m' !! key = m !! key).
Proof.
  cbv zeta. unfold stored_record, credential_keys,
    NVS_KEY_WIFI_SSID, NVS_KEY_WIFI_PASS, NVS_KEY_DEVICE_ID,
    NVS_KEY_PROV_TOKEN, NVS_KEY_PROVISIONED, NVS_KEY_BEARER_TOKEN.
  destruct bearer as [b |]; [destruct (0 <? String.length b)%nat |];
    (repeat split; [now simplify_map_eq .. |]);
    intros key; rewrite !not_elem_of_cons; intros Hkey;
    decompose [and] Hkey; now simplify_map_eq.
Qed.

Lemma save_wifi_credentials_ok (e : env) ssid password device_id prov_token
    bearer (d : device) :
  let r := save_wifi_credentials e ssid password device_id prov_token bearer d in
  is_ok (fst r) = true ->
  nvs (snd r) = stored_record ssid password device_id prov_token bearer (nvs d).
Proof.
  cbv zeta. intros Hok.
  destruct (save_wifi_credentials_store e ssid password device_id prov_token bearer d)
    as [H | [H _]]; [exact H | congruence].
Qed.

Lemma string_keys_credential (key : string) :
  key ∈ string_keys -> key ∈ credential_keys.
Proof.
  unfold string_keys, credential_keys. rewrite !elem_of_cons. tauto.
Qed.

(** [save_wifi_credentials] writes to the six keys of the record only. *)
Lemma save_wifi_credentials_frame (e : env) ssid password device_id prov_token
    bearer (d : device) (key : string) :
  key ∉ credential_keys ->
  nvs (snd (save_wifi_credentials e ssid password device_id prov_token bearer d))
    !! key = nvs d !! key.
Proof.
  intros Hkey.
  destruct (save_wifi_credentials_store e ssid password device_id prov_token bearer d)
    as [-> | (_ & l & Hl & ->)].
  - now apply stored_record_lookup.
  - apply write_strings_lookup; [exact Hl |].
    intros Hin. now apply Hkey, string_keys_credential.
Qed.

Lemma save_wifi_credentials_record_complete (e : env) ssid password device_id
    prov_token bearer (d : device) :
  record_complete d = true ->
  record_complete
    (snd (save_wifi_credentials e ssid password device_id prov_token bearer d)) = true.
Proof.
  intros Hd. unfold record_complete, holds_string, stored_flag in *.
  destruct (save_wifi_credentials_store e ssid password device_id prov_token bearer d)
    as [-> | (_ & l & Hl & ->)].
  - destruct (stored_record_lookup ssid password device_id prov_token bearer (nvs d))
      as (-> & -> & -> & -> & _).
    apply orb_true_r.
  - assert (Hflag : write_strings l (nvs d) !! NVS_KEY_PROVISIONED
                    = nvs d !! NVS_KEY_PROVISIONED).
    { apply write_strings_lookup; [exact Hl |].
      unfold string_keys. rewrite !not_elem_of_cons.
      repeat split; try discriminate. apply not_elem_of_nil. }
    rewrite Hflag.
    destruct (negb _); [reflexivity |]. simpl in *.
    apply andb_prop in Hd as [Hd H4]. apply andb_prop in Hd as [Hd H3].
    apply andb_prop in Hd as [H1 H2].
    rewrite !(proj2 (write_strings_lookup l (nvs d) _ Hl)); auto.
Qed.

(** ** Properties of the store kept by every invocation *)

Section StoreInvariant.

Variable Q : gmap string nvs_value -> Prop.
Hypothesis Q_save : forall e ssid password device_id prov_token bearer d,
  Q (nvs d) ->
  Q (nvs (snd (save_wifi_credentials e ssid password device_id prov_token bearer d))).
Hypothesis Q_erase : forall m, Q m -> Q (erase_credentials m).

Lemma run_keeps_store (l : list (env * action)) (s s' : app_task * device) :
  run s l = Some s' -> Q (nvs (snd s)) -> Q (nvs (snd s')).
Proof.
  apply (run_keeps (fun d => Q (nvs d))).
  - intros e d. now rewrite perform_wifi_scan_and_cache_nvs.
  - intros d. now rewrite wifi_provisioning_stop_nvs.
  - intros e d r d' Hd Hs. now rewrite (wifi_provisioning_start_nvs _ _ _ _ Hs).
  - intros e d r d' Hd Hc.
    rewrite (wifi_provisioning_clear_and_restart_nvs _ _ _ _ Hc).
    destruct (is_ok _); auto.
  - exact Q_save.
  - auto.
  - auto.
  - auto.
Qed.

End StoreInvariant.

(** ** The platform calls each function records *)

Lemma extends_trans (Q : hal_call -> bool) (t1 t2 t3 : list hal_call) :
  extends Q t1 t2 -> extends Q t2 t3 -> extends Q t1 t3.
Proof. intros H12 H23. induction H23; [assumption | now constructor]. Qed.

Lemma extends_weaken (Q Q' : hal_call -> bool) (t t' : list hal_call) :
  (forall c, Q c = true -> Q' c = true) -> extends Q t t' -> extends Q' t t'.
Proof. intros HQ H. induction H; constructor; auto. Qed.

Lemma extends_server_state (Q : hal_call -> bool) (t t' : list hal_call) :
  (forall c, Q c = true -> c <> Httpd_start /\ c <> Httpd_stop) ->
  extends Q t t' -> server_state t' = server_state t.
Proof.
  intros HQ. induction 1 as [| c t' Hc H IH]; [reflexivity |].
  simpl. rewrite IH. destruct (HQ c Hc) as [H1 H2].
  destruct c; try congruence; now destruct (server_state t).
Qed.

Lemma extends_connect_calls (t t' : list hal_call) :
  extends module_call t t' -> connect_calls t' = connect_calls t.
Proof.
  induction 1 as [| c t' Hc H IH]; [reflexivity |].
  simpl. rewrite IH. now destruct c.
Qed.

Lemma perform_wifi_scan_and_cache_trace (Q : hal_call -> bool) (e : env)
    (d : device) :
  Q Wifi_scan_start = true ->
  extends Q (hal_trace d) (hal_trace (snd (perform_wifi_scan_and_cache e d))).
Proof.
  intros HQ. unfold perform_wifi_scan_and_cache, esp_wifi_scan_get_ap_records.
  split_cases; simpl; repeat (constructor; try assumption).
Qed.

Lemma wifi_provisioning_stop_trace (d : device) :
  extends module_call (hal_trace d) (hal_trace (snd (wifi_provisioning_stop d))).
Proof. unfold wifi_provisioning_stop. split_cases; simpl; repeat constructor. Qed.

Lemma wifi_provisioning_start_trace (e : env) (d : device) r d' :
  wifi_provisioning_start e d = Some (r, d') ->
  extends module_call (hal_trace d) (hal_trace d').
Proof.
  unfold wifi_provisioning_start, wifi_init_ap, start_http_server.
  destruct (s_provisioning_active d); [intros [= <- <-]; constructor |].
  destruct (_ && _); [intros [= <- <-]; constructor |].
  destruct (_ && _); [intros [= <- <-]; constructor |].
  destruct (e_wifi_init_ok e); [| discriminate]. simpl.
  pose proof (perform_wifi_scan_and_cache_trace module_call e (hal Wifi_init_ap d)
                eq_refl) as Hp.
  destruct (perform_wifi_scan_and_cache e (hal Wifi_init_ap d)) as [ret d1].
  simpl in Hp.
  assert (Hd1 : extends module_call (hal_trace d) (hal_trace d1)).
  { eapply extends_trans; [| exact Hp]. now repeat constructor. }
  destruct (e_httpd_start e); intros [= <- <-]; simpl; now constructor.
Qed.

Lemma wifi_provisioning_clear_and_restart_trace (e : env) (d : device) r d' :
  wifi_provisioning_clear_and_restart e d = Some (r, d') ->
  extends module_call (hal_trace d) (hal_trace d').
Proof.
  unfold wifi_provisioning_clear_and_restart.
  match goal with
  | |- context [wifi_provisioning_start e ?x] =>
      pose proof (wifi_provisioning_start_trace e x) as Hs;
      destruct (wifi_provisioning_start e x) as [[r1 d1] |]; [| discriminate]
  end.
  specialize (Hs r1 d1 eq_refl).
  assert (Hd1 : extends module_call (hal_trace d) (hal_trace d1)).
  { eapply extends_trans; [| exact Hs].
    destruct (is_ok (e_nvs_open_rw e)), (s_httpd d); simpl; now repeat constructor. }
  destruct (negb (is_ok r1)); intros [= <- <-]; exact Hd1.
Qed.

Lemma save_wifi_credentials_trace (e : env) ssid password device_id prov_token
    bearer (d : device) :
  extends store_call (hal_trace d)
    (hal_trace (snd (save_wifi_credentials e ssid password device_id prov_token
                       bearer d))).
Proof.
  unfold save_wifi_credentials, nvs_set, nvs_commit.
  destruct (is_ok (e_nvs_open_rw e)) eqn:H0; cbn [negb fst snd];
    [| constructor].
  destruct (is_ok (e_nvs_set e NVS_KEY_WIFI_SSID)) eqn:H1; cbn [negb fst snd];
    rewrite ?H1; cbn [negb fst snd]; [| constructor].
  destruct (is_ok (e_nvs_set e NVS_KEY_WIFI_PASS)) eqn:H2; cbn [negb fst snd];
    rewrite ?H2; cbn [negb fst snd]; [| simpl; now repeat constructor].
  destruct (is_ok (e_nvs_set e NVS_KEY_DEVICE_ID)) eqn:H3; cbn [negb fst snd];
    rewrite ?H3; cbn [negb fst snd]; [| simpl; now repeat constructor].
  destruct (is_ok (e_nvs_set e NVS_KEY_PROV_TOKEN)) eqn:H4; cbn [negb fst snd];
    rewrite ?H4; cbn [negb fst snd]; [| simpl; now repeat constructor].
  destruct bearer as [b |]; [destruct (0 <? String.length b)%nat |];
    [destruct (is_ok (e_nvs_set e NVS_KEY_BEARER_TOKEN)) eqn:H5 | |];
    cbn [negb fst snd]; rewrite ?H4, ?H5; cbn [negb fst snd];
    try (simpl; now repeat constructor);
    destruct (is_ok (e_nvs_set e NVS_KEY_PROVISIONED)) eqn:H6;
    cbn [negb fst snd]; rewrite ?H6; cbn [negb fst snd];
    simpl; now repeat constructor.
Qed.

Lemma store_call_module_call (c : hal_call) :
  store_call c = true -> module_call c = true.
Proof. now destruct c. Qed.

(** ** The HTTP server is started and stopped in turn *)

Lemma server_ok_hal (c : hal_call) (d : device) :
  c <> Httpd_start -> c <> Httpd_stop -> server_ok d -> server_ok (hal c d).
Proof.
  unfold server_ok, listening. simpl. intros H1 H2 [Hs Ha]. rewrite Hs.
  split; [| exact Ha]. now destruct c.
Qed.

Lemma perform_wifi_scan_and_cache_listener (e : env) (d : device) :
  s_httpd (snd (perform_wifi_scan_and_cache e d)) = s_httpd d /\
  s_provisioning_active (snd (perform_wifi_scan_and_cache e d))
    = s_provisioning_active d.
Proof.
  unfold perform_wifi_scan_and_cache, esp_wifi_scan_get_ap_records.
  split_cases; auto.
Qed.

Lemma perform_wifi_scan_and_cache_server (e : env) (d : device) :
  server_ok d -> server_ok (snd (perform_wifi_scan_and_cache e d)).
Proof.
  destruct (perform_wifi_scan_and_cache_listener e d) as [Hh Ha].
  pose proof (perform_wifi_scan_and_cache_trace
                (fun c => match c with Wifi_scan_start => true | _ => false end)
                e d eq_refl) as Ht.
  apply extends_server_state in Ht; [| intros []; now try discriminate].
  unfold server_ok, listening. rewrite Ht, Hh, Ha. auto.
Qed.

Lemma wifi_provisioning_stop_server (d : device) :
  server_ok d -> server_ok (snd (wifi_provisioning_stop d)).
Proof.
  unfold wifi_provisioning_stop, server_ok, listening. intros [Hs Ha].
  destruct (s_provisioning_active d) eqn:Hact, (s_httpd d) eqn:Hh; simpl;
    rewrite ?Hs, ?Hact, ?Hh; auto; discriminate Ha.
Qed.

Lemma wifi_provisioning_start_server (e : env) (d : device) r d' :
  server_ok d -> wifi_provisioning_start e d = Some (r, d') -> server_ok d'.
Proof.
  intros Hd. unfold wifi_provisioning_start, wifi_init_ap, start_http_server.
  destruct (s_provisioning_active d) eqn:Hactive; [intros [= <- <-]; assumption |].
  destruct (_ && _); [intros [= <- <-]; assumption |].
  destruct (_ && _); [intros [= <- <-]; assumption |].
  destruct (e_wifi_init_ok e); [| discriminate]. simpl.
  assert (H0 : server_ok (hal Wifi_init_ap d))
    by (apply server_ok_hal; [discriminate | discriminate | exact Hd]).
  pose proof (perform_wifi_scan_and_cache_server e _ H0) as Hp.
  assert (Hl : listening (snd (perform_wifi_scan_and_cache e (hal Wifi_init_ap d)))
               = false).
  { destruct Hd as [_ Ha]. rewrite Hactive in Ha. unfold listening in *.
    now rewrite (proj1 (perform_wifi_scan_and_cache_listener e _)). }
  destruct (perform_wifi_scan_and_cache e (hal Wifi_init_ap d)) as [ret d1].
  simpl in Hp, Hl. destruct Hp as [Hs Ha]. rewrite Hl in Hs, Ha.
  unfold server_ok, listening.
  destruct (e_httpd_start e); intros [= <- <-]; simpl; rewrite Hs; auto.
Qed.

Lemma wifi_provisioning_clear_and_restart_server (e : env) (d : device) r d' :
  server_ok d -> wifi_provisioning_clear_and_restart e d = Some (r, d') ->
  server_ok d'.
Proof.
  intros Hd. unfold wifi_provisioning_clear_and_restart.
  match goal with
  | |- context [wifi_provisioning_start e ?x] =>
      pose proof (wifi_provisioning_start_server e x) as Hs;
      destruct (wifi_provisioning_start e x) as [[r1 d1] |]; [| discriminate]
  end.
  assert (Hd1 : server_ok d1).
  { apply (Hs r1 d1); [| reflexivity].
    destruct Hd as [Ht Ha]. unfold server_ok, listening in *.
    destruct (is_ok (e_nvs_open_rw e)), (s_httpd d) eqn:Hh; simpl;
      rewrite ?Ht, ?Hh; auto. }
  destruct (negb (is_ok r1)); intros [= <- <-]; exact Hd1.
Qed.

Lemma save_wifi_credentials_server (e : env) ssid password device_id prov_token
    bearer (d : device) :
  server_ok d ->
  server_ok (snd (save_wifi_credentials e ssid password device_id prov_token
                    bearer d)).
Proof.
  pose proof (save_wifi_credentials_statics e ssid password device_id prov_token
                bearer d) as Hs.
  pose proof (save_wifi_credentials_trace e ssid password device_id prov_token
                bearer d) as Ht.
  apply extends_server_state in Ht; [| intros []; now try discriminate].
  destruct Hs as (Hh & Ha & _).
  unfold server_ok, listening. rewrite Ht, Hh, Ha. auto.
Qed.

Lemma run_server_ok (l : list (env * action)) (s s' : app_task * device) :
  run s l = Some s' -> server_ok (snd s) -> server_ok (snd s').
Proof.
  apply (run_keeps server_ok).
  - exact perform_wifi_scan_and_cache_server.
  - exact wifi_provisioning_stop_server.
  - exact wifi_provisioning_start_server.
  - exact wifi_provisioning_clear_and_restart_server.
  - exact save_wifi_credentials_server.
  - auto.
  - intros c d Hc. apply server_ok_hal; intros ->; discriminate.
  - intros ssid password d. apply server_ok_hal; discriminate.
Qed.

(** ** Station connections asked for *)

Lemma system_step_connect_calls (e : env) (act : action) (a a' : app_task)
    (d d' : device) :
  system_step e act (a, d) = Some (a', d') ->
  connect_calls (hal_trace d') = connect_calls (hal_trace d) \/
  connect_calls (hal_trace d') = S (connect_calls (hal_trace d)) /\
  (act = Act_loop /\
   connection_attempted a = false /\ connection_attempted a' = true \/
   exists req, act = Act_provision_minimal req).
Proof.
  intros Hstep.
  assert (K : connect_calls (hal_trace d') = connect_calls (hal_trace d) \/
              exists ssid password d1,
                connect_calls (hal_trace d1) = connect_calls (hal_trace d) /\
                d' = hal (Wifi_connect_sta ssid password) d1 /\
                (act = Act_loop /\ d1 = d /\
                 connection_attempted a = false /\ connection_attempted a' = true \/
                 exists req, act = Act_provision_minimal req)).
  { apply (system_step_keeps
             (fun x => connect_calls (hal_trace x) = connect_calls (hal_trace d)))
      with (e := e) (a := a); [| | | | | | | exact Hstep | reflexivity].
    - intros e0 d0 <-. apply extends_connect_calls.
      now apply perform_wifi_scan_and_cache_trace.
    - intros d0 <-. apply extends_connect_calls, wifi_provisioning_stop_trace.
    - intros e0 d0 r d1 <- Hs. apply extends_connect_calls.
      eapply wifi_provisioning_start_trace; eauto.
    - intros e0 d0 r d1 <- Hc. apply extends_connect_calls.
      eapply wifi_provisioning_clear_and_restart_trace; eauto.
    - intros e0 ssid password device_id prov_token bearer d0 <-.
      apply extends_connect_calls.
      eapply extends_weaken; [exact store_call_module_call |].
      apply save_wifi_credentials_trace.
    - auto.
    - intros c d0 Hc <-. simpl. now destruct c. }
  destruct K as [H | (ssid & password & d1 & Hd1 & -> & Hact)]; [now left |].
  right. simpl. rewrite Hd1. split; [reflexivity |].
  destruct Hact as [(-> & _ & Ha & Ha') | [req ->]]; eauto.
Qed.

Lemma app_state_machine_step_attempted (e : env) (a a' : app_task) (d d' : device) :
  app_state_machine_step e a d = Some (a', d') ->
  connection_attempted a = true -> connection_attempted a' = true.
Proof.
  unfold app_state_machine_step.
  destruct (s_app_state a); split_cases; intros [= <- <-]; simpl; auto.
Qed.

(** ** The scan cache keeps its shape *)

Lemma perform_wifi_scan_and_cache_length (e : env) (d : device) :
  length (s_cached_networks d) = 20%nat ->
  length (s_cached_networks (snd (perform_wifi_scan_and_cache e d))) = 20%nat.
Proof.
  intros Hlen.
  unfold perform_wifi_scan_and_cache, esp_wifi_scan_get_ap_records,
    WIFI_SCAN_MAX_APS, uint16.
  split_cases; simpl; try assumption;
    rewrite length_app, length_drop, length_take, Hlen; zbool; lia.
Qed.

Lemma wifi_provisioning_stop_networks (d : device) :
  s_cached_networks (snd (wifi_provisioning_stop d)) = s_cached_networks d.
Proof. unfold wifi_provisioning_stop. split_cases; reflexivity. Qed.

Lemma wifi_provisioning_start_length (e : env) (d : device) r d' :
  length (s_cached_networks d) = 20%nat ->
  wifi_provisioning_start e d = Some (r, d') ->
  length (s_cached_networks d') = 20%nat.
Proof.
  intros Hd. unfold wifi_provisioning_start, wifi_init_ap, start_http_server.
  destruct (s_provisioning_active d); [intros [= <- <-]; assumption |].
  destruct (_ && _); [intros [= <- <-]; assumption |].
  destruct (_ && _); [intros [= <- <-]; assumption |].
  destruct (e_wifi_init_ok e); [| discriminate]. simpl.
  pose proof (perform_wifi_scan_and_cache_length e (hal Wifi_init_ap d) Hd) as Hp.
  destruct (perform_wifi_scan_and_cache e (hal Wifi_init_ap d)) as [ret d1].
  simpl in Hp.
  destruct (e_httpd_start e); intros [= <- <-]; exact Hp.
Qed.

Lemma wifi_provisioning_clear_and_restart_length (e : env) (d : device) r d' :
  length (s_cached_networks d) = 20%nat ->
  wifi_provisioning_clear_and_restart e d = Some (r, d') ->
  length (s_cached_networks d') = 20%nat.
Proof.
  intros Hd. unfold wifi_provisioning_clear_and_restart.
  match goal with
  | |- context [wifi_provisioning_start e ?x] =>
      pose proof (wifi_provisioning_start_length e x) as Hs;
      destruct (wifi_provisioning_start e x) as [[r1 d1] |]; [| discriminate]
  end.
  assert (Hd1 : length (s_cached_networks d1) = 20%nat).
  { apply (Hs r1 d1); [| reflexivity].
    destruct (is_ok (e_nvs_open_rw e)), (s_httpd d); exact Hd. }
  destruct (negb (is_ok r1)); intros [= <- <-]; exact Hd1.
Qed.

Lemma run_cache_wf (l : list (env * action)) (s s' : app_task * device) :
  run s l = Some s' -> cache_wf (snd s) -> cache_wf (snd s').
Proof.
  apply (run_keeps cache_wf); unfold cache_wf.
  - intros e d [Hl Hb]. split;
      [now apply perform_wifi_scan_and_cache_length
      | now apply perform_wifi_scan_and_cache_bounded].
  - intros d [Hl Hb]. split;
      [now rewrite wifi_provisioning_stop_networks
      | now apply wifi_provisioning_stop_bounded].
  - intros e d r d' [Hl Hb] Hs. split;
      [eapply wifi_provisioning_start_length | eapply wifi_provisioning_start_bounded];
      eauto.
  - intros e d r d' [Hl Hb] Hc. split;
      [eapply wifi_provisioning_clear_and_restart_length
      | eapply wifi_provisioning_clear_and_restart_bounded]; eauto.
  - intros e ssid password device_id prov_token bearer d [Hl Hb].
    pose proof (save_wifi_credentials_statics e ssid password device_id prov_token
                  bearer d) as Hs.
    split; [| eapply statics_eq_bounded; eauto].
    destruct Hs as (_ & _ & _ & _ & -> & _). exact Hl.
  - auto.
  - auto.
  - auto.
Qed.

(** ** The state [app_main] hands to the loop *)

Lemma app_main_start (b : boot_env) (flash : gmap string nvs_value)
    (a : app_task) (d : device) :
  app_main b flash = Some (a, d) ->
  a = app_boot /\ server_ok d /\ cache_wf d /\
  connect_calls (hal_trace d) = O /\
  s_provisioning_active d = false /\ s_wifi_connected d = false /\
  (forall key, nvs d !! key = None \/ nvs d !! key = flash !! key) /\
  ((is_ok (b_nvs_open b) = true /\
    forall key, key ∈ boot_erased_keys -> nvs d !! key = None) \/
   (is_ok (b_nvs_open b) = false /\ (nvs d = flash \/ nvs d = ∅))).
Proof.
  unfold app_main.
  set (init := if (_ || _) then _ else _).
  assert (Hinit : init = None \/
                  exists ret flash0, init = Some (ret, flash0) /\
                                     (flash0 = flash \/ flash0 = ∅)).
  { subst init. destruct (_ || _); [destruct (is_ok _) |]; eauto 6. }
  destruct Hinit as [-> | (ret & flash0 & -> & Hflash0)]; [discriminate |].
  destruct (negb (is_ok ret)); [discriminate |].
  destruct (negb (is_ok (b_netif_init b))); [discriminate |].
  destruct (negb (is_ok (b_event_loop b))); [discriminate |].
  destruct (negb (is_ok (b_register_wifi b))); [discriminate |].
  destruct (negb (is_ok (b_register_ip b))); [discriminate |].
  assert (Hkeep : forall key, flash0 !! key = None \/ flash0 !! key = flash !! key).
  { intros key. destruct Hflash0 as [-> | ->]; [now right | now left]. }
  intros [= <- <-].
  split; [reflexivity |].
  assert (Hshape : forall P Q : Prop, forall d0 : device,
            server_state (hal_trace d0) = Some false -> s_httpd d0 = None ->
            s_provisioning_active d0 = false ->
            s_cached_networks d0 = replicate 20 ap_record_zero ->
            s_cached_network_count d0 = 0 -> connect_calls (hal_trace d0) = O ->
            s_wifi_connected d0 = false -> P -> Q ->
            server_ok d0 /\ cache_wf d0 /\ connect_calls (hal_trace d0) = O /\
            s_provisioning_active d0 = false /\ s_wifi_connected d0 = false /\
            P /\ Q).
  { intros P Q d0 Hs Hh Ha Hn Hc Hcc Hw HP HQ.
    unfold server_ok, listening, cache_wf, cache_bounded, WIFI_SCAN_MAX_APS.
    rewrite Hs, Hh, Ha, Hn, Hc. repeat split; try assumption; try reflexivity; lia. }
  destruct (is_ok (b_nvs_open b)); apply Hshape; try reflexivity.
  - intros key. simpl. unfold NVS_KEY_DEVICE_ID, NVS_KEY_PROV_TOKEN.
    repeat (rewrite lookup_delete; case_decide; [now left |]). apply Hkeep.
  - left. split; [reflexivity |].
    intros key. unfold boot_erased_keys, NVS_KEY_DEVICE_ID, NVS_KEY_PROV_TOKEN.
    rewrite !elem_of_cons, elem_of_nil. simpl.
    intros Hkey. repeat (rewrite lookup_delete; case_decide; [reflexivity |]).
    exfalso. intuition congruence.
  - apply Hkeep.
  - right. split; [reflexivity |]. simpl. tauto.
Qed.

(** ** Saving and reading back *)

Lemma save_then_get_provisioning_credentials (e e' : env)
    (ssid password device_id prov_token : string) (bearer : option string)
    (d : device) :
  let r := save_wifi_credentials e ssid password device_id prov_token bearer d in
  is_ok (fst r) = true -> is_ok (e_nvs_open_ro e') = true ->
  get_provisioning_credentials e' (snd r) =
    if (String.length device_id + 1 <=? 64)%nat then
      if (String.length prov_token + 1 <=? 256)%nat
      then (ESP_OK, device_id, prov_token)
      else (ESP_ERR_NVS_INVALID_LENGTH, device_id, EmptyString)
    else (ESP_ERR_NVS_INVALID_LENGTH, EmptyString, EmptyString).
Proof.
  cbv zeta. intros Hok Hopen.
  pose proof (save_wifi_credentials_ok e ssid password device_id prov_token bearer d
                Hok) as Hnvs.
  destruct (stored_record_lookup ssid password device_id prov_token bearer (nvs d))
    as (_ & _ & Hid & Htok & _).
  unfold get_provisioning_credentials, nvs_get_str.
  rewrite Hopen, Hnvs, Hid, Htok. cbn [negb].
  destruct (String.length device_id + 1 <=? 64)%nat; [| reflexivity].
  destruct (String.length prov_token + 1 <=? 256)%nat; reflexivity.
Qed.

(** X2. What [save_wifi_credentials] stored with result ESP_OK is read back
    by the loop's readers: [wifi_provisioning_is_provisioned] answers true,
    and [get_provisioning_credentials] returns the device id and the token
    as they were saved, unless the device id does not fit its 64-byte buffer
    or the token its 256-byte buffer, in which case it fails with
    ESP_ERR_NVS_INVALID_LENGTH. *)
Theorem save_wifi_credentials_read_back (e e' : env)
    (ssid password device_id prov_token : string) (bearer : option string)
    (d : device) :
  let r := save_wifi_credentials e ssid password device_id prov_token bearer d in
  is_ok (fst r) = true -> is_ok (e_nvs_open_ro e') = true ->
  wifi_provisioning_is_provisioned e' (snd r) = true /\
  get_provisioning_credentials e' (snd r) =
    if (String.length device_id + 1 <=? 64)%nat then
      if (String.length prov_token + 1 <=? 256)%nat
      then (ESP_OK, device_id, prov_token)
      else (ESP_ERR_NVS_INVALID_LENGTH, device_id, EmptyString)
    else (ESP_ERR_NVS_INVALID_LENGTH, EmptyString, EmptyString).
Proof.
  cbv zeta. intros Hok Hopen.
  split; [| now apply save_then_get_provisioning_credentials].
  pose proof (save_wifi_credentials_ok e ssid password device_id prov_token bearer d
                Hok) as Hnvs.
  destruct (stored_record_lookup ssid password device_id prov_token bearer (nvs d))
    as (_ & _ & _ & _ & Hflag & _).
  unfold wifi_provisioning_is_provisioned.
  now rewrite Hopen, Hnvs, Hflag.
Qed.

Lemma save_wifi_credentials_read_back_witness :
  wifi_provisioning_is_provisioned env_ok
    (snd (save_wifi_credentials env_ok "Net" "pw123456" "dev1" "tok1" None
            device_boot)) = true /\
  get_provisioning_credentials env_ok
    (snd (save_wifi_credentials env_ok "Net" "pw123456" "dev1" "tok1" None
            device_boot)) = (ESP_OK, "dev1", "tok1").
Proof.
  apply (save_wifi_credentials_read_back env_ok env_ok "Net" "pw123456" "dev1"
           "tok1" None device_boot); reflexivity.
Defined.

(** ** A device that says it is provisioned holds the record *)

Lemma record_complete_erase (d : device) (m : gmap string nvs_value) :
  nvs d = erase_credentials m -> record_complete d = true.
Proof.
  intros Hd. unfold record_complete, stored_flag. rewrite Hd.
  rewrite erase_credentials_lookup. reflexivity.
Qed.

(** X3. From a state whose store holds the four strings whenever its
    provisioned flag is 1, every run of the system keeps it so: in each
    state reached, if [wifi_provisioning_is_provisioned] answers true, then
    the ssid, the password, the device id and the provisioning token are
    stored as strings. *)
Theorem provisioned_holds_record (l : list (env * action)) (s s' : app_task * device)
    (e : env) :
  record_complete (snd s) = true -> run s l = Some s' ->
  wifi_provisioning_is_provisioned e (snd s') = true ->
  holds_string (snd s') NVS_KEY_WIFI_SSID = true /\
  holds_string (snd s') NVS_KEY_WIFI_PASS = true /\
  holds_string (snd s') NVS_KEY_DEVICE_ID = true /\
  holds_string (snd s') NVS_KEY_PROV_TOKEN = true.
Proof.
  intros Hs Hrun Hprov.
  assert (Hnvs : forall d1 d2, nvs d1 = nvs d2 ->
                               record_complete d1 = record_complete d2).
  { intros d1 d2 H12. unfold record_complete, holds_string, stored_flag.
    now rewrite H12. }
  assert (Hs' : record_complete (snd s') = true).
  { apply (run_keeps_store
             (fun m => forall d, nvs d = m -> record_complete d = true))
      with (s := s) (s' := s') (l := l); [| | exact Hrun | | reflexivity].
    - intros e0 ssid password device_id prov_token bearer d0 Hd0 d1 Hd1.
      rewrite (Hnvs _ _ Hd1).
      apply save_wifi_credentials_record_complete. now apply Hd0.
    - intros m _ d0 Hd0. eapply record_complete_erase; eauto.
    - intros d0 Hd0. now rewrite (Hnvs _ _ Hd0). }
  unfold wifi_provisioning_is_provisioned in Hprov.
  destruct (negb (is_ok (e_nvs_open_ro e))); [discriminate |].
  unfold record_complete, stored_flag in Hs'. rewrite Hprov in Hs'. simpl in Hs'.
  apply andb_prop in Hs' as [Hs' H4]. apply andb_prop in Hs' as [Hs' H3].
  apply andb_prop in Hs' as [H1 H2]. auto.
Qed.

Lemma provisioned_holds_record_witness :
  holds_string (snd (app_boot, device_provisioned)) NVS_KEY_WIFI_SSID = true /\
  holds_string (snd (app_boot, device_provisioned)) NVS_KEY_WIFI_PASS = true /\
  holds_string (snd (app_boot, device_provisioned)) NVS_KEY_DEVICE_ID = true /\
  holds_string (snd (app_boot, device_provisioned)) NVS_KEY_PROV_TOKEN = true.
Proof.
  apply (provisioned_holds_record
           [(env_ok, Act_provision (post_request (Some "Bearer abc") body_full))]
           (app_boot, device_listening) (app_boot, device_provisioned) env_ok);
    vm_compute; reflexivity.
Defined.

(** ** The answers of POST /provision *)

(** The two ways the request-tracing handler ends: a 400 that leaves the
    device alone, or a save whose result decides between 200 and 500. *)
Lemma provision_handler_cases (e : env) (req : httpd_req_t) (d : device) :
  (exists resp, provision_handler e req d = (ESP_FAIL, resp, d) /\
                resp_status resp = 400) \/
  exists root,
    req_json req = Some root /\ 0 < req_recv req /\
    List.filter (lacks root) required_fields = [] /\
    let r :=
      save_wifi_credentials e
        (valuestring_of (cJSON_GetObjectItem root "ssid"))
        (valuestring_of (cJSON_GetObjectItem root "password"))
        (valuestring_of (cJSON_GetObjectItem root "device_id"))
        (valuestring_of (cJSON_GetObjectItem root "provisioning_token"))
        (accepted_bearer req) d in
    provision_handler e req d =
      if is_ok (fst r)
      then (ESP_OK, respond 200 saved_json, snd (wifi_provisioning_stop (snd r)))
      else (ESP_FAIL, respond 500 (error_json "save_failed"), snd r).
Proof.
  unfold provision_handler, accepted_bearer.
  destruct (req_recv req <=? 0) eqn:Hrecv; [left; eauto |].
  destruct (req_json req) as [root |]; [| left; eauto].
  unfold check_required. cbn [fst snd].
  destruct (cJSON_IsString (cJSON_GetObjectItem root "ssid")) eqn:H1;
    destruct (cJSON_IsString (cJSON_GetObjectItem root "password")) eqn:H2;
    destruct (cJSON_IsString (cJSON_GetObjectItem root "device_id")) eqn:H3;
    destruct (cJSON_IsString (cJSON_GetObjectItem root "provisioning_token")) eqn:H4;
    cbn [negb List.app fst snd];
    try (left; destruct (cJSON_Print e _); eauto; fail).
  right. exists root. split; [reflexivity |]. split; [zbool; lia |].
  split; [unfold required_fields, lacks; cbn [List.filter];
          now rewrite H1, H2, H3, H4 |].
  cbv zeta.
  match goal with
  | |- context [save_wifi_credentials e ?a ?b ?c ?t ?x d] =>
      destruct (save_wifi_credentials e a b c t x d) as [err d1]
  end.
  cbn [fst snd]. destruct (is_ok err); cbn [negb]; [| reflexivity].
  now destruct (wifi_provisioning_stop d1).
Qed.

Lemma wifi_provisioning_stop_inactive (d : device) :
  s_provisioning_active (snd (wifi_provisioning_stop d)) = false.
Proof.
  unfold wifi_provisioning_stop.
  destruct (s_provisioning_active d) eqn:Ha; simpl; [reflexivity | exact Ha].
Qed.

(** X4. POST /provision, request-tracing handler, has three outcomes.
    ESP_OK: the answer is 200 with status ok, the four strings of the body
    and the flag 1 are in the store, and the listener is no longer active.
    ESP_FAIL with a 400: the device, store included, is exactly as before.
    ESP_FAIL with the 500 save_failed: only the store may have changed, the
    listener and the cache are as before. *)
Theorem provision_handler_outcomes (e : env) (req : httpd_req_t) (d : device) :
  let '(ret, resp, d') := provision_handler e req d in
  (ret = ESP_OK /\ resp = respond 200 saved_json /\
   s_provisioning_active d' = false /\ stored_flag d' = 1 /\
   exists root,
     req_json req = Some root /\
     nvs d' !! NVS_KEY_WIFI_SSID
       = Some (NvsStr (valuestring_of (cJSON_GetObjectItem root "ssid"))) /\
     nvs d' !! NVS_KEY_WIFI_PASS
       = Some (NvsStr (valuestring_of (cJSON_GetObjectItem root "password"))) /\
     nvs d' !! NVS_KEY_DEVICE_ID
       = Some (NvsStr (valuestring_of (cJSON_GetObjectItem root "device_id"))) /\
     nvs d' !! NVS_KEY_PROV_TOKEN
       = Some (NvsStr (valuestring_of
                         (cJSON_GetObjectItem root "provisioning_token")))) \/
  (ret = ESP_FAIL /\ resp_status resp = 400 /\ d' = d) \/
  (ret = ESP_FAIL /\ resp = respond 500 (error_json "save_failed") /\
   statics_eq d d').
Proof.
  destruct (provision_handler_cases e req d)
    as [(resp & -> & Hresp) | (root & Hjson & Hrecv & Hall & Hr)].
  { right. left. auto. }
  cbv zeta in Hr. rewrite Hr. clear Hr.
  match goal with
  | |- context [save_wifi_credentials e ?a ?b ?c ?t ?x d] =>
      pose proof (save_wifi_credentials_ok e a b c t x d) as Hok;
      pose proof (save_wifi_credentials_statics e a b c t x d) as Hst;
      destruct (stored_record_lookup a b c t x (nvs d))
        as (H1 & H2 & H3 & H4 & H5 & _);
      destruct (save_wifi_credentials e a b c t x d) as [err d1]
  end.
  cbv zeta in Hok. cbn [fst snd] in *.
  destruct (is_ok err); [| right; right; auto].
  left. specialize (Hok eq_refl).
  split; [reflexivity |]. split; [reflexivity |].
  split; [apply wifi_provisioning_stop_inactive |].
  unfold stored_flag. rewrite wifi_provisioning_stop_nvs, Hok, H5.
  split; [reflexivity |]. exists root. rewrite H1, H2, H3, H4. auto.
Qed.

(** ** The bearer token *)

(** X5. A POST /provision that is answered with ESP_OK and carries an
    Authorization header of 1 to 255 characters with a non-empty token
    stores that token: [wifi_provisioning_get_bearer_token] then returns it,
    given a buffer that holds it.  The token is what follows a leading
    Bearer and space, compared without regard to case, and the whole header
    value when it does not start so. *)
Theorem provision_handler_bearer_round_trip (e e' : env) (req : httpd_req_t)
    (d : device) (auth : string) (token_len : nat) :
  fst (fst (provision_handler e req d)) = ESP_OK ->
  req_authorization req = Some auth ->
  (0 < String.length auth <= 255)%nat ->
  extract_bearer auth <> EmptyString ->
  is_ok (e_nvs_open_ro e') = true ->
  (String.length (extract_bearer auth) < token_len)%nat ->
  wifi_provisioning_get_bearer_token e' false token_len
    (snd (provision_handler e req d)) = (ESP_OK, extract_bearer auth) /\
  (forall token, extract_bearer ("Bearer " +:+ token) = token) /\
  (forall token, extract_bearer ("bearer " +:+ token) = token) /\
  extract_bearer "abc" = "abc".
Proof.
  intros Hret Hauth Hlen Htoken Hopen Hbuf.
  split; [| repeat split; try (now intros []); reflexivity].
  destruct (provision_handler_cases e req d)
    as [(resp & Hr & _) | (root & _ & _ & _ & Hr)];
    [rewrite Hr in Hret; discriminate |].
  cbv zeta in Hr. rewrite Hr in *. clear Hr.
  assert (Hacc : accepted_bearer req = Some (extract_bearer auth)).
  { unfold accepted_bearer. rewrite Hauth.
    replace (1 <? String.length auth + 1)%nat with true
      by (symmetry; apply Nat.ltb_lt; lia).
    replace (String.length auth + 1 <=? 256)%nat with true
      by (symmetry; apply Nat.leb_le; lia).
    reflexivity. }
  rewrite Hacc in *.
  match goal with
  | |- context [save_wifi_credentials e ?a ?b ?c ?t ?x d] =>
      pose proof (save_wifi_credentials_ok e a b c t x d) as Hok;
      destruct (stored_record_lookup a b c t x (nvs d))
        as (_ & _ & _ & _ & _ & Hb & _);
      destruct (save_wifi_credentials e a b c t x d) as [err d1]
  end.
  cbv zeta in Hok. cbn [fst snd] in *.
  destruct (is_ok err); [| discriminate]. specialize (Hok eq_refl).
  cbn [fst snd].
  unfold wifi_provisioning_get_bearer_token, nvs_get_str.
  replace (token_len =? 0)%nat with false by (symmetry; apply Nat.eqb_neq; lia).
  rewrite Hopen, wifi_provisioning_stop_nvs, Hok, Hb. cbn [orb negb].
  replace (0 <? String.length (extract_bearer auth))%nat with true.
  - replace (String.length (extract_bearer auth) + 1 <=? token_len)%nat with true
      by (symmetry; apply Nat.leb_le; lia).
    reflexivity.
  - symmetry. apply Nat.ltb_lt.
    destruct (extract_bearer auth); [now destruct Htoken | simpl; lia].
Qed.

Lemma provision_handler_bearer_round_trip_witness :
  wifi_provisioning_get_bearer_token env_ok false 256
    (snd (provision_handler env_ok (post_request (Some "Bearer abc") body_full)
            device_listening)) = (ESP_OK, "abc").
Proof.
  apply (provision_handler_bearer_round_trip env_ok env_ok
           (post_request (Some "Bearer abc") body_full) device_listening
           "Bearer abc" 256);
    [reflexivity | reflexivity | simpl; lia | discriminate | reflexivity
    | simpl; lia].
Defined.

(** X6. An Authorization header of more than 255 characters, or one whose
    token is empty, is not an error: the request-tracing handler treats the
    request exactly as the same request without the header, so the
    submit goes through and no bearer token is written. *)
Theorem provision_handler_drops_header (e : env) (req : httpd_req_t) (d : device)
    (auth : string) :
  req_authorization req = Some auth ->
  (255 < String.length auth)%nat \/ extract_bearer auth = EmptyString ->
  provision_handler e req d = provision_handler e (without_authorization req) d.
Proof.
  intros Hauth Hdrop.
  assert (Hsave : forall ssid password device_id prov_token,
            save_wifi_credentials e ssid password device_id prov_token
              (accepted_bearer req) d =
            save_wifi_credentials e ssid password device_id prov_token None d).
  { intros ssid password device_id prov_token.
    unfold accepted_bearer. rewrite Hauth.
    destruct ((1 <? _)%nat && (_ <=? 256)%nat) eqn:Hfits; [| reflexivity].
    destruct Hdrop as [Hlong | ->]; [| reflexivity].
    apply andb_prop in Hfits as [_ Hfits]. apply Nat.leb_le in Hfits. lia. }
  unfold provision_handler. fold (accepted_bearer req).
  fold (accepted_bearer (without_authorization req)).
  cbn [without_authorization req_recv req_json].
  destruct (req_recv req <=? 0); [reflexivity |].
  destruct (req_json req) as [root |]; [| reflexivity].
  destruct (check_required _ _ _) as [missing has_error].
  destruct has_error; [reflexivity |].
  now rewrite Hsave.
Qed.

Lemma provision_handler_drops_header_witness :
  provision_handler env_ok (post_request (Some "Bearer ") body_full) device_listening
  = provision_handler env_ok
      (without_authorization (post_request (Some "Bearer ") body_full))
      device_listening.
Proof.
  apply (provision_handler_drops_header env_ok
           (post_request (Some "Bearer ") body_full) device_listening "Bearer ");
    [reflexivity | right; reflexivity].
Defined.

(** ** The scan endpoint's count *)

Lemma cached_entries_length (d : device) :
  cache_wf d -> Z.of_nat (length (cached_entries d)) = s_cached_network_count d.
Proof.
  unfold cache_wf, cache_bounded, cached_entries, WIFI_SCAN_MAX_APS.
  intros [Hlen Hb]. rewrite length_take, Hlen. lia.
Qed.

(** X7. In every state reached from [app_main], a GET /local-wifi that is
    answered with ESP_OK carries a document whose count member equals the
    number of entries of its networks array, which is at most 20. *)
Theorem scan_handler_count_matches (b : boot_env) (flash : gmap string nvs_value)
    (l : list (env * action)) (s0 s : app_task * device) (e : env)
    (req : httpd_req_t) :
  app_main b flash = Some s0 -> run s0 l = Some s ->
  fst (fst (scan_handler e req (snd s))) = ESP_OK ->
  exists networks cached,
    snd (fst (scan_handler e req (snd s))) =
      respond 200
        (cJSON_Object [("networks", cJSON_Array networks);
                       ("count", cJSON_Number (Z.of_nat (length networks)));
                       ("cached", cached)]) /\
    (length networks <= 20)%nat.
Proof.
  intros Hmain Hrun. destruct s0 as [a0 d0], s as [a d].
  destruct (app_main_start _ _ _ _ Hmain) as (_ & _ & Hwf0 & _).
  pose proof (run_cache_wf _ _ _ Hrun Hwf0) as Hwf. cbn [snd] in *.
  assert (Hwf1 : cache_wf (snd (perform_wifi_scan_and_cache e d))).
  { destruct Hwf as [Hl Hb]. split;
      [now apply perform_wifi_scan_and_cache_length
      | now apply perform_wifi_scan_and_cache_bounded]. }
  assert (Hdoc : forall d1 cached, cache_wf d1 ->
            exists networks cached0,
              respond 200
                (cJSON_Object
                   [("networks", cJSON_Array (map network_json (cached_entries d1)));
                    ("count", cJSON_Number (s_cached_network_count d1));
                    ("cached", cached)]) =
              respond 200
                (cJSON_Object [("networks", cJSON_Array networks);
                               ("count", cJSON_Number (Z.of_nat (length networks)));
                               ("cached", cached0)]) /\
              (length networks <= 20)%nat).
  { intros d1 cached Hd1. exists (map network_json (cached_entries d1)), cached.
    rewrite length_map, (cached_entries_length d1 Hd1). split; [reflexivity |].
    pose proof (cached_entries_length d1 Hd1) as Hc.
    destruct Hd1 as [_ Hb]. unfold cache_bounded, WIFI_SCAN_MAX_APS in Hb. lia. }
  unfold scan_handler, cJSON_Print.
  destruct (negb (s_initial_scan_done d) || _).
  - destruct (perform_wifi_scan_and_cache e d) as [ret d1]. cbn [snd] in Hwf1.
    destruct (negb (is_ok ret) && _); [discriminate |].
    destruct (negb (s_cache_mutex d1) || _); [discriminate |].
    destruct (e_print_ok e); [| discriminate]. intros _. now apply Hdoc.
  - destruct (negb (s_cache_mutex d) || _); [discriminate |].
    destruct (e_print_ok e); [| discriminate]. intros _. now apply Hdoc.
Qed.

Lemma scan_handler_count_matches_witness :
  exists networks cached,
    snd (fst (scan_handler env_crowded (get_request (Some "true"))
                (snd sample_start))) =
      respond 200
        (cJSON_Object [("networks", cJSON_Array networks);
                       ("count", cJSON_Number (Z.of_nat (length networks)));
                       ("cached", cached)]) /\
    (length networks <= 20)%nat.
Proof.
  apply (scan_handler_count_matches boot_ok ∅ [] sample_start sample_start
           env_crowded (get_request (Some "true")));
    vm_compute; reflexivity.
Defined.

(** ** The listener and the HTTP server *)

(** X8. In every state reached from [app_main], the HTTP server was
    started and stopped in turn (never started while running, never stopped
    while stopped, through all the calls recorded so far), it is running
    exactly when [s_provisioning_active] is set, and that is exactly when
    [s_httpd] holds a handle. *)
Theorem http_server_follows_listener (b : boot_env) (flash : gmap string nvs_value)
    (l : list (env * action)) (s0 s : app_task * device) :
  app_main b flash = Some s0 -> run s0 l = Some s ->
  server_state (hal_trace (snd s)) = Some (s_provisioning_active (snd s)) /\
  (s_provisioning_active (snd s) = true <-> is_Some (s_httpd (snd s))).
Proof.
  intros Hmain Hrun. destruct s0 as [a0 d0].
  destruct (app_main_start _ _ _ _ Hmain) as (_ & Hok0 & _).
  destruct (run_server_ok _ _ _ Hrun Hok0) as [Hs Ha].
  rewrite Hs, Ha. split; [reflexivity |].
  unfold listening. destruct (s_httpd (snd s)); split; try discriminate; eauto.
  intros [x Hx]. discriminate.
Qed.

Lemma http_server_follows_listener_witness :
  s_provisioning_active (snd sample_listening) = true /\
  server_state (hal_trace (snd sample_listening))
    = Some (s_provisioning_active (snd sample_listening)) /\
  (s_provisioning_active (snd sample_listening) = true
   <-> is_Some (s_httpd (snd sample_listening))).
Proof.
  split; [reflexivity |].
  apply (http_server_follows_listener boot_ok ∅
           [(env_ok, Act_loop); (env_ok, Act_loop); (env_ok, Act_loop)]
           sample_start sample_listening);
    vm_compute; reflexivity.
Defined.

(** ** The loop's connection attempt *)

Lemma run_keeps_key (key : string) (l : list (env * action))
    (s s' : app_task * device) :
  key ∉ credential_keys -> nvs (snd s) !! key = None -> run s l = Some s' ->
  nvs (snd s') !! key = None.
Proof.
  intros Hkey Hs Hrun.
  apply (run_keeps_store (fun m => m !! key = None))
    with (s := s) (s' := s') (l := l); [| | exact Hrun | exact Hs].
  - intros e ssid password device_id prov_token bearer d Hd.
    now rewrite save_wifi_credentials_frame.
  - intros m Hm. rewrite erase_credentials_lookup. now destruct (bool_decide _).
Qed.

(** X9. [save_wifi_credentials] stores the password under wifi_pass, the
    loop reads it from wifi_password.  On a flash without a wifi_password
    key, in every state reached from [app_main], an iteration of the loop
    in WIFI_CONNECTING either changes nothing or asks for a connection to the
    stored ssid (cut to 31 characters) with the empty password; no
    invocation ever creates the key. *)
Theorem loop_connects_with_empty_password (b : boot_env)
    (flash : gmap string nvs_value) (l : list (env * action))
    (s0 : app_task * device) (a : app_task) (d : device) (e : env) :
  flash !! "wifi_password" = None ->
  app_main b flash = Some s0 -> run s0 l = Some (a, d) ->
  s_app_state a = APP_STATE_WIFI_CONNECTING ->
  nvs d !! "wifi_password" = None /\
  (app_state_machine_step e a d = Some (a, d) \/
   exists ssid,
     nvs d !! NVS_KEY_WIFI_SSID = Some (NvsStr ssid) /\
     app_state_machine_step e a d =
       Some (set_connection_attempted true a,
             hal (Wifi_connect_sta (string_prefix 31 ssid) EmptyString) d)).
Proof.
  intros Hflash Hmain Hrun Hstate. destruct s0 as [a0 d0].
  destruct (app_main_start _ _ _ _ Hmain) as (_ & _ & _ & _ & _ & _ & Hkeys & _).
  assert (Hd0 : nvs d0 !! "wifi_password" = None).
  { destruct (Hkeys "wifi_password") as [H | H]; congruence. }
  assert (Hd : nvs d !! "wifi_password" = None).
  { apply (run_keeps_key "wifi_password" l (a0, d0) (a, d)); try assumption.
    unfold credential_keys. rewrite !not_elem_of_cons.
    repeat split; try discriminate. apply not_elem_of_nil. }
  split; [exact Hd |].
  unfold app_state_machine_step, nvs_get_str. rewrite Hstate, Hd.
  destruct (negb (connection_attempted a) && _); [| now left].
  unfold NVS_KEY_WIFI_SSID.
  destruct (nvs d !! "wifi_ssid") as [[ssid | n] |]; [| now left | now left].
  destruct (String.length ssid + 1 <=? 33)%nat; [| now left].
  right. exists ssid. split; reflexivity.
Qed.

Lemma loop_connects_with_empty_password_witness :
  nvs (snd sample_connecting) !! "wifi_password" = None /\
  (app_state_machine_step env_ok (fst sample_connecting) (snd sample_connecting)
     = Some (fst sample_connecting, snd sample_connecting) \/
   exists ssid,
     nvs (snd sample_connecting) !! NVS_KEY_WIFI_SSID = Some (NvsStr ssid) /\
     app_state_machine_step env_ok (fst sample_connecting) (snd sample_connecting) =
       Some (set_connection_attempted true (fst sample_connecting),
             hal (Wifi_connect_sta (string_prefix 31 ssid) EmptyString)
               (snd sample_connecting))).
Proof.
  apply (loop_connects_with_empty_password boot_ok ∅ sample_run sample_start
           (fst sample_connecting) (snd sample_connecting) env_ok);
    vm_compute; reflexivity.
Defined.

Lemma system_step_attempted (e : env) (act : action) (a a' : app_task)
    (d d' : device) :
  system_step e act (a, d) = Some (a', d') ->
  connection_attempted a = true -> connection_attempted a' = true.
Proof.
  simpl. destruct act.
  - apply app_state_machine_step_attempted.
  - intros [= <- <-]. now destruct ev as [[] ? | [] ? |].
  - destruct (wifi_event_handler e ev d); [| discriminate]. now intros [= <- <-].
  - now intros [= <- <-].
  - now intros [= <- <-].
  - now intros [= <- <-].
  - destruct (Minimal.provision_handler e req d); [| discriminate].
    now intros [= <- <-].
  - now intros [= <- <-].
Qed.

Lemma run_connects_once (l : list (env * action)) (s s' : app_task * device) :
  Forall (fun ea => forall req, snd ea <> Act_provision_minimal req) l ->
  run s l = Some s' ->
  connect_calls (hal_trace (snd s)) = O \/
  connect_calls (hal_trace (snd s)) = 1%nat /\ connection_attempted (fst s) = true ->
  connect_calls (hal_trace (snd s')) = O \/
  connect_calls (hal_trace (snd s')) = 1%nat /\ connection_attempted (fst s') = true.
Proof.
  intros Hl. revert s. induction Hl as [| [e act] l Hact Hl IH]; intros s; simpl.
  - now intros [= <-].
  - destruct (system_step e act s) as [s1 |] eqn:Hstep; [| discriminate].
    intros Hrun Hs. apply (IH s1 Hrun). clear IH Hrun.
    destruct s as [a d], s1 as [a1 d1]. cbn [fst snd] in *.
    pose proof (system_step_attempted _ _ _ _ _ _ Hstep) as Hmono.
    destruct (system_step_connect_calls _ _ _ _ _ _ Hstep)
      as [-> | [-> [(_ & Ha & Ha1) | [req ->]]]].
    + destruct Hs as [H0 | [H1 Hatt]]; auto.
    + destruct Hs as [-> | [_ Hatt]]; [auto | congruence].
    + now destruct (Hact req).
Qed.

(** X10. With the request-tracing handler serving /provision, the device
    asks for a station connection at most once between two starts of the
    firmware: in every state reached from [app_main] at most one connection
    call is recorded, and once it is, [connection_attempted] is set; it is
    never reset, so credentials provisioned later are not connected to. *)
Theorem at_most_one_connection_attempt (b : boot_env)
    (flash : gmap string nvs_value) (l : list (env * action))
    (s0 s : app_task * device) :
  app_main b flash = Some s0 -> run s0 l = Some s ->
  Forall (fun ea => forall req, snd ea <> Act_provision_minimal req) l ->
  (connect_calls (hal_trace (snd s)) <= 1)%nat /\
  (connect_calls (hal_trace (snd s)) = 1%nat ->
   connection_attempted (fst s) = true /\
   forall e a' d', app_state_machine_step e (fst s) (snd s) = Some (a', d') ->
                   connect_calls (hal_trace d') = 1%nat).
Proof.
  intros Hmain Hrun Hl. destruct s0 as [a0 d0].
  destruct (app_main_start _ _ _ _ Hmain) as (_ & _ & _ & Hc0 & _).
  destruct (run_connects_once l (a0, d0) s Hl Hrun (or_introl Hc0))
    as [H0 | [H1 Hatt]].
  - rewrite H0. split; [lia | discriminate].
  - rewrite H1. split; [lia |]. intros _. split; [exact Hatt |].
    intros e a' d' Hstep. destruct s as [a d]. cbn [fst snd] in *.
    destruct (system_step_connect_calls e Act_loop a a' d d' Hstep)
      as [-> | [_ [(_ & Ha & _) | [req Hreq]]]];
      [exact H1 | congruence | discriminate].
Qed.

Lemma at_most_one_connection_attempt_witness :
  connect_calls (hal_trace (snd sample_probing)) = 1%nat /\
  (connect_calls (hal_trace (snd sample_probing)) <= 1)%nat /\
  (connect_calls (hal_trace (snd sample_probing)) = 1%nat ->
   connection_attempted (fst sample_probing) = true /\
   forall e a' d',
     app_state_machine_step e (fst sample_probing) (snd sample_probing)
       = Some (a', d') ->
     connect_calls (hal_trace d') = 1%nat).
Proof.
  split; [reflexivity |].
  apply (at_most_one_connection_attempt boot_ok ∅ sample_probing_run sample_start
           sample_probing);
    [vm_compute; reflexivity | vm_compute; reflexivity |].
  unfold sample_probing_run, sample_run. simpl.
  repeat constructor; discriminate.
Defined.

(** ** The first iterations after a start *)

(** X11. [app_main] erases the record and the certificates whenever the
    namespace opens: whatever the flash held, the device starts
    unprovisioned and without certificates, and on a platform that lets the
    listener start the third iteration of the loop has the provisioning
    listener running, in AP_MODE. *)
Theorem app_main_starts_unprovisioned (b : boot_env)
    (flash : gmap string nvs_value) (a : app_task) (d : device) :
  app_main b flash = Some (a, d) -> is_ok (b_nvs_open b) = true ->
  (forall key, key ∈ boot_erased_keys -> nvs d !! key = None) /\
  (forall e, wifi_provisioning_is_provisioned e d = false) /\
  (forall o, certificate_manager_has_certificates o d = false) /\
  (forall e1 e2 e3, restart_succeeds e3 = true ->
     exists d',
       run (a, d) [(e1, Act_loop); (e2, Act_loop); (e3, Act_loop)] =
         Some (set_app_state APP_STATE_AP_MODE app_boot, d') /\
       s_provisioning_active d' = true /\ is_Some (s_httpd d')).
Proof.
  intros Hmain Hopen.
  destruct (app_main_start _ _ _ _ Hmain)
    as (-> & _ & _ & _ & Hinactive & _ & _ & [[_ Hgone] | [Hno _]]);
    [| congruence].
  assert (Hkey : forall key, In key boot_erased_keys -> nvs d !! key = None).
  { intros key Hin. apply Hgone. now apply list_elem_of_In. }
  assert (Hprov : forall e, wifi_provisioning_is_provisioned e d = false).
  { intros e. unfold wifi_provisioning_is_provisioned, NVS_KEY_PROVISIONED.
    rewrite (Hkey "provisioned") by (simpl; tauto). now destruct (negb _). }
  split; [exact Hgone |]. split; [exact Hprov |]. split.
  - intros o. unfold certificate_manager_has_certificates, nvs_get_str_size,
      NVS_KEY_DEVICE_CERT.
    rewrite (Hkey "device_cert") by (simpl; tauto). now destruct (negb _).
  - intros e1 e2 e3 Hok.
    destruct (wifi_provisioning_start_succeeds e3 Hok d Hinactive)
      as (d' & Hs & Ha & _ & Hh).
    exists d'. cbn [run system_step]. unfold app_state_machine_step at 1.
    cbn [s_app_state app_boot]. cbn [run system_step].
    unfold app_state_machine_step at 1. cbn [s_app_state set_app_state].
    rewrite Hprov. cbn [run system_step].
    unfold app_state_machine_step. cbn [s_app_state set_app_state].
    rewrite Hprov. cbn [negb]. rewrite Hs. auto.
Qed.

Lemma app_main_starts_unprovisioned_witness :
  wifi_provisioning_is_provisioned env_ok device_provisioned = true /\
  wifi_provisioning_is_provisioned env_ok (snd sample_restart) = false.
Proof.
  split; [reflexivity |].
  refine (proj1 (proj2 (app_main_starts_unprovisioned boot_ok
                          (nvs device_provisioned) (fst sample_restart)
                          (snd sample_restart) _ _)) env_ok);
    vm_compute; reflexivity.
Defined.

(** ** The address shown by the status *)

Lemma string_app_length (a b : string) :
  String.length (a +:+ b) = (String.length a + String.length b)%nat.
Proof. induction a as [| c a IH]; simpl; [reflexivity | now rewrite IH]. Qed.

Lemma string_prefix_all (n : nat) (s : string) :
  (String.length s <= n)%nat -> string_prefix n s = s.
Proof.
  revert n. induction s as [| c s IH]; intros [| n] Hn; simpl in *;
    try reflexivity; [lia |].
  rewrite IH; [reflexivity | lia].
Qed.

Lemma pretty_octet_length (z : Z) :
  octet z = true -> (String.length (pretty z) <= 3)%nat.
Proof.
  unfold octet. intros Hz. apply andb_prop in Hz as [H0 H255]. zbool.
  assert (Hall : forallb (fun z => (String.length (pretty z) <=? 3)%nat)
                   (seqZ 0 256) = true) by (vm_compute; reflexivity).
  rewrite forallb_forall in Hall.
  apply Nat.leb_le, Hall, list_elem_of_In, elem_of_seqZ. lia.
Qed.

Lemma ip_to_string_length (ip : esp_ip4_addr_t) :
  octet (ip1 ip) = true -> octet (ip2 ip) = true ->
  octet (ip3 ip) = true -> octet (ip4 ip) = true ->
  (String.length (ip_to_string ip) <= 15)%nat.
Proof.
  intros H1 H2 H3 H4. unfold ip_to_string. rewrite !string_app_length.
  apply pretty_octet_length in H1, H2, H3, H4. simpl. lia.
Qed.

(** X12. The got-IP event and the status getter agree: after the event,
    for an address of four octets, [wifi_provisioning_get_status] with a
    16-byte buffer returns true and the whole dotted address, which is at
    most 15 characters long; and after any station-disconnect event that
    returns, the getter returns false and leaves the buffer alone, whatever
    its size. *)
Theorem got_ip_then_get_status (ip : esp_ip4_addr_t) (d : device) :
  octet (ip1 ip) = true -> octet (ip2 ip) = true ->
  octet (ip3 ip) = true -> octet (ip4 ip) = true ->
  let d' := ip_event_handler (IP_EVENT IP_EVENT_STA_GOT_IP ip) d in
  (String.length (ip_to_string ip) <= 15)%nat /\
  wifi_provisioning_get_status false 16 d' = (true, Some (ip_to_string ip)) /\
  (forall e reason d'' n,
     wifi_event_handler e (WIFI_EVENT WIFI_EVENT_STA_DISCONNECTED reason) d'
       = Some d'' ->
     wifi_provisioning_get_status false n d'' = (false, None)).
Proof.
  intros H1 H2 H3 H4 d'.
  pose proof (ip_to_string_length ip H1 H2 H3 H4) as Hlen.
  split; [exact Hlen |]. split.
  - unfold wifi_provisioning_get_status, d'.
    cbn [ip_event_handler set_link s_wifi_connected s_sta_ip andb negb].
    change (0 <? 16)%nat with true. change (16 - 1)%nat with 15%nat.
    now rewrite (string_prefix_all 15 _ Hlen).
  - intros e reason d'' n Hev.
    assert (Hdown : s_wifi_connected d'' = false).
    { revert Hev. unfold wifi_event_handler.
      destruct (is_auth_failure reason); [| now intros [= <-]].
      destruct (wifi_provisioning_clear_and_restart e _) as [[r d1] |] eqn:Hc;
        [| discriminate].
      intros [= <-]. eapply wifi_provisioning_clear_and_restart_link; eauto. }
    unfold wifi_provisioning_get_status. now rewrite Hdown.
Qed.

Lemma got_ip_then_get_status_witness :
  wifi_provisioning_get_status false 16
    (ip_event_handler (IP_EVENT IP_EVENT_STA_GOT_IP sample_ip) device_boot)
  = (true, Some "192.168.1.57").
Proof.
  refine (proj1 (proj2 (got_ip_then_get_status sample_ip device_boot _ _ _ _)));
    reflexivity.
Defined.

(** ** Certificates *)

Lemma certificate_keys_kept (m : gmap string nvs_value) :
  erase_credentials m !! NVS_KEY_DEVICE_CERT = m !! NVS_KEY_DEVICE_CERT /\
  erase_credentials m !! NVS_KEY_CA_CERT = m !! NVS_KEY_CA_CERT.
Proof. now rewrite !erase_credentials_lookup. Qed.

(** X13. [wifi_provisioning_clear_and_restart] erases the credential record
    but not the certificates: the device certificate and the CA certificate
    are in the store afterwards exactly as before, so
    [certificate_manager_has_certificates] and the two loaders answer as
    they did. *)
Theorem clear_and_restart_keeps_certificates (e : env) (d d' : device)
    (r o : esp_err_t) (buffer_size : nat) :
  wifi_provisioning_clear_and_restart e d = Some (r, d') ->
  certificate_manager_has_certificates o d'
    = certificate_manager_has_certificates o d /\
  certificate_manager_load_device_cert o buffer_size d'
    = certificate_manager_load_device_cert o buffer_size d /\
  certificate_manager_load_ca_cert o buffer_size d'
    = certificate_manager_load_ca_cert o buffer_size d.
Proof.
  intros Hc. apply wifi_provisioning_clear_and_restart_nvs in Hc.
  assert (Hdev : nvs d' !! NVS_KEY_DEVICE_CERT = nvs d !! NVS_KEY_DEVICE_CERT)
    by (rewrite Hc; destruct (is_ok _); [apply certificate_keys_kept | reflexivity]).
  assert (Hca : nvs d' !! NVS_KEY_CA_CERT = nvs d !! NVS_KEY_CA_CERT)
    by (rewrite Hc; destruct (is_ok _); [apply certificate_keys_kept | reflexivity]).
  unfold certificate_manager_has_certificates, certificate_manager_load_device_cert,
    certificate_manager_load_ca_cert, load_certificate_from_nvs, nvs_get_str_size,
    nvs_get_str.
  now rewrite Hdev, Hca.
Qed.

Lemma clear_and_restart_keeps_certificates_witness :
  certificate_manager_has_certificates ESP_OK (snd sample_cleared)
    = certificate_manager_has_certificates ESP_OK (snd sample_certified) /\
  certificate_manager_load_device_cert ESP_OK 2048 (snd sample_cleared)
    = certificate_manager_load_device_cert ESP_OK 2048 (snd sample_certified) /\
  certificate_manager_load_ca_cert ESP_OK 2048 (snd sample_cleared)
    = certificate_manager_load_ca_cert ESP_OK 2048 (snd sample_certified).
Proof.
  apply (clear_and_restart_keeps_certificates env_ok (snd sample_certified)
           (snd sample_cleared) (fst sample_cleared) ESP_OK 2048).
  vm_compute. reflexivity.
Defined.


Lemma save_certificate_to_nvs_store (e : env) (key cert_pem : string) (d : device) :
  let r := save_certificate_to_nvs e key cert_pem d in
  (is_ok (fst r) = true -> nvs (snd r) = <[key := NvsStr cert_pem]> (nvs d)) /\
  (forall k, k <> key -> nvs (snd r) !! k = nvs d !! k).
Proof.
  cbv zeta. unfold save_certificate_to_nvs, nvs_set, nvs_commit.
  destruct (is_ok (e_nvs_open_rw e)) eqn:H0; cbn [negb fst snd];
    [| split; [congruence | reflexivity]].
  destruct (is_ok (e_nvs_set e key)) eqn:H1; cbn [negb fst snd]; rewrite ?H1;
    cbn [negb fst snd]; [| split; [congruence | reflexivity]].
  split; [reflexivity |]. intros k Hk. simpl. now rewrite lookup_insert_ne.
Qed.

Lemma cJSON_IsString_valuestring (item : option cJSON) :
  cJSON_IsString item = true -> item = Some (cJSON_String (valuestring_of item)).
Proof. destruct item as [[] |]; simpl; congruence. Qed.

(** X14. When [certificate_manager_submit_csr] returns ESP_OK, the backend
    answered 200 or 201 with a document that parsed, and the content strings
    of its certificate and ca_certificate members are now stored under
    device_cert and ca_cert, every other key being as before; so
    [certificate_manager_has_certificates] answers true, and each loader
    returns its certificate when the buffer holds it. *)
Theorem submit_csr_ok_stores_certificates (c : csr_env) (e1 e2 : env)
    (d d' : device) :
  certificate_manager_submit_csr c e1 e2 d = Some (ESP_OK, d') ->
  exists buffer response cert_obj ca_obj cert ca,
    (c_status_code c = 200 \/ c_status_code c = 201) /\
    c_parse c buffer = Some response /\
    cJSON_GetObjectItem response "certificate" = Some cert_obj /\
    cJSON_GetObjectItem response "ca_certificate" = Some ca_obj /\
    cJSON_GetObjectItem cert_obj "content" = Some (cJSON_String cert) /\
    cJSON_GetObjectItem ca_obj "content" = Some (cJSON_String ca) /\
    nvs d' = <[NVS_KEY_CA_CERT := NvsStr ca]>
               (<[NVS_KEY_DEVICE_CERT := NvsStr cert]> (nvs d)) /\
    certificate_manager_has_certificates ESP_OK d' = true /\
    (forall n, (String.length cert < n)%nat ->
               certificate_manager_load_device_cert ESP_OK n d' = (ESP_OK, cert)) /\
    (forall n, (String.length ca < n)%nat ->
               certificate_manager_load_ca_cert ESP_OK n d' = (ESP_OK, ca)).
Proof.
  unfold certificate_manager_submit_csr.
  destruct (negb (c_print_ok c)); [discriminate |].
  destruct (negb (c_client_init_ok c)); [discriminate |].
  destruct (http_events 8192 (c_events c) response_buffer_freed) as [r |];
    [| discriminate].
  destruct (is_ok (c_perform c)) eqn:Hperform;
    [| intros [= Hp <-]; now rewrite Hp in Hperform].
  destruct ((c_status_code c =? 200) || (c_status_code c =? 201)) eqn:Hstatus;
    [| discriminate].
  destruct (s_http_response_buffer r) as [buffer |]; [| discriminate].
  destruct (c_parse c buffer) as [response |] eqn:Hparse; [| discriminate].
  destruct (cJSON_GetObjectItem response "certificate") as [cert_obj |] eqn:Hcert;
    [| discriminate].
  destruct (cJSON_GetObjectItem response "ca_certificate") as [ca_obj |] eqn:Hca;
    [| discriminate].
  destruct (cJSON_IsString (cJSON_GetObjectItem cert_obj "content")) eqn:Hs1;
    [| discriminate].
  destruct (cJSON_IsString (cJSON_GetObjectItem ca_obj "content")) eqn:Hs2;
    [| discriminate].
  cbn [andb].
  apply cJSON_IsString_valuestring in Hs1, Hs2.
  set (cert := valuestring_of (cJSON_GetObjectItem cert_obj "content")) in *.
  set (ca := valuestring_of (cJSON_GetObjectItem ca_obj "content")) in *.
  destruct (save_certificate_to_nvs_store e1 NVS_KEY_DEVICE_CERT cert d)
    as [Hdev _].
  destruct (save_certificate_to_nvs e1 NVS_KEY_DEVICE_CERT cert d) as [err1 d1].
  cbn [fst snd] in Hdev.
  destruct (is_ok err1) eqn:Herr1;
    [| intros [= Hp <-]; now rewrite Hp in Herr1].
  intros Hsave.
  destruct (save_certificate_to_nvs_store e2 NVS_KEY_CA_CERT ca d1) as [Hcas _].
  injection Hsave as Hsave. rewrite Hsave in Hcas. cbn [fst snd] in Hcas.
  specialize (Hcas eq_refl). rewrite (Hdev eq_refl) in Hcas.
  exists buffer, response, cert_obj, ca_obj, cert, ca.
  split; [apply orb_prop in Hstatus as [H | H]; zbool; auto |].
  do 5 (split; [assumption |]).
  split; [exact Hcas |].
  unfold certificate_manager_has_certificates, certificate_manager_load_device_cert,
    certificate_manager_load_ca_cert, load_certificate_from_nvs, nvs_get_str_size,
    nvs_get_str, NVS_KEY_DEVICE_CERT, NVS_KEY_CA_CERT in *.
  rewrite Hcas. cbn [negb is_ok].
  rewrite lookup_insert_eq, lookup_insert_ne, lookup_insert_eq by discriminate.
  split; [reflexivity |].
  split; intros n Hn;
    (replace (_ <=? n)%nat with true by (symmetry; apply Nat.leb_le; lia));
    reflexivity.
Qed.

Lemma submit_csr_ok_stores_certificates_witness :
  exists buffer response cert_obj ca_obj cert ca,
    (c_status_code csr_ok = 200 \/ c_status_code csr_ok = 201) /\
    c_parse csr_ok buffer = Some response /\
    cJSON_GetObjectItem response "certificate" = Some cert_obj /\
    cJSON_GetObjectItem response "ca_certificate" = Some ca_obj /\
    cJSON_GetObjectItem cert_obj "content" = Some (cJSON_String cert) /\
    cJSON_GetObjectItem ca_obj "content" = Some (cJSON_String ca) /\
    nvs (snd sample_certified) =
      <[NVS_KEY_CA_CERT := NvsStr ca]>
        (<[NVS_KEY_DEVICE_CERT := NvsStr cert]> (nvs device_provisioned)) /\
    certificate_manager_has_certificates ESP_OK (snd sample_certified) = true /\
    (forall n, (String.length cert < n)%nat ->
               certificate_manager_load_device_cert ESP_OK n (snd sample_certified)
                 = (ESP_OK, cert)) /\
    (forall n, (String.length ca < n)%nat ->
               certificate_manager_load_ca_cert ESP_OK n (snd sample_certified)
                 = (ESP_OK, ca)).
Proof.
  apply (submit_csr_ok_stores_certificates csr_ok env_ok env_ok device_provisioned
           (snd sample_certified)).
  vm_compute. reflexivity.
Defined.

(** ** The HTTP response buffer *)

Lemma string_app_nil_r (s : string) : s +:+ EmptyString = s.
Proof.
  induction s as [| c s IH]; [reflexivity | exact (f_equal (String c) IH)].
Qed.

Lemma string_app_assoc (a b c : string) : (a +:+ b) +:+ c = a +:+ (b +:+ c).
Proof.
  induction a as [| x a IH]; [reflexivity | exact (f_equal (String x) IH)].
Qed.

Lemma string_length_zero (s : string) : String.length s = O -> s = EmptyString.
Proof. now destruct s. Qed.

Lemma cstr_app (a b : string) :
  cstr a = a -> cstr b = b -> cstr (a +:+ b) = a +:+ b.
Proof.
  intros Ha Hb. induction a as [| x a IH]; simpl in *; [exact Hb |].
  destruct (Ascii.eqb x Ascii.zero); [discriminate |].
  injection Ha as Ha. now rewrite IH.
Qed.

(** The buffer while the pieces [rest] of a body are still to come: it
    holds a proper prefix [buf] of the body, [mid] was dropped. *)
Lemma http_events_chunks (limit : Z) (body buf mid : string) (rest : list string) :
  body = buf +:+ mid +:+ concat_chunks rest ->
  (mid <> EmptyString -> concat_chunks rest = EmptyString) ->
  (String.length buf < String.length body)%nat ->
  cstr buf = buf -> Forall (fun ch => cstr ch = ch) rest ->
  exists buf' tail,
    http_events limit (data_events (Z.of_nat (String.length body)) rest)
      {| s_http_response_buffer := Some buf;
         s_http_response_len := Z.of_nat (String.length body) |}
    = Some {| s_http_response_buffer := Some buf';
              s_http_response_len := Z.of_nat (String.length body) |} /\
    body = buf' +:+ tail /\ tail <> EmptyString.
Proof.
  intros Hbody Hmid Hlen Hbuf Hrest. revert buf mid Hbody Hmid Hlen Hbuf.
  induction Hrest as [| ch rest Hch Hrest IH]; intros buf mid Hbody Hmid Hlen Hbuf.
  - exists buf, mid. change (concat_chunks []) with EmptyString in Hbody.
    rewrite string_app_nil_r in Hbody.
    split; [reflexivity |]. split; [exact Hbody |].
    intros ->. rewrite string_app_nil_r in Hbody. subst body. lia.
  - assert (Htotal : String.length body =
              (String.length buf + String.length mid + String.length ch
               + String.length (concat_chunks rest))%nat).
    { rewrite Hbody. simpl. rewrite !string_app_length. lia. }
    cbn [data_events map http_events http_event_handler s_http_response_buffer
         s_http_response_len].
    destruct (Z.of_nat (String.length buf) + Z.of_nat (String.length ch)
              <? Z.of_nat (String.length body)) eqn:Hfits; zbool.
    + rewrite (cstr_app buf ch Hbuf Hch).
      destruct (string_dec mid EmptyString) as [-> | Hne].
      * apply (IH (buf +:+ ch) EmptyString).
        -- rewrite Hbody. simpl. now rewrite !string_app_assoc.
        -- intros H. now destruct H.
        -- rewrite string_app_length. lia.
        -- now apply cstr_app.
      * specialize (Hmid Hne). simpl in Hmid.
        assert (Hch0 : ch = EmptyString).
        { apply string_length_zero.
          apply (f_equal String.length) in Hmid.
          rewrite string_app_length in Hmid. simpl in Hmid. lia. }
        assert (Hrest0 : concat_chunks rest = EmptyString).
        { subst ch. exact Hmid. }
        subst ch. rewrite string_app_nil_r.
        apply (IH buf mid).
        -- rewrite Hbody. simpl. reflexivity.
        -- intros _. exact Hrest0.
        -- exact Hlen.
        -- exact Hbuf.
    + assert (Hmid0 : mid = EmptyString) by (apply string_length_zero; lia).
      assert (Hrest0 : concat_chunks rest = EmptyString)
        by (apply string_length_zero; lia).
      subst mid. apply (IH buf ch).
      * rewrite Hbody. simpl. reflexivity.
      * intros _. exact Hrest0.
      * exact Hlen.
      * exact Hbuf.
Qed.

(** From the freed buffer: the first event allocates it. *)
Lemma http_events_body (limit : Z) (chunks : list string) :
  0 < Z.of_nat (String.length (concat_chunks chunks)) < limit ->
  limit <= 4294967296 ->
  Forall (fun ch => cstr ch = ch) chunks ->
  exists buf tail,
    http_events limit
      (data_events (Z.of_nat (String.length (concat_chunks chunks))) chunks)
      response_buffer_freed
    = Some {| s_http_response_buffer := Some buf;
              s_http_response_len :=
                Z.of_nat (String.length (concat_chunks chunks)) |} /\
    concat_chunks chunks = buf +:+ tail /\ tail <> EmptyString.
Proof.
  intros Hlen Hlimit Hchunks.
  destruct chunks as [| ch rest]; [simpl in Hlen; lia |].
  set (body := concat_chunks (ch :: rest)) in *.
  destruct (http_events_chunks limit body EmptyString EmptyString (ch :: rest))
    as (buf & tail & Hev & Hbody & Htail); try reflexivity; try assumption.
  - intros H. now destruct H.
  - simpl. lia.
  - exists buf, tail. split; [| auto].
    rewrite <- Hev.
    cbn [data_events map http_events http_event_handler response_buffer_freed
         s_http_response_buffer s_http_response_len].
    unfold size_t. rewrite Z.mod_small by lia.
    replace (0 <? Z.of_nat (String.length body)) with true
      by (symmetry; apply Z.ltb_lt; lia).
    replace (Z.of_nat (String.length body) <? limit) with true
      by (symmetry; apply Z.ltb_lt; lia).
    reflexivity.
Qed.

(** X15. The response buffer of [http_event_handler] (limit 8192 in the
    certificate manager, 4096 in the reachability probe) never receives a
    whole body.  For a response that is not chunked, declares its length,
    arrives in any number of pieces without NUL characters and finds memory,
    the text left in the buffer is a proper prefix of the body: the piece that
    would complete the declared length is dropped by the strict size check. *)
Theorem http_event_handler_drops_last_piece (limit : Z) (chunks : list string) :
  let body := concat_chunks chunks in
  0 < Z.of_nat (String.length body) < limit -> limit <= 4294967296 ->
  Forall (fun ch => cstr ch = ch) chunks ->
  exists buf tail,
    http_events limit (data_events (Z.of_nat (String.length body)) chunks)
      response_buffer_freed
    = Some {| s_http_response_buffer := Some buf;
              s_http_response_len := Z.of_nat (String.length body) |} /\
    body = buf +:+ tail /\ tail <> EmptyString.
Proof. cbv zeta. apply http_events_body. Qed.

Lemma http_event_handler_drops_last_piece_witness :
  exists buf tail,
    http_events 8192
      (data_events (Z.of_nat (String.length (concat_chunks ["{ab"; "cd"; "e}"])))
         ["{ab"; "cd"; "e}"])
      response_buffer_freed
    = Some {| s_http_response_buffer := Some buf;
              s_http_response_len :=
                Z.of_nat (String.length (concat_chunks ["{ab"; "cd"; "e}"])) |} /\
    concat_chunks ["{ab"; "cd"; "e}"] = buf +:+ tail /\ tail <> EmptyString.
Proof.
  apply (http_event_handler_drops_last_piece 8192 ["{ab"; "cd"; "e}"]);
    [simpl; lia | lia | repeat constructor].
Defined.




(** ** Lengths that the provisioning request does not check *)

(** X17. [save_wifi_credentials] stores strings of any length, the loop
    reads them into fixed buffers.  After a save that returned ESP_OK: with
    an ssid of more than 32 characters, an iteration in WIFI_CONNECTING
    changes nothing and asks for no connection, on any platform; with a
    device id of more than 63 characters or a provisioning token of more than
    255, an iteration in SUBMIT_CSR goes to the ERROR state without calling
    the backend. *)
Theorem loop_on_overlong_credentials (e : env)
    (ssid password device_id prov_token : string) (bearer : option string)
    (d : device) :
  let r := save_wifi_credentials e ssid password device_id prov_token bearer d in
  is_ok (fst r) = true ->
  ((32 < String.length ssid)%nat ->
   forall e' a, s_app_state a = APP_STATE_WIFI_CONNECTING ->
                app_state_machine_step e' a (snd r) = Some (a, snd r)) /\
  ((63 < String.length device_id)%nat \/ (255 < String.length prov_token)%nat ->
   forall e' a, s_app_state a = APP_STATE_SUBMIT_CSR ->
                app_state_machine_step e' a (snd r)
                  = Some (set_app_state APP_STATE_ERROR a, snd r)).
Proof.
  cbv zeta. intros Hok.
  pose proof (save_wifi_credentials_ok e ssid password device_id prov_token bearer d
                Hok) as Hnvs.
  destruct (stored_record_lookup ssid password device_id prov_token bearer (nvs d))
    as (Hssid & _).
  split.
  - intros Hlong e' a Hstate.
    unfold app_state_machine_step, nvs_get_str. rewrite Hstate.
    destruct (negb (connection_attempted a) && _); [| reflexivity].
    fold NVS_KEY_WIFI_SSID. rewrite Hnvs, Hssid.
    replace (String.length ssid + 1 <=? 33)%nat with false
      by (symmetry; apply Nat.leb_gt; lia).
    reflexivity.
  - intros Hlong e' a Hstate.
    unfold app_state_machine_step. rewrite Hstate.
    destruct (is_ok (e_nvs_open_ro e')) eqn:Hopen.
    + rewrite (save_then_get_provisioning_credentials e e' ssid password device_id
                 prov_token bearer d Hok Hopen).
      destruct (String.length device_id + 1 <=? 64)%nat eqn:H1; [| reflexivity].
      destruct (String.length prov_token + 1 <=? 256)%nat eqn:H2; [| reflexivity].
      apply Nat.leb_le in H1, H2. lia.
    + unfold get_provisioning_credentials. rewrite Hopen. cbn [negb].
      now rewrite Hopen.
Qed.

Lemma loop_on_overlong_credentials_witness :
  app_state_machine_step env_ok (set_app_state APP_STATE_SUBMIT_CSR app_boot)
    (snd (save_wifi_credentials env_ok "Net" "pw123456" (long_name 64) "tok1" None
            device_boot))
  = Some (set_app_state APP_STATE_ERROR (set_app_state APP_STATE_SUBMIT_CSR app_boot),
          snd (save_wifi_credentials env_ok "Net" "pw123456" (long_name 64) "tok1"
                 None device_boot)).
Proof.
  refine (proj2 (loop_on_overlong_credentials env_ok "Net" "pw123456" (long_name 64)
                   "tok1" None device_boot _) _ env_ok
            (set_app_state APP_STATE_SUBMIT_CSR app_boot) _);
    [reflexivity | left; simpl; lia | reflexivity].
Defined.

(** ** The MQTT client *)

Lemma mqtt_client_start_cases (me : mqtt_env) (d : device) (m : mqtt) :
  s_mqtt_client m = None ->
  (is_ok (fst (mqtt_client_start me d m)) = false /\
   s_mqtt_client (snd (mqtt_client_start me d m)) = None) \/
  exists cert ca client,
    nvs d !! NVS_KEY_DEVICE_CERT = Some (NvsStr cert) /\
    nvs d !! NVS_KEY_CA_CERT = Some (NvsStr ca) /\
    (String.length cert < 2048)%nat /\ (String.length ca < 2048)%nat /\
    m_client_init me = Some client /\
    mqtt_client_start me d m =
      (ESP_OK, {| s_mqtt_client := Some client;
                  s_mqtt_connected := s_mqtt_connected m;
                  s_device_cert := cert; s_ca_cert := ca |}).
Proof.
  intros Hclient.
  unfold mqtt_client_start, certificate_manager_has_certificates,
    certificate_manager_load_device_cert, certificate_manager_load_ca_cert,
    load_certificate_from_nvs, nvs_get_str_size, nvs_get_str, CERT_BUFFER_SIZE.
  rewrite Hclient. cbv iota.
  assert (Hfail : forall (err : esp_err_t) (m0 : mqtt),
            is_ok err = false -> s_mqtt_client m0 = None ->
            is_ok (fst (err, m0)) = false /\ s_mqtt_client (snd (err, m0)) = None)
    by auto.
  destruct (negb (is_ok (m_open_check me))); [left; now apply Hfail |].
  destruct (nvs d !! NVS_KEY_DEVICE_CERT) as [[cert | n] |];
    try (left; now apply Hfail).
  destruct (nvs d !! NVS_KEY_CA_CERT) as [[ca | n] |];
    try (left; now apply Hfail).
  change (is_ok ESP_OK) with true. cbn [andb negb].
  destruct (is_ok (m_open_device me)) eqn:Hod; cbn [negb]; rewrite ?Hod; cbn [negb];
    [| left; now apply Hfail].
  destruct (String.length cert + 1 <=? 2048)%nat eqn:Hcert;
    [| left; now apply Hfail].
  change (is_ok ESP_OK) with true. cbn [negb].
  destruct (is_ok (m_open_ca me)) eqn:Hoc; cbn [negb]; rewrite ?Hoc; cbn [negb];
    [| left; now apply Hfail].
  destruct (String.length ca + 1 <=? 2048)%nat eqn:Hca;
    [| left; now apply Hfail].
  change (is_ok ESP_OK) with true. cbn [negb].
  destruct (m_client_init me) as [client |]; [| left; now apply Hfail].
  destruct (is_ok (m_client_start me)) eqn:Hst; cbn [negb]; rewrite ?Hst; cbn [negb];
    [| left; now apply Hfail].
  apply Nat.leb_le in Hcert, Hca.
  right. exists cert, ca, client.
  repeat split; try reflexivity; lia.
Qed.

(** X18. [mqtt_client_start] returns ESP_OK exactly when it leaves a client
    handle behind, so a failed start leaks none.  A start from the stopped
    client that returns ESP_OK has loaded the two certificates as they are
    stored, each shorter than the 2048-byte buffer: a stored certificate of
    2048 characters or more makes every start fail. *)
Theorem mqtt_client_start_loads_certificates (me : mqtt_env) (d : device) (m : mqtt) :
  let r := mqtt_client_start me d m in
  (is_ok (fst r) = true <-> is_Some (s_mqtt_client (snd r))) /\
  (s_mqtt_client m = None -> is_ok (fst r) = true ->
   nvs d !! NVS_KEY_DEVICE_CERT = Some (NvsStr (s_device_cert (snd r))) /\
   nvs d !! NVS_KEY_CA_CERT = Some (NvsStr (s_ca_cert (snd r))) /\
   (String.length (s_device_cert (snd r)) < 2048)%nat /\
   (String.length (s_ca_cert (snd r)) < 2048)%nat) /\
  (forall cert,
     s_mqtt_client m = None ->
     nvs d !! NVS_KEY_DEVICE_CERT = Some (NvsStr cert) \/
     nvs d !! NVS_KEY_CA_CERT = Some (NvsStr cert) ->
     (2047 < String.length cert)%nat -> is_ok (fst r) = false).
Proof.
  cbv zeta. destruct (s_mqtt_client m) as [client0 |] eqn:Hclient.
  - unfold mqtt_client_start. rewrite Hclient. cbn [fst snd]. rewrite Hclient.
    split; [split; eauto |]. split; discriminate.
  - destruct (mqtt_client_start_cases me d m Hclient)
      as [[Hf Hn] | (cert & ca & client & Hdev & Hca & Hl1 & Hl2 & Hinit & ->)].
    + rewrite Hf, Hn. split; [split; [discriminate | intros [x Hx]; discriminate] |].
      split; [discriminate | reflexivity].
    + cbn [fst snd s_mqtt_client s_device_cert s_ca_cert].
      split; [split; eauto |]. split; [auto |].
      intros cert' _ [H | H] Hlong; exfalso;
        [assert (cert' = cert) by congruence | assert (cert' = ca) by congruence];
        subst; lia.
Qed.

Lemma mqtt_client_start_loads_certificates_witness :
  nvs (snd sample_certified) !! NVS_KEY_DEVICE_CERT
    = Some (NvsStr (s_device_cert
                      (snd (mqtt_client_start mqtt_ok (snd sample_certified)
                              mqtt_boot)))) /\
  nvs (snd sample_certified) !! NVS_KEY_CA_CERT
    = Some (NvsStr (s_ca_cert
                      (snd (mqtt_client_start mqtt_ok (snd sample_certified)
                              mqtt_boot)))) /\
  (String.length
     (s_device_cert (snd (mqtt_client_start mqtt_ok (snd sample_certified)
                            mqtt_boot))) < 2048)%nat /\
  (String.length
     (s_ca_cert (snd (mqtt_client_start mqtt_ok (snd sample_certified)
                        mqtt_boot))) < 2048)%nat.
Proof.
  apply (proj1 (proj2 (mqtt_client_start_loads_certificates mqtt_ok
                         (snd sample_certified) mqtt_boot)));
    vm_compute; reflexivity.
Defined.

Lemma mqtt_events_client (evts : list esp_mqtt_event_id_t) (m : mqtt) :
  s_mqtt_client (mqtt_events evts m) = s_mqtt_client m.
Proof.
  unfold mqtt_events. revert m.
  induction evts as [| ev evts IH]; intros m; simpl; [reflexivity |].
  rewrite IH. now destruct ev.
Qed.

(** X19. Publishing and subscribing need a started and connected client.
    After [mqtt_client_stop], whatever MQTT events are still handled, both
    return ESP_ERR_INVALID_STATE and nothing is sent; with a client handle,
    after the disconnected event they return ESP_ERR_INVALID_STATE as well,
    and after the connected event they return ESP_OK, or ESP_FAIL when the
    library reports a negative message id. *)
Theorem mqtt_publish_needs_connected_client (m : mqtt) (msg_id : Z) :
  (forall evts,
     mqtt_client_publish msg_id (mqtt_events evts (mqtt_client_stop m))
       = ESP_ERR_INVALID_STATE /\
     mqtt_client_subscribe msg_id (mqtt_events evts (mqtt_client_stop m))
       = ESP_ERR_INVALID_STATE) /\
  mqtt_client_publish msg_id (mqtt_event_handler MQTT_EVENT_DISCONNECTED m)
    = ESP_ERR_INVALID_STATE /\
  mqtt_client_subscribe msg_id (mqtt_event_handler MQTT_EVENT_DISCONNECTED m)
    = ESP_ERR_INVALID_STATE /\
  (is_Some (s_mqtt_client m) ->
   mqtt_client_publish msg_id (mqtt_event_handler MQTT_EVENT_CONNECTED m)
     = (if msg_id <? 0 then ESP_FAIL else ESP_OK) /\
   mqtt_client_subscribe msg_id (mqtt_event_handler MQTT_EVENT_CONNECTED m)
     = (if msg_id <? 0 then ESP_FAIL else ESP_OK)).
Proof.
  split; [| split; [| split]].
  - intros evts. unfold mqtt_client_publish, mqtt_client_subscribe.
    rewrite mqtt_events_client.
    unfold mqtt_client_stop. now destruct (s_mqtt_client m) eqn:Hc; simpl; rewrite ?Hc.
  - unfold mqtt_client_publish. simpl. now destruct (s_mqtt_client m).
  - unfold mqtt_client_subscribe. simpl. now destruct (s_mqtt_client m).
  - intros [client Hc]. unfold mqtt_client_publish, mqtt_client_subscribe. simpl.
    rewrite Hc. split; reflexivity.
Qed.

Lemma mqtt_publish_needs_connected_client_witness :
  mqtt_client_publish 7
    (mqtt_event_handler MQTT_EVENT_CONNECTED
       (snd (mqtt_client_start mqtt_ok (snd sample_certified) mqtt_boot))) = ESP_OK.
Proof.
  refine (proj1 (proj2 (proj2 (proj2
            (mqtt_publish_needs_connected_client
               (snd (mqtt_client_start mqtt_ok (snd sample_certified) mqtt_boot))
               7))) _)).
  vm_compute. eauto.
Defined.

(** ** The reachability probe in the loop *)

Lemma internet_verification_test_status (p : probe_env) (r : esp_err_t) :
  internet_verification_test p = Some r -> p_status_code p <> 200 -> r <> ESP_OK.
Proof.
  unfold internet_verification_test.
  destruct (negb (p_client_init_ok p)); [intros [= <-]; discriminate |].
  destruct (http_events 4096 (p_events p) response_buffer_freed); [| discriminate].
  destruct (is_ok (p_perform p)); [| intros [= <-]; discriminate].
  destruct (p_status_code p =? 200) eqn:Hs; [| intros [= <-]; discriminate].
  zbool. congruence.
Qed.

(** X20. [internet_verification_test] succeeds on status 200 only: any
    other status of the test endpoint (a redirect, 204, an error page) is a
    failed probe whatever the request and the body were.  In WIFI_CONNECTED
    on a provisioned device, two iterations whose probes end so erase the
    credential record and bring the listener back, given that the namespace
    opens and the platform lets the listener start. *)
Theorem probe_other_status_erases_credentials (p1 p2 : probe_env) (e1 e2 : env)
    (a : app_task) (d : device) :
  internet_verification_test p1 = Some (e_probe e1) ->
  internet_verification_test p2 = Some (e_probe e2) ->
  p_status_code p1 <> 200 -> p_status_code p2 <> 200 ->
  s_app_state a = APP_STATE_WIFI_CONNECTED ->
  verification_done a = false -> verification_retries a = 0 ->
  wifi_provisioning_is_provisioned e1 d = true ->
  wifi_provisioning_is_provisioned e2 d = true ->
  is_ok (e_nvs_open_rw e2) = true -> restart_succeeds e2 = true ->
  exists a' d',
    run (a, d) [(e1, Act_loop); (e2, Act_loop)] = Some (a', d') /\
    s_app_state a' = APP_STATE_AP_MODE /\
    (forall key, key ∈ credential_keys -> nvs d' !! key = None) /\
    (forall e, wifi_provisioning_is_provisioned e d' = false) /\
    s_provisioning_active d' = true.
Proof.
  intros Hp1 Hp2 Hs1 Hs2 Hstate Hdone Hretries Hprov1 Hprov2 Hopen Hok.
  pose proof (internet_verification_test_status p1 _ Hp1 Hs1) as Hfail1.
  pose proof (internet_verification_test_status p2 _ Hp2 Hs2) as Hfail2.
  pose proof (probe_first_failure e1 a d Hstate Hprov1 Hdone Hretries Hfail1)
    as Hfirst.
  assert (Hsecond := probe_failure_after_failure e2 (set_verification false 1 a)
                       (hal Probe d)).
  cbn [s_app_state set_verification verification_done verification_retries]
    in Hsecond.
  specialize (Hsecond Hstate Hprov2 eq_refl ltac:(lia) Hfail2).
  destruct (wifi_provisioning_clear_and_restart_succeeds e2 Hok (hal Probe (hal Probe d)))
    as (d' & Hc & Hactive & _ & _).
  rewrite Hc in Hsecond.
  assert (Hgone : forall key, key ∈ credential_keys -> nvs d' !! key = None).
  { intros key Hkey.
    rewrite (wifi_provisioning_clear_and_restart_nvs _ _ _ _ Hc), Hopen.
    rewrite erase_credentials_lookup. now rewrite bool_decide_eq_true_2. }
  eexists _, d'. split; [| split; [| split; [exact Hgone | split; [| exact Hactive]]]].
  - cbn [run system_step]. rewrite Hfirst. cbn [run system_step]. rewrite Hsecond.
    reflexivity.
  - reflexivity.
  - intros e. unfold wifi_provisioning_is_provisioned.
    rewrite (Hgone NVS_KEY_PROVISIONED) by (apply list_elem_of_In; simpl; tauto).
    now destruct (negb _).
Qed.

Lemma probe_other_status_erases_credentials_witness :
  exists a' d',
    run (app_wifi_connected, device_provisioned)
      [(env_offline, Act_loop); (env_offline, Act_loop)] = Some (a', d') /\
    s_app_state a' = APP_STATE_AP_MODE /\
    (forall key, key ∈ credential_keys -> nvs d' !! key = None) /\
    (forall e, wifi_provisioning_is_provisioned e d' = false) /\
    s_provisioning_active d' = true.
Proof.
  apply (probe_other_status_erases_credentials probe_redirected probe_redirected
           env_offline env_offline app_wifi_connected device_provisioned);
    try reflexivity; discriminate.
Defined.

(** ** The loop's counters *)

Lemma system_step_counters (e : env) (act : action) (a a' : app_task)
    (d d' : device) :
  system_step e act (a, d) = Some (a', d') ->
  0 <= verification_retries a <= 1 /\ 0 <= heartbeat_counter a <= 29 ->
  0 <= verification_retries a' <= 1 /\ 0 <= heartbeat_counter a' <= 29.
Proof.
  simpl. destruct act.
  - intros Hstep [Hv Hh]. split;
      [eapply app_state_machine_step_retries; eauto |].
    revert Hstep. unfold app_state_machine_step.
    destruct (s_app_state a); split_cases; intros [= <- <-]; simpl in *; zbool; lia.
  - intros [= <- <-]. now destruct ev as [[] ? | [] ? |].
  - destruct (wifi_event_handler e ev d); [| discriminate]. now intros [= <- <-].
  - now intros [= <- <-].
  - now intros [= <- <-].
  - now intros [= <- <-].
  - destruct (Minimal.provision_handler e req d); [| discriminate].
    now intros [= <- <-].
  - now intros [= <- <-].
Qed.

(** X21. In every state reached from [app_main] the loop's failed-probe
    counter is 0 or 1 (the second failure in a row resets it and clears the
    credentials) and the heartbeat counter lies in 0..29; events and
    requests do not touch either. *)
Theorem loop_counters_bounded (b : boot_env) (flash : gmap string nvs_value)
    (l : list (env * action)) (s0 s : app_task * device) :
  app_main b flash = Some s0 -> run s0 l = Some s ->
  0 <= verification_retries (fst s) <= 1 /\ 0 <= heartbeat_counter (fst s) <= 29.
Proof.
  intros Hmain Hrun. destruct s0 as [a0 d0].
  destruct (app_main_start _ _ _ _ Hmain) as (-> & _).
  assert (H0 : 0 <= verification_retries (fst (app_boot, d0)) <= 1 /\
               0 <= heartbeat_counter (fst (app_boot, d0)) <= 29)
    by (simpl; lia).
  revert Hrun H0. generalize (app_boot, d0). clear.
  induction l as [| [e act] l IH]; intros s0; simpl.
  - now intros [= <-].
  - destruct (system_step e act s0) as [s1 |] eqn:Hstep; [| discriminate].
    intros Hrun H0. apply (IH s1 Hrun).
    destruct s0 as [a0 d0], s1 as [a1 d1].
    eapply system_step_counters; eauto.
Qed.

Lemma loop_counters_bounded_witness :
  (verification_retries (fst sample_probing) = 1 /\
   0 <= verification_retries (fst sample_probing) <= 1 /\
   0 <= heartbeat_counter (fst sample_probing) <= 29) /\
  (heartbeat_counter (fst sample_heartbeat) = 2 /\
   0 <= verification_retries (fst sample_heartbeat) <= 1 /\
   0 <= heartbeat_counter (fst sample_heartbeat) <= 29).
Proof.
  split; (split; [reflexivity |]).
  - apply (loop_counters_bounded boot_ok ∅ sample_probing_run sample_start
             sample_probing);
      vm_compute; reflexivity.
  - apply (loop_counters_bounded boot_ok ∅ sample_heartbeat_run sample_start
             sample_heartbeat);
      vm_compute; reflexivity.
Defined.

(** ** The two copies of the provision handler *)

(** X22. The request is one whose Authorization header, if any, has at most
    255 characters, and whose body, as [httpd_req_recv] returns it, has at
    most 383 bytes, so that it fits [content[384]] of the request-tracing
    copy as well as [content[512]] of the older copy and both parse the same
    text.  When the older copy returns, it has refused the request like the
    request-tracing copy: both return [ESP_FAIL], with the same HTTP status,
    and leave the same device.  The older copy does not return exactly when
    the request-tracing copy returns [ESP_OK]: there the older copy reads the
    ssid and the password out of the parsed document after deleting it. *)
Theorem provision_handler_copies_agree (e : env) (req : httpd_req_t) (d : device) :
  (forall auth, req_authorization req = Some auth ->
                (String.length auth <= 255)%nat) ->
  req_recv req <= 383 ->
  match Minimal.provision_handler e req d with
  | Some r =>
      fst (fst r) = ESP_FAIL /\
      fst (fst (provision_handler e req d)) = ESP_FAIL /\
      resp_status (snd (fst r))
        = resp_status (snd (fst (provision_handler e req d))) /\
      snd r = snd (provision_handler e req d)
  | None => fst (fst (provision_handler e req d)) = ESP_OK
  end.
Proof.
  intros Hfit _.
  assert (Hbearer :
    match req_authorization req with
    | Some auth_header =>
        if (1 <? String.length auth_header + 1)%nat then
          if (String.length auth_header + 1 <=? 512)%nat
          then Some (Some (extract_bearer auth_header))
          else None
        else Some None
    | None => Some None
    end = Some (accepted_bearer req)).
  { unfold accepted_bearer. destruct (req_authorization req) as [auth |]; [| reflexivity].
    specialize (Hfit auth eq_refl). cbv zeta.
    replace (String.length auth + 1 <=? 512)%nat with true
      by (symmetry; apply Nat.leb_le; lia).
    replace (String.length auth + 1 <=? 256)%nat with true
      by (symmetry; apply Nat.leb_le; lia).
    now destruct (1 <? String.length auth + 1)%nat. }
  unfold Minimal.provision_handler, provision_handler. cbv zeta. rewrite Hbearer.
  fold (accepted_bearer req). cbv zeta.
  destruct (req_recv req <=? 0); [repeat split |].
  destruct (req_json req) as [root |]; [| repeat split].
  unfold check_required. cbn [fst snd].
  destruct (cJSON_IsString (cJSON_GetObjectItem root "ssid"));
    destruct (cJSON_IsString (cJSON_GetObjectItem root "password"));
    destruct (cJSON_IsString (cJSON_GetObjectItem root "device_id"));
    destruct (cJSON_IsString (cJSON_GetObjectItem root "provisioning_token"));
    cbn [negb orb List.app fst snd];
    try (destruct (cJSON_Print e _); repeat split).
  destruct (save_wifi_credentials e _ _ _ _ _ d) as [err d1].
  destruct (is_ok err); cbn [negb]; [| repeat split].
  now destruct (wifi_provisioning_stop d1) as [ret d2].
Qed.

Lemma provision_handler_copies_agree_witness :
  match Minimal.provision_handler env_ok
          (post_request (Some "Bearer abc") body_partial) device_listening with
  | Some r =>
      fst (fst r) = ESP_FAIL /\
      fst (fst (provision_handler env_ok
                  (post_request (Some "Bearer abc") body_partial)
                  device_listening)) = ESP_FAIL /\
      resp_status (snd (fst r))
        = resp_status (snd (fst (provision_handler env_ok
                                   (post_request (Some "Bearer abc") body_partial)
                                   device_listening))) /\
      snd r = snd (provision_handler env_ok
                     (post_request (Some "Bearer abc") body_partial)
                     device_listening)
  | None =>
      fst (fst (provision_handler env_ok
                  (post_request (Some "Bearer abc") body_partial)
                  device_listening)) = ESP_OK
  end.
Proof.
  apply (provision_handler_copies_agree env_ok
           (post_request (Some "Bearer abc") body_partial) device_listening).
  - intros auth [= <-]. simpl. lia.
  - simpl. lia.
Defined.
